(** * Order checkout, cancellation and status updates of the resin-art store

    A shallow embedding of the order controller (createOrder, cancelOrder,
    updateOrderStatus, generateOrderNumber), of the cart controller's
    getOrCreateCart and price rule, and of the error middleware
    (asyncHandler / errorHandler), over an explicit model of the tables the
    handlers touch.

    Conventions.
    - A handler is a function from the database to a response and the next
      database.  [prisma.$transaction] runs its body on the database and
      keeps the writes only when the body does not throw.
    - Money columns are DECIMAL(10,2); the ORM hands them to JavaScript as
      decimal objects, and the handlers turn them into binary64 numbers with
      [parseFloat].  Numbers are Rocq's primitive binary64 floats.  A
      number written into a money column is rounded to two decimals by the
      engine; the row that is stored, and returned, holds the rounded
      amount.
    - The engine runs in strict mode: a string longer than its column, a
      number outside the range of its column, is refused, and the ORM
      throws (P2000, P2020).  Strings are held as their UTF-8 bytes.
      A value copied from a column into a column of the same type fits
      and is not checked again.
    - Unique keys compare strings byte by byte.  The collation of the
      columns also equates strings that differ in case, in accents or in
      trailing spaces.  The order numbers of a database are taken to be
      generated ones, which differ in a digit when they differ; for
      tracking numbers, which come from requests, the statement on
      status updates asks that no other delivery carries one at all.
    - Integers (ids, stock, quantities, milliseconds) are [Z].
    - A request body field is absent or a string.
    - One request reads the clock once; the engine's CURRENT_TIMESTAMP is
      the same clock.
    - The e-mails sent after a transaction are caught when they fail and
      touch no table; they are left out. *)

From Stdlib Require Import ZArith Lia Floats Uint63 Ascii String.
From stdpp Require Import base option list gmap strings.

Local Open Scope string_scope.
Local Open Scope list_scope.
Local Open Scope Z_scope.

(** ** JavaScript values used by the handlers *)

Module Js.

(** A column of type DECIMAL(10,2) as the ORM returns it: a decimal
    object holding the exact value, here its number of hundredths.  (The
    handlers never use it as a number: they pass it to [parseFloat].) *)
Record Decimal := mkDecimal { hundredths : Z }.

(** Truthiness of a non-null value, per type.  [x || y], [!x] and
    [x ? a : b] all go through it. *)
Class Truthy (A : Type) := truthy : A -> bool.

(** An object is truthy whatever it holds. *)
#[export] Instance truthy_Decimal : Truthy Decimal := fun _ => true.

(** A string is falsy exactly when it is empty. *)
#[export] Instance truthy_string : Truthy string :=
  fun s => negb (String.eqb s "").

(** A number is falsy exactly when it is 0, -0 or NaN. *)
#[export] Instance truthy_number : Truthy float :=
  fun x => negb (PrimFloat.eqb x 0%float || PrimFloat.is_nan x).

(** [null] and [undefined] are falsy. *)
#[export] Instance truthy_nullable {A} `{Truthy A} : Truthy (option A) :=
  fun o => match o with Some a => truthy a | None => false end.

(** [x || y] where [x] may be null or undefined and [y] is a value. *)
Definition or {A} `{Truthy A} (x : option A) (y : A) : A :=
  match x with
  | Some a => if truthy a then a else y
  | None => y
  end.

(** [x || null] and [x || undefined]. *)
Definition or_null {A} `{Truthy A} (x : option A) : option A :=
  match x with
  | Some a => if truthy a then Some a else None
  | None => None
  end.

(** An integer as a JavaScript number. *)
Definition Number (z : Z) : float :=
  if z <? 0 then PrimFloat.opp (PrimFloat.of_uint63 (Uint63.of_Z (- z)))
  else PrimFloat.of_uint63 (Uint63.of_Z z).

(** [parseFloat(d)] for a decimal object: the binary64 number nearest to
    the exact value.  A correctly rounded division of the hundredths by
    100 is that number (the hundredths of a DECIMAL(10,2) are below
    2^53, hence exact). *)
Definition parseFloat (d : Decimal) : float :=
  PrimFloat.div (Number (hundredths d)) (Number 100).

(** Decimal digits, most significant first; [fuel] bounds the number of
    digits produced. *)
Definition digit (d : Z) : Ascii.ascii := Ascii.ascii_of_nat (48 + Z.to_nat d).

Fixpoint digits (fuel : nat) (n : Z) (acc : string) : string :=
  match fuel with
  | O => acc
  | S fuel' =>
      let acc' := String (digit (n mod 10)) acc in
      if n <? 10 then acc' else digits fuel' (n / 10) acc'
  end.

(** [String(n)] and [`${n}`] for an integer [n]. *)
Definition String_of_Z (n : Z) : string :=
  if n <? 0 then "-" +:+ digits (S (Z.to_nat (Z.log2 (- n)))) (- n) ""
  else digits (S (Z.to_nat (Z.log2 n))) n "".

Fixpoint replicate_char (n : nat) (c : Ascii.ascii) : string :=
  match n with O => "" | S n' => String c (replicate_char n' c) end.

(** [s.padStart(width, c)] for a one-character pad. *)
Definition padStart (width : nat) (c : Ascii.ascii) (s : string) : string :=
  replicate_char (width - String.length s) c +:+ s.

(** [s.toUpperCase()].  An ASCII letter goes to its capital.  Ten
    characters outside ASCII go to ASCII capitals: U+00DF to SS, U+0131
    to I, U+017F to S, and the ligatures U+FB00 to U+FB06 to FF, FI, FL,
    FFI, FFL, ST and ST.  Every other character is kept as it is:
    JavaScript sends some of them to other characters outside ASCII, and
    none to ASCII, so that a comparison of the result with an ASCII
    string, the only use the handlers make of it, comes out the same. *)
Definition upper_char (c : Ascii.ascii) : Ascii.ascii :=
  let n := Ascii.nat_of_ascii c in
  if ((97 <=? n) && (n <=? 122))%nat then Ascii.ascii_of_nat (n - 32) else c.

(** The characters of two bytes (UTF-8) whose upper case is ASCII. *)
Definition upper_of_two (c1 c2 : Ascii.ascii) : option string :=
  match Ascii.nat_of_ascii c1, Ascii.nat_of_ascii c2 with
  | 195%nat, 159%nat => Some "SS"     (* U+00DF *)
  | 196%nat, 177%nat => Some "I"      (* U+0131 *)
  | 197%nat, 191%nat => Some "S"      (* U+017F *)
  | _, _ => None
  end.

(** The characters of three bytes whose upper case is ASCII. *)
Definition upper_of_three (c1 c2 c3 : Ascii.ascii) : option string :=
  match Ascii.nat_of_ascii c1, Ascii.nat_of_ascii c2, Ascii.nat_of_ascii c3 with
  | 239%nat, 172%nat, 128%nat => Some "FF"     (* U+FB00 *)
  | 239%nat, 172%nat, 129%nat => Some "FI"
  | 239%nat, 172%nat, 130%nat => Some "FL"
  | 239%nat, 172%nat, 131%nat => Some "FFI"
  | 239%nat, 172%nat, 132%nat => Some "FFL"
  | 239%nat, 172%nat, 133%nat => Some "ST"
  | 239%nat, 172%nat, 134%nat => Some "ST"     (* U+FB06 *)
  | _, _, _ => None
  end.

Fixpoint toUpperCase (s : string) : string :=
  match s with
  | EmptyString => EmptyString
  | String c1 s1 =>
      match s1 with
      | EmptyString => String (upper_char c1) EmptyString
      | String c2 s2 =>
          match upper_of_two c1 c2 with
          | Some u => u +:+ toUpperCase s2
          | None =>
              match s2 with
              | EmptyString => String (upper_char c1) (toUpperCase s1)
              | String c3 s3 =>
                  match upper_of_three c1 c2 c3 with
                  | Some u => u +:+ toUpperCase s3
                  | None => String (upper_char c1) (toUpperCase s1)
                  end
              end
          end
      end
  end.

(** [parseInt(n)] for a number [n] that is an integer.  JavaScript reads
    the integer from the number's notation: the digits of [n] when [n] is
    below 10^21 in magnitude, and a notation with an exponent from there
    on ("1e+21", "-2.5e+22"), of which [parseInt] reads the digit before
    the point.  (A number of a request body is the integer its JSON text
    denotes; beyond 2^53 it is taken to have at most 15 significant
    digits, so that the notation of the number starts with the digits of
    the integer.) *)
Fixpoint leadingDigit (fuel : nat) (n : Z) : Z :=
  match fuel with
  | O => n
  | S fuel' => if n <? 10 then n else leadingDigit fuel' (n / 10)
  end.

Definition parseInt (n : Z) : Z :=
  if Z.abs n <? 10 ^ 21 then n
  else Z.sgn n * leadingDigit (S (Z.to_nat (Z.log2 (Z.abs n)))) (Z.abs n).

(** [parseInt] of a string of decimal digits (the reading of a counter
    field); [None] where JavaScript gives NaN. *)
Definition digit_value (c : Ascii.ascii) : option Z :=
  let n := Ascii.nat_of_ascii c in
  if ((48 <=? n) && (n <=? 57))%nat then Some (Z.of_nat n - 48) else None.

Fixpoint parseDigits (s : string) (acc : Z) : option Z :=
  match s with
  | EmptyString => Some acc
  | String c s' =>
      match digit_value c with
      | Some d => parseDigits s' (10 * acc + d)
      | None => None
      end
  end.

End Js.

Import Js.

(** ** The tables (prisma/migrations, the columns the handlers read or write) *)

Inductive Role := USER | ADMIN.

(** [req.user], set by the authentication middleware. *)
Record AuthUser := mkAuthUser { user_id : Z; user_role : Role }.

Inductive OrderStatus :=
  PENDING | CONFIRMED | PROCESSING | SHIPPED | DELIVERED | CANCELLED.

#[export] Instance OrderStatus_eq_dec : EqDecision OrderStatus.
Proof. solve_decision. Defined.

Inductive DeliveryStatus :=
  D_PENDING | D_PROCESSING | D_SHIPPED | D_DELIVERED | D_RETURNED.

Record Product := mkProduct {
  p_name : string;
  p_price : Decimal;
  p_discountPrice : option Decimal;   (* DECIMAL(10,2) NULL *)
  p_stock : Z;
  p_images : option (list string);    (* JSON NULL *)
  p_isActive : bool;
}.

Record Cart := mkCart { cart_id : Z; cart_userId : Z; cart_isActive : bool }.

Record CartItem := mkCartItem {
  ci_id : Z;
  ci_cartId : Z;
  ci_productId : Z;
  ci_quantity : Z;
  ci_customization : option string;
  ci_priceAtTime : Decimal;
}.

Record Order := mkOrder {
  o_id : Z;
  o_orderNumber : string;
  o_userId : Z;
  o_status : OrderStatus;
  o_subtotal : Decimal;
  o_shippingCost : Decimal;
  o_taxAmount : Decimal;
  o_totalAmount : Decimal;
  o_shippingAddress : string;
  o_shippingPhone : string;
  o_notes : option string;
  o_confirmedAt : option Z;
  o_shippedAt : option Z;
  o_deliveredAt : option Z;
  o_cancelledAt : option Z;
  o_cancelReason : option string;
  o_createdAt : Z;
}.

Record OrderItem := mkOrderItem {
  oi_orderId : Z;
  oi_productId : Z;
  oi_quantity : Z;
  oi_unitPrice : Decimal;
  oi_totalPrice : Decimal;
  oi_productName : string;
  oi_productImage : option string;
  oi_customization : option string;
}.

Record OrderTracking := mkOrderTracking {
  ot_orderId : Z;
  ot_status : string;
  ot_description : string;
  ot_updatedBy : option Z;
  ot_timestamp : Z;
}.

Record Delivery := mkDelivery {
  d_orderId : Z;
  d_status : DeliveryStatus;
  d_trackingNumber : option string;
  d_courierCompany : option string;
  d_address : string;
  d_city : string;
  d_country : string;
  d_actualDelivery : option Z;
}.

(** The database: products by primary key, the other tables as their rows
    in insertion order, and the AUTO_INCREMENT counters of the two tables
    whose keys the handlers use. *)
Record DB := mkDB {
  products : gmap Z Product;
  carts : list Cart;
  cartItems : list CartItem;
  orders : list Order;
  orderItems : list OrderItem;
  orderTracking : list OrderTracking;
  deliveries : list Delivery;
  nextCartId : Z;
  nextOrderId : Z;
}.

Definition set_products (f : gmap Z Product -> gmap Z Product) (db : DB) : DB :=
  mkDB (f (products db)) (carts db) (cartItems db) (orders db) (orderItems db)
       (orderTracking db) (deliveries db) (nextCartId db) (nextOrderId db).

Definition set_carts (f : list Cart -> list Cart) (db : DB) : DB :=
  mkDB (products db) (f (carts db)) (cartItems db) (orders db) (orderItems db)
       (orderTracking db) (deliveries db) (nextCartId db) (nextOrderId db).

Definition set_cartItems (f : list CartItem -> list CartItem) (db : DB) : DB :=
  mkDB (products db) (carts db) (f (cartItems db)) (orders db) (orderItems db)
       (orderTracking db) (deliveries db) (nextCartId db) (nextOrderId db).

Definition set_orders (f : list Order -> list Order) (db : DB) : DB :=
  mkDB (products db) (carts db) (cartItems db) (f (orders db)) (orderItems db)
       (orderTracking db) (deliveries db) (nextCartId db) (nextOrderId db).

Definition set_orderItems (f : list OrderItem -> list OrderItem) (db : DB) : DB :=
  mkDB (products db) (carts db) (cartItems db) (orders db) (f (orderItems db))
       (orderTracking db) (deliveries db) (nextCartId db) (nextOrderId db).

Definition set_orderTracking (f : list OrderTracking -> list OrderTracking) (db : DB) : DB :=
  mkDB (products db) (carts db) (cartItems db) (orders db) (orderItems db)
       (f (orderTracking db)) (deliveries db) (nextCartId db) (nextOrderId db).

Definition set_deliveries (f : list Delivery -> list Delivery) (db : DB) : DB :=
  mkDB (products db) (carts db) (cartItems db) (orders db) (orderItems db)
       (orderTracking db) (f (deliveries db)) (nextCartId db) (nextOrderId db).

Definition set_nextCartId (n : Z) (db : DB) : DB :=
  mkDB (products db) (carts db) (cartItems db) (orders db) (orderItems db)
       (orderTracking db) (deliveries db) n (nextOrderId db).

Definition set_nextOrderId (n : Z) (db : DB) : DB :=
  mkDB (products db) (carts db) (cartItems db) (orders db) (orderItems db)
       (orderTracking db) (deliveries db) (nextCartId db) n.

(** ** Column types

    What the engine does with a value written into a column
    (prisma/migrations; strict mode). *)

(** The characters of a string, as VARCHAR(n) counts them: a byte that
    continues a character started before it does not count. *)
Definition is_continuation (c : Ascii.ascii) : bool :=
  let n := Ascii.nat_of_ascii c in ((128 <=? n) && (n <? 192))%nat.

(** The number of bytes of the character a byte starts. *)
Definition utf8_width (c : Ascii.ascii) : nat :=
  let n := Ascii.nat_of_ascii c in
  if (n <? 192)%nat then 1%nat
  else if (n <? 224)%nat then 2%nat
  else if (n <? 240)%nat then 3%nat
  else 4%nat.

Fixpoint characters_from (pending : nat) (s : string) : nat :=
  match s with
  | EmptyString => O
  | String c s' =>
      match pending with
      | S pending' =>
          if is_continuation c then characters_from pending' s'
          else S (characters_from (utf8_width c - 1) s')
      | O => S (characters_from (utf8_width c - 1) s')
      end
  end.

Definition characters (s : string) : nat := characters_from 0 s.

(** VARCHAR(n): at most [n] characters. *)
Definition varchar (n : nat) (s : string) : bool := (characters s <=? n)%nat.

(** TEXT: at most 65535 bytes. *)
Definition text (s : string) : bool := Z.of_nat (String.length s) <=? 65535.

(** INT: 32 bits, signed. *)
Definition int_column (z : Z) : bool := (-2147483648 <=? z) && (z <=? 2147483647).

(** A column that admits NULL. *)
Definition nullable {A} (fits : A -> bool) (o : option A) : bool :=
  match o with Some a => fits a | None => true end.

(** A number written into DECIMAL(10,2) is rounded to two decimals, half
    away from zero.  (The amounts the handlers compute are sums of
    products of an amount in hundredths and an integer: they lie within
    a rounding error of such an amount, far from the half of a
    hundredth.) *)
Definition roundDecimal (x : float) : Decimal :=
  match Prim2SF x with
  | S754_finite s m e =>
      let n := 100 * Z.pos m in
      let q := if 0 <=? e then n * 2 ^ e
               else (2 * n + 2 ^ (- e)) / (2 * 2 ^ (- e)) in
      mkDecimal (if s then - q else q)
  | _ => mkDecimal 0
  end.

(** DECIMAL(10,2) holds the amounts below 10^8 in magnitude. *)
Definition decimal_fits (x : float) : bool :=
  match Prim2SF x with
  | S754_zero _ => true
  | S754_finite _ _ _ => Z.abs (hundredths (roundDecimal x)) <? 10 ^ 10
  | _ => false
  end.

(** ** Errors and the error middleware *)

(** What a handler throws: the status it had set on the response before
    throwing (200 when it set none), the ORM's error code if the ORM threw,
    and the message. *)
Record Thrown := mkThrown {
  thrown_resStatus : Z;
  thrown_code : option string;
  thrown_message : string;
  thrown_metaField : option string;   (* err.meta?.target?.[0], err.meta?.field_name *)
}.

(** [res.status(code); throw new Error(message)] *)
Definition throwStatus (code : Z) (message : string) : Thrown :=
  mkThrown code None message None.

(** An error raised by the ORM; the handler has set no status.  The
    constraint named in the error's [meta] is not modelled. *)
Definition prismaError (code message : string) : Thrown :=
  mkThrown 200 (Some code) message None.

(** The engine refuses a string longer than its column. *)
Definition dataTooLong : Thrown :=
  prismaError "P2000" "The provided value for the column is too long for the column's type.".

(** The engine refuses a number outside the range of its column. *)
Definition valueOutOfRange : Thrown :=
  prismaError "P2020" "Value out of range for the type.".

Record Response (A : Type) := mkResponse {
  res_status : Z;
  res_success : bool;
  res_message : string;
  res_data : option A;
  res_code : option string;
}.
Arguments mkResponse {A}.
Arguments res_status {A}.
Arguments res_success {A}.
Arguments res_message {A}.
Arguments res_data {A}.
Arguments res_code {A}.

Definition code_is (c : string) (e : Thrown) : bool :=
  match thrown_code e with Some c' => String.eqb c c' | None => false end.

(** errorHandler (middleware/errorMiddleware.js), on the errors the order
    handlers can throw: the status set by the handler, 500 when none was
    set, overridden for the ORM's codes. *)
Definition errorHandler {A} (err : Thrown) : Response A :=
  let statusCode := if thrown_resStatus err =? 200 then 500 else thrown_resStatus err in
  let message := thrown_message err in
  let '(statusCode, message) :=
    if code_is "P2002" err
    then (400, "A record with this " +:+ or (thrown_metaField err) "field"
                 +:+ " already exists.")
    else (statusCode, message) in
  let '(statusCode, message) :=
    if code_is "P2025" err then (404, "Record not found.") else (statusCode, message) in
  let '(statusCode, message) :=
    if code_is "P2003" err
    then (400, "Invalid " +:+ or (thrown_metaField err) "reference"
                 +:+ ". The referenced record does not exist.")
    else (statusCode, message) in
  mkResponse statusCode false message None (thrown_code err).

(** ** Database operations: a state and error monad *)

(** A step of a transaction body: it throws, or returns a value and the
    next database. *)
Definition Tx (A : Type) : Type := DB -> Thrown + (A * DB).

Definition ret {A} (a : A) : Tx A := fun db => inr (a, db).

Definition bind {A B} (m : Tx A) (k : A -> Tx B) : Tx B :=
  fun db => match m db with
            | inl e => inl e
            | inr (a, db') => k a db'
            end.

Definition raise {A} (e : Thrown) : Tx A := fun _ => inl e.

#[export] Instance Tx_ret : MRet Tx := @ret.
#[export] Instance Tx_bind : MBind Tx := fun A B k m => bind m k.

(** [for (const x of xs) await f(x)] *)
Fixpoint forEach {A} (xs : list A) (f : A -> Tx unit) : Tx unit :=
  match xs with
  | [] => ret tt
  | x :: xs' => f x;; forEach xs' f
  end.

(** [prisma.$transaction(body)]: the writes of [body] are kept when it
    returns and dropped when it throws. *)
Definition transaction {A} (body : Tx A) (db : DB) : (Thrown + A) * DB :=
  match body db with
  | inl e => (inl e, db)
  | inr (a, db') => (inr a, db')
  end.

(** ** The clock *)

(** [now] is the time in milliseconds since the epoch (UTC);
    [tzOffsetMinutes] is the server's local time zone, east of UTC. *)
Record Clock := mkClock { now : Z; tzOffsetMinutes : Z }.

Definition msPerDay : Z := 86400000.

(** The year of a day counted from 1970-01-01 (Gregorian calendar). *)
Definition yearOfDays (d : Z) : Z :=
  let z := d + 719468 in
  let era := z / 146097 in
  let doe := z - era * 146097 in
  let yoe := (doe - doe / 1460 + doe / 36524 - doe / 146096) / 365 in
  let doy := doe - (365 * yoe + yoe / 4 - yoe / 100) in
  let mp := (5 * doy + 2) / 153 in
  let m := if mp <? 10 then mp + 3 else mp - 9 in
  if m <=? 2 then yoe + era * 400 + 1 else yoe + era * 400.

(** [new Date().getFullYear()]: the year in local time. *)
Definition getFullYear (clock : Clock) : Z :=
  yearOfDays ((now clock + tzOffsetMinutes clock * 60000) / msPerDay).

(** [new Date(`${year}-01-01`)]: a date-only string is midnight UTC. *)
Definition startOfYear (year : Z) : Z :=
  let y := year - 1 in
  (365 * y + y / 4 - y / 100 + y / 400 - 719162) * msPerDay.

(** ** ORM calls *)

Definition string_of_OrderStatus (st : OrderStatus) : string :=
  match st with
  | PENDING => "PENDING" | CONFIRMED => "CONFIRMED" | PROCESSING => "PROCESSING"
  | SHIPPED => "SHIPPED" | DELIVERED => "DELIVERED" | CANCELLED => "CANCELLED"
  end.

Definition allOrderStatuses : list OrderStatus :=
  [PENDING; CONFIRMED; PROCESSING; SHIPPED; DELIVERED; CANCELLED].

(** The enum value a string denotes, if any (the ORM's check of an enum
    column on write). *)
Definition OrderStatus_of_string (s : string) : option OrderStatus :=
  List.find (fun st => String.eqb (string_of_OrderStatus st) s) allOrderStatuses.

(** [array.includes(x)] on strings. *)
Definition includes (xs : list string) (x : string) : bool :=
  existsb (String.eqb x) xs.

(** prisma.order.count({ where: { createdAt: { gte: t } } }) *)
Definition order_count_gte (t : Z) (db : DB) : Z :=
  Z.of_nat (length (List.filter (fun o => t <=? o_createdAt o) (orders db))).

(** prisma.cart.findFirst({ where: { userId, isActive: true } }) *)
Definition cart_findFirst (userId : Z) (db : DB) : option Cart :=
  List.find (fun c => (cart_userId c =? userId) && cart_isActive c) (carts db).

(** The [items] of a cart with [include: { product: true }]: the cart's
    rows joined with their products (every row has one:
    cart_items_product_id_fkey). *)
Definition cart_items (cartId : Z) (db : DB) : list (CartItem * Product) :=
  omap (fun ci => if ci_cartId ci =? cartId
                  then (fun p => (ci, p)) <$> products db !! ci_productId ci
                  else None)
       (cartItems db).

(** prisma.order.findUnique({ where: { id } }) *)
Definition order_findUnique (orderId : Z) (db : DB) : option Order :=
  List.find (fun o => o_id o =? orderId) (orders db).

(** The [items] of an order with [include: { items: true }]. *)
Definition order_items (orderId : Z) (db : DB) : list OrderItem :=
  List.filter (fun oi => oi_orderId oi =? orderId) (orderItems db).

Record OrderItemData := mkOrderItemData {
  oid_productId : Z;
  oid_quantity : Z;
  oid_unitPrice : Decimal;
  oid_totalPrice : float;
  oid_productName : string;
  oid_productImage : option string;
  oid_customization : option string;
}.

Record OrderData := mkOrderData {
  od_orderNumber : string;
  od_userId : Z;
  od_subtotal : float;
  od_shippingCost : float;
  od_taxAmount : float;
  od_totalAmount : float;
  od_shippingAddress : string;
  od_shippingPhone : string;
  od_notes : option string;
  od_items : list OrderItemData;
}.

(** The row of an order item: the line total is rounded by its column. *)
Definition orderItem_of (orderId : Z) (d : OrderItemData) : OrderItem :=
  mkOrderItem orderId (oid_productId d) (oid_quantity d) (oid_unitPrice d)
              (roundDecimal (oid_totalPrice d)) (oid_productName d) (oid_productImage d)
              (oid_customization d).

(** The row of an order, with its id and the time of its creation. *)
Definition order_of_data (clock : Clock) (orderId : Z) (d : OrderData) : Order :=
  mkOrder orderId (od_orderNumber d) (od_userId d) PENDING
          (roundDecimal (od_subtotal d)) (roundDecimal (od_shippingCost d))
          (roundDecimal (od_taxAmount d)) (roundDecimal (od_totalAmount d))
          (od_shippingAddress d) (od_shippingPhone d) (od_notes d)
          None None None None None (now clock).

(** The amounts of an order fit their columns (subtotal, shipping_cost,
    tax_amount, total_amount: DECIMAL(10,2)). *)
Definition amounts_fit (d : OrderData) : bool :=
  decimal_fits (od_subtotal d) && decimal_fits (od_shippingCost d)
  && decimal_fits (od_taxAmount d) && decimal_fits (od_totalAmount d).

(** The strings of an order fit their columns (shipping_address TEXT,
    shipping_phone VARCHAR(15), notes TEXT).  An order number has the
    three characters of the prefix, the year, a dash and the counter, far
    fewer than the 50 of its column. *)
Definition strings_fit (d : OrderData) : bool :=
  text (od_shippingAddress d) && varchar 15 (od_shippingPhone d)
  && nullable text (od_notes d).

Definition product_exists (db : DB) (productId : Z) : bool :=
  match products db !! productId with Some _ => true | None => false end.

(** What the engine refuses of an order item, if anything: a line total
    outside DECIMAL(10,2), an image longer than VARCHAR(255), a product
    that does not exist (order_items_product_id_fkey).  The quantity, the
    unit price and the name are copies of columns of their own types. *)
Definition orderItem_refused (db : DB) (it : OrderItemData) : option Thrown :=
  if negb (decimal_fits (oid_totalPrice it)) then Some valueOutOfRange
  else if negb (nullable (varchar 255) (oid_productImage it)) then Some dataTooLong
  else if negb (product_exists db (oid_productId it))
  then Some (prismaError "P2003" "Foreign key constraint failed")
  else None.

(** tx.order.create({ data: { ..., status: 'PENDING', items: { create } },
    include: { items } }).  The row of the order is inserted first, then
    the rows of its items in order; the values of a row are checked
    against its columns before its keys.  The order number is unique
    (orders_order_number_key).  The new row gets the next id and the
    current time as [createdAt]. *)
Definition order_create (clock : Clock) (d : OrderData) : Tx (Order * list OrderItem) :=
  fun db =>
    if negb (amounts_fit d) then inl valueOutOfRange
    else if negb (strings_fit d) then inl dataTooLong
    else if existsb (fun o => String.eqb (o_orderNumber o) (od_orderNumber d)) (orders db)
    then inl (prismaError "P2002" "Unique constraint failed")
    else
      match head (omap (orderItem_refused db) (od_items d)) with
      | Some err => inl err
      | None =>
          let order := order_of_data clock (nextOrderId db) d in
          let items := List.map (orderItem_of (nextOrderId db)) (od_items d) in
          inr ((order, items),
               set_nextOrderId (nextOrderId db + 1)
                 (set_orderItems (fun l => l ++ items)
                    (set_orders (fun l => l ++ [order]) db)))
      end.

Definition with_stock (p : Product) (stock : Z) : Product :=
  mkProduct (p_name p) (p_price p) (p_discountPrice p) stock (p_images p) (p_isActive p).

(** tx.product.update({ where: { id }, data: { stock: { increment: n } } });
    [decrement: n] is [increment: -n].  The column is an INT. *)
Definition product_update_stock (productId : Z) (n : Z) : Tx unit :=
  fun db =>
    match products db !! productId with
    | None => inl (prismaError "P2025" "Record to update not found.")
    | Some p =>
        if int_column (p_stock p + n)
        then inr (tt, set_products (insert productId (with_stock p (p_stock p + n))) db)
        else inl valueOutOfRange
    end.

(** tx.orderTracking.create({ data }); status is a VARCHAR(50) and
    description a TEXT. *)
Definition orderTracking_create (row : OrderTracking) : Tx unit :=
  fun db =>
    if varchar 50 (ot_status row) && text (ot_description row)
    then inr (tt, set_orderTracking (fun l => l ++ [row]) db)
    else inl dataTooLong.

(** tx.cartItem.deleteMany({ where: { cartId } }) *)
Definition cartItem_deleteMany (cartId : Z) : Tx unit :=
  fun db => inr (tt, set_cartItems (List.filter (fun ci => negb (ci_cartId ci =? cartId))) db).

(** tx.cart.delete({ where: { id } }) *)
Definition cart_delete (cartId : Z) : Tx unit :=
  fun db =>
    if existsb (fun c => cart_id c =? cartId) (carts db)
    then inr (tt, set_carts (List.filter (fun c => negb (cart_id c =? cartId))) db)
    else inl (prismaError "P2025" "Record to delete does not exist.").

(** prisma.cart.create({ data: { userId, isActive: true } }) *)
Definition cart_create (userId : Z) (db : DB) : Cart * DB :=
  let cart := mkCart (nextCartId db) userId true in
  (cart, set_nextCartId (nextCartId db + 1) (set_carts (fun l => l ++ [cart]) db)).

(** asyncHandler with errorHandler behind it: what the client receives
    when the handler returns [ok] or throws. *)
Definition asyncHandler {A} (r : (Thrown + Response A) * DB) : Response A * DB :=
  match r with
  | (inl err, db) => (errorHandler err, db)
  | (inr res, db) => (res, db)
  end.

(** ** Order controller: generateOrderNumber *)

(** Format: RA-YYYY-XXXXXX *)
Definition generateOrderNumber (clock : Clock) (db : DB) : string :=
  let year := getFullYear clock in
  let count := order_count_gte (startOfYear year) db in
  "RA-" +:+ String_of_Z year +:+ "-" +:+ padStart 6 "0"%char (String_of_Z (count + 1)).

(** ** Order controller: createOrder *)

Record CreateOrderBody := mkCreateOrderBody {
  shippingAddress : option string;
  shippingPhone : option string;
  paymentMethod : option string;
  notes : option string;
}.

(** The price rule of the checkout and of the cart:
    [product.discountPrice || product.price]. *)
Definition unitPriceOf (product : Product) : Decimal :=
  or (p_discountPrice product) (p_price product).

(** [product.images?.[0] || null] *)
Definition firstImage (product : Product) : option string :=
  or_null (p_images product ≫= head).

(** `${name} is no longer available` *)
Definition unavailableMessage (product : Product) : string :=
  p_name product +:+ " is no longer available".

(** `Insufficient stock for ${name}. Only ${stock} available.` *)
Definition insufficientStockMessage (product : Product) : string :=
  "Insufficient stock for " +:+ p_name product +:+ ". Only "
  +:+ String_of_Z (p_stock product) +:+ " available.".

(** The loop over [cart.items]: it throws at the first line whose product
    is inactive or short of stock, and otherwise adds the line to the
    subtotal and to the order items. *)
Fixpoint validateItems (items : list (CartItem * Product))
    (subtotal : float) (orderItems : list OrderItemData)
    : Thrown + (float * list OrderItemData) :=
  match items with
  | [] => inr (subtotal, orderItems)
  | (item, product) :: rest =>
      if negb (p_isActive product) then
        inl (throwStatus 400 (unavailableMessage product))
      else if p_stock product <? ci_quantity item then
        inl (throwStatus 400 (insufficientStockMessage product))
      else
        let unitPrice := unitPriceOf product in
        let totalPrice := PrimFloat.mul (parseFloat unitPrice) (Number (ci_quantity item)) in
        validateItems rest (PrimFloat.add subtotal totalPrice)
          (orderItems ++ [mkOrderItemData (ci_productId item) (ci_quantity item)
                            unitPrice totalPrice (p_name product)
                            (firstImage product) (ci_customization item)])
  end.

Definition freeShippingThreshold : float := 5000%float.
Definition flatShippingFee : float := 200%float.

(** What the handler has computed when it opens the transaction: the cart
    it read, and the order row to insert (with the order number). *)
Record Checkout := mkCheckout {
  co_cart : Cart;
  co_items : list (CartItem * Product);
  co_data : OrderData;
}.

(** createOrder up to the transaction: validation of the input, the read
    of the cart, the loop over its lines, the totals and the order number.
    Nothing is written.  The handler reads the database twice, and other
    requests may commit in between: [db] is the database when it reads
    the cart with its products, [db_count] the database when it counts
    the orders of the year. *)
Definition prepareOrder_at (clock : Clock) (user : AuthUser) (body : CreateOrderBody)
    (db db_count : DB) : Thrown + Checkout :=
  if negb (truthy (shippingAddress body)) || negb (truthy (shippingPhone body)) then
    inl (throwStatus 400 "Please provide shipping address and phone number")
  else
    match cart_findFirst (user_id user) db with
    | None => inl (throwStatus 400 "Your cart is empty")
    | Some cart =>
        let items := cart_items (cart_id cart) db in
        if (length items =? 0)%nat then inl (throwStatus 400 "Your cart is empty")
        else
          match validateItems items 0%float [] with
          | inl err => inl err
          | inr (subtotal, orderItems) =>
              let shippingCost :=
                if PrimFloat.leb freeShippingThreshold subtotal
                then 0%float else flatShippingFee in
              let taxAmount := 0%float in
              let totalAmount :=
                PrimFloat.add (PrimFloat.add subtotal shippingCost) taxAmount in
              let orderNumber := generateOrderNumber clock db_count in
              inr (mkCheckout cart items
                     (mkOrderData orderNumber (user_id user) subtotal shippingCost
                        taxAmount totalAmount
                        (default "" (shippingAddress body))
                        (default "" (shippingPhone body))
                        (or_null (notes body))
                        orderItems))
          end
    end.

(** The same when no other request commits between the two reads. *)
Definition prepareOrder (clock : Clock) (user : AuthUser) (body : CreateOrderBody)
    (db : DB) : Thrown + Checkout :=
  prepareOrder_at clock user body db db.

(** The body of createOrder's transaction. *)
Definition createOrderTx (clock : Clock) (co : Checkout) : Tx (Order * list OrderItem) :=
  (* 1. Create order *)
  result ← order_create clock (co_data co);
  (* 2. Update product stock *)
  forEach (co_items co)
    (fun '(item, _) => product_update_stock (ci_productId item) (- ci_quantity item));;
  (* 3. Create initial tracking entry *)
  orderTracking_create
    (mkOrderTracking (o_id (fst result)) "Order Placed"
       "Your order has been placed successfully" None (now clock));;
  (* 4. Clear the cart items *)
  cartItem_deleteMany (cart_id (co_cart co));;
  (* 5. Delete the cart *)
  cart_delete (cart_id (co_cart co));;
  mret result.

(** createOrder before asyncHandler, among other requests: [db_cart] and
    [db_count] are the databases of its two reads, [db] is the database
    when its transaction starts.  The transaction runs on [db] with what
    the handler computed from its reads.  The confirmation e-mail is sent
    after the transaction inside a try/catch and touches no table. *)
Definition createOrder_handler_at (clock : Clock) (user : AuthUser)
    (body : CreateOrderBody) (db_cart db_count db : DB)
    : (Thrown + Response (Order * list OrderItem)) * DB :=
  match prepareOrder_at clock user body db_cart db_count with
  | inl err => (inl err, db)
  | inr co =>
      match transaction (createOrderTx clock co) db with
      | (inl err, db') => (inl err, db')
      | (inr result, db') =>
          (inr (mkResponse 201 true
                  "Order placed successfully! Check your email for confirmation. (SRS-50)"
                  (Some result) None), db')
      end
  end.

Definition createOrder_at (clock : Clock) (user : AuthUser) (body : CreateOrderBody)
    (db_cart db_count db : DB) : Response (Order * list OrderItem) * DB :=
  asyncHandler (createOrder_handler_at clock user body db_cart db_count db).

(** createOrder when no other request commits while it runs. *)
Definition createOrder_handler (clock : Clock) (user : AuthUser) (body : CreateOrderBody)
    (db : DB) : (Thrown + Response (Order * list OrderItem)) * DB :=
  createOrder_handler_at clock user body db db db.

Definition createOrder (clock : Clock) (user : AuthUser) (body : CreateOrderBody)
    (db : DB) : Response (Order * list OrderItem) * DB :=
  asyncHandler (createOrder_handler clock user body db).

(** ** Cart controller: getOrCreateCart and the price lines of getCart *)

Definition getOrCreateCart (userId : Z) (db : DB) : Cart * DB :=
  match cart_findFirst userId db with
  | Some cart => (cart, db)
  | None => cart_create userId db
  end.

Record CartLine := mkCartLine {
  cl_id : Z;
  cl_quantity : Z;
  cl_currentPrice : Decimal;
  cl_itemTotal : float;
  cl_inStock : bool;
}.

Definition cartLine_of (line : CartItem * Product) : CartLine :=
  let '(item, product) := line in
  let currentPrice := unitPriceOf product in
  mkCartLine (ci_id item) (ci_quantity item) currentPrice
    (PrimFloat.mul (parseFloat currentPrice) (Number (ci_quantity item)))
    (ci_quantity item <=? p_stock product).

(** getCart: the cart's id, its lines and their subtotal.  The code asks
    for the lines most recently added first; here they come in the order
    of the table, and the statements on getCart hold line by line or of
    sums over the lines, whatever their order. *)
Definition getCart (user : AuthUser) (db : DB) : (Z * list CartLine * float) * DB :=
  let '(cart, db') := getOrCreateCart (user_id user) db in
  let lines := List.map cartLine_of (cart_items (cart_id cart) db') in
  ((cart_id cart, lines,
    fold_left (fun subtotal l => PrimFloat.add subtotal (cl_itemTotal l)) lines 0%float),
   db').

(** ** Order controller: cancelOrder *)

Record CancelBody := mkCancelBody { reason : option string }.

Definition with_cancelled (o : Order) (at_ : Z) (why : string) : Order :=
  mkOrder (o_id o) (o_orderNumber o) (o_userId o) CANCELLED
          (o_subtotal o) (o_shippingCost o) (o_taxAmount o) (o_totalAmount o)
          (o_shippingAddress o) (o_shippingPhone o) (o_notes o)
          (o_confirmedAt o) (o_shippedAt o) (o_deliveredAt o)
          (Some at_) (Some why) (o_createdAt o).

(** tx.order.update({ where: { id }, data }): the row with that id is
    replaced by [f] of it; [fits] tells whether the strings of [data] fit
    their columns. *)
Definition order_update (orderId : Z) (fits : bool) (f : Order -> Order) : Tx unit :=
  fun db =>
    if existsb (fun o => o_id o =? orderId) (orders db)
    then
      if fits
      then inr (tt, set_orders (List.map (fun o => if o_id o =? orderId then f o else o)) db)
      else inl dataTooLong
    else inl (prismaError "P2025" "Record to update not found.").

Definition cancellableStatuses : list string := ["PENDING"; "CONFIRMED"].

(** The body of cancelOrder's transaction; [items] are the order's items
    as read before the transaction. *)
Definition cancelOrderTx (clock : Clock) (user : AuthUser) (orderId : Z)
    (items : list OrderItem) (reason : option string) : Tx unit :=
  (* Update order status; cancel_reason is a VARCHAR(255) *)
  order_update orderId (varchar 255 (or reason "Cancelled by customer"))
    (fun o => with_cancelled o (now clock) (or reason "Cancelled by customer"));;
  (* Restore product stock *)
  forEach items (fun item => product_update_stock (oi_productId item) (oi_quantity item));;
  (* Add tracking entry *)
  orderTracking_create
    (mkOrderTracking orderId "Cancelled" (or reason "Order cancelled by customer")
       (Some (user_id user)) (now clock)).

(** cancelOrder before asyncHandler; [id] is [parseInt(req.params.id)],
    [None] when it is NaN.  The notification e-mail touches no table. *)
Definition cancelOrder_handler (clock : Clock) (user : AuthUser) (id : option Z)
    (body : CancelBody) (db : DB) : (Thrown + Response unit) * DB :=
  match id with
  | None => (inl (throwStatus 400 "Invalid order ID"), db)
  | Some orderId =>
      match order_findUnique orderId db with
      | None => (inl (throwStatus 404 "Order not found"), db)
      | Some order =>
          let items := order_items orderId db in
          (* Check authorization *)
          let isAdmin := match user_role user with ADMIN => true | USER => false end in
          let isOwner := o_userId order =? user_id user in
          if negb isAdmin && negb isOwner then
            (inl (throwStatus 403 "Not authorized to cancel this order"), db)
          (* SRS-55: Can only cancel before processing/shipping *)
          else if negb isAdmin
                  && negb (includes cancellableStatuses (string_of_OrderStatus (o_status order))) then
            (inl (throwStatus 400
                    "Order cannot be cancelled at this stage. Please contact support."), db)
          (* SRS-57: Admin needs reason *)
          else if isAdmin && negb isOwner && negb (truthy (reason body)) then
            (inl (throwStatus 400 "Admin must provide a reason for cancellation"), db)
          else
            match transaction (cancelOrderTx clock user orderId items (reason body)) db with
            | (inl err, db') => (inl err, db')
            | (inr _, db') =>
                (inr (mkResponse 200 true "Order cancelled successfully (SRS-56)" None None),
                 db')
            end
      end
  end.

Definition cancelOrder (clock : Clock) (user : AuthUser) (id : option Z)
    (body : CancelBody) (db : DB) : Response unit * DB :=
  asyncHandler (cancelOrder_handler clock user id body db).

(** ** Order controller: updateOrderStatus *)

(** [req.body]: each field is absent or a string. *)
Record StatusBody := mkStatusBody {
  status : option string;
  description : option string;
  trackingNumber : option string;
  courierCompany : option string;
}.

Definition validStatuses : list string :=
  ["PENDING"; "CONFIRMED"; "PROCESSING"; "SHIPPED"; "DELIVERED"; "CANCELLED"].

(** [updateData]: the new status and the milestone timestamp it stamps. *)
Record UpdateData := mkUpdateData {
  ud_status : string;
  ud_confirmedAt : option Z;
  ud_shippedAt : option Z;
  ud_deliveredAt : option Z;
}.

(** A field absent from [updateData] keeps its value. *)
Definition apply_update (st : OrderStatus) (ud : UpdateData) (o : Order) : Order :=
  mkOrder (o_id o) (o_orderNumber o) (o_userId o) st
          (o_subtotal o) (o_shippingCost o) (o_taxAmount o) (o_totalAmount o)
          (o_shippingAddress o) (o_shippingPhone o) (o_notes o)
          (match ud_confirmedAt ud with Some t => Some t | None => o_confirmedAt o end)
          (match ud_shippedAt ud with Some t => Some t | None => o_shippedAt o end)
          (match ud_deliveredAt ud with Some t => Some t | None => o_deliveredAt o end)
          (o_cancelledAt o) (o_cancelReason o) (o_createdAt o).

(** tx.order.update({ where: { id }, data: updateData }); the ORM checks
    that the status names a value of the enum column.  [updateData] holds
    no string of the request. *)
Definition order_update_data (orderId : Z) (ud : UpdateData) : Tx unit :=
  match OrderStatus_of_string (ud_status ud) with
  | None => raise (mkThrown 200 None "Invalid value for argument status" None)
  | Some st => order_update orderId true (apply_update st ud)
  end.

(** Another delivery already carries the tracking number
    (deliveries_tracking_number_key). *)
Definition tracking_taken (orderId : Z) (t : string) (db : DB) : bool :=
  existsb (fun d => negb (d_orderId d =? orderId)
                    && match d_trackingNumber d with
                       | Some t' => String.eqb t t'
                       | None => false
                       end)
          (deliveries db).

(** tx.delivery.upsert({ where: { orderId }, create, update }): the row of
    the order is replaced by [update] of it, or [create] is inserted when
    there is none.  [tracking] and [courier] are the tracking number and
    the courier company the call writes, if it writes them
    (tracking_number and courier_company: VARCHAR(100)); the address of
    [create] is a copy of the order's. *)
Definition delivery_upsert (orderId : Z) (tracking courier : option string)
    (create : Delivery) (update : Delivery -> Delivery) : Tx unit :=
  fun db =>
    if negb (nullable (varchar 100) tracking && nullable (varchar 100) courier)
    then inl dataTooLong
    else if match tracking with Some t => tracking_taken orderId t db | None => false end
    then inl (prismaError "P2002" "Unique constraint failed")
    else
      inr (tt,
           set_deliveries
             (fun l =>
                if existsb (fun d => d_orderId d =? orderId) l
                then List.map (fun d => if d_orderId d =? orderId then update d else d) l
                else l ++ [create])
             db).

(** The body of updateOrderStatus's transaction. *)
Definition updateOrderStatusTx (clock : Clock) (user : AuthUser) (orderId : Z)
    (order : Order) (body : StatusBody) (newStatus : string) (updateData : UpdateData)
    : Tx unit :=
  (* Update order *)
  order_update_data orderId updateData;;
  (* Add tracking entry (SRS-74) *)
  orderTracking_create
    (mkOrderTracking orderId newStatus
       (or (description body) ("Order status updated to " +:+ newStatus))
       (Some (user_id user)) (now clock));;
  (* Create/update delivery record if shipping *)
  if String.eqb newStatus "SHIPPED" || truthy (trackingNumber body)
     || truthy (courierCompany body) then
    delivery_upsert orderId (or_null (trackingNumber body))
      (or_null (courierCompany body))
      (mkDelivery orderId
         (if String.eqb newStatus "SHIPPED" then D_SHIPPED else D_PENDING)
         (or_null (trackingNumber body)) (or_null (courierCompany body))
         (o_shippingAddress order) "" "Pakistan" None)
      (fun d =>
         mkDelivery (d_orderId d)
           (if String.eqb newStatus "DELIVERED" then D_DELIVERED else D_SHIPPED)
           (match or_null (trackingNumber body) with
            | Some t => Some t | None => d_trackingNumber d end)
           (match or_null (courierCompany body) with
            | Some c => Some c | None => d_courierCompany d end)
           (d_address d) (d_city d) (d_country d)
           (if String.eqb newStatus "DELIVERED" then Some (now clock)
            else d_actualDelivery d))
  else mret tt.

(** updateOrderStatus before asyncHandler; the route admits administrators
    only.  The notification e-mail touches no table. *)
Definition updateOrderStatus_handler (clock : Clock) (user : AuthUser) (id : option Z)
    (body : StatusBody) (db : DB) : (Thrown + Response unit) * DB :=
  match id with
  | None => (inl (throwStatus 400 "Invalid order ID"), db)
  | Some orderId =>
      (* Validate status *)
      if negb (truthy (status body))
         || negb (includes validStatuses (toUpperCase (default "" (status body)))) then
        (inl (throwStatus 400
                ("Invalid status. Valid options: "
                 +:+ "PENDING, CONFIRMED, PROCESSING, SHIPPED, DELIVERED, CANCELLED")), db)
      else
        match order_findUnique orderId db with
        | None => (inl (throwStatus 404 "Order not found"), db)
        | Some order =>
            let newStatus := toUpperCase (default "" (status body)) in
            (* Set timestamps based on status *)
            let updateData :=
              mkUpdateData newStatus
                (if String.eqb newStatus "CONFIRMED" then Some (now clock) else None)
                (if String.eqb newStatus "SHIPPED" then Some (now clock) else None)
                (if String.eqb newStatus "DELIVERED" then Some (now clock) else None) in
            match transaction
                    (updateOrderStatusTx clock user orderId order body newStatus updateData)
                    db with
            | (inl err, db') => (inl err, db')
            | (inr _, db') =>
                (inr (mkResponse 200 true
                        ("Order status updated to " +:+ newStatus
                         +:+ ". Customer notified. (SRS-75)") None None), db')
            end
        end
  end.

Definition updateOrderStatus (clock : Clock) (user : AuthUser) (id : option Z)
    (body : StatusBody) (db : DB) : Response unit * DB :=
  asyncHandler (updateOrderStatus_handler clock user id body db).

(** ** The constraints of the schema *)

Fixpoint distinctb {A} (same : A -> A -> bool) (l : list A) : bool :=
  match l with
  | [] => true
  | x :: l' => negb (existsb (same x) l') && distinctb same l'
  end.

(** The constraints the statements below rely on:
    - carts: ids below the AUTO_INCREMENT counter;
      carts_user_id_is_active_key;
    - cart_items: cart_items_cart_id_fkey, cart_items_product_id_fkey,
      cart_items_cart_id_product_id_key;
    - order_items: order_items_product_id_fkey. *)
Definition db_ok (db : DB) : bool :=
  forallb (fun c => cart_id c <? nextCartId db) (carts db)
  && distinctb (fun c c' => (cart_userId c =? cart_userId c')
                            && Bool.eqb (cart_isActive c) (cart_isActive c'))
               (carts db)
  && forallb (fun ci => existsb (fun c => cart_id c =? ci_cartId ci) (carts db)
                        && product_exists db (ci_productId ci))
             (cartItems db)
  && distinctb (fun ci ci' => (ci_cartId ci =? ci_cartId ci')
                              && (ci_productId ci =? ci_productId ci'))
               (cartItems db)
  && forallb (fun oi => product_exists db (oi_productId oi)) (orderItems db).

(** The total quantity of the moves on one product. *)
Definition quantity_of (productId : Z) (moves : list (Z * Z)) : Z :=
  fold_right (fun '(pid, n) acc => if pid =? productId then n + acc else acc) 0 moves.

(** The stock moves of a checkout and of a cancellation. *)
Definition checkout_moves (items : list (CartItem * Product)) : list (Z * Z) :=
  List.map (fun line => (ci_productId line.1, - ci_quantity line.1)) items.

Definition cancel_moves (items : list OrderItem) : list (Z * Z) :=
  List.map (fun item => (oi_productId item, oi_quantity item)) items.

(** One stock move on the products table, and a list of them in order. *)
Definition stock_add (productId n : Z) (m : gmap Z Product) : gmap Z Product :=
  match m !! productId with
  | Some p => <[productId := with_stock p (p_stock p + n)]> m
  | None => m
  end.

Definition apply_moves (moves : list (Z * Z)) (m : gmap Z Product) : gmap Z Product :=
  fold_left (fun m '(pid, n) => stock_add pid n m) moves m.

(** The moves keep every stock they touch within an INT, one after the
    other. *)
Fixpoint moves_fit (moves : list (Z * Z)) (m : gmap Z Product) : Prop :=
  match moves with
  | [] => True
  | (pid, n) :: rest =>
      (forall p, m !! pid = Some p -> int_column (p_stock p + n) = true)
      /\ moves_fit rest (stock_add pid n m)
  end.

(** ** What the statements say *)

(** The price rule on a cart line: the discount price when the product
    has one, else the list price. *)
Definition discount_or_list (product : Product) : Decimal :=
  match p_discountPrice product with
  | Some d => d
  | None => p_price product
  end.

(** The first image of a product; none when the product has no list of
    images, an empty list, or a list that starts with an empty string. *)
Definition first_image (product : Product) : option string :=
  match p_images product with
  | Some (image :: _) => if String.eqb image "" then None else Some image
  | _ => None
  end.

(** A string of the request when it is given and not empty, else the
    standard one. *)
Definition given_or (given : option string) (standard : string) : string :=
  match given with
  | Some s => if String.eqb s "" then standard else s
  | None => standard
  end.

(** The same product with its stock moved by [n]. *)
Definition stock_moved (before after : Product) (n : Z) : Prop :=
  p_stock after = p_stock before + n
  /\ p_name after = p_name before
  /\ p_price after = p_price before
  /\ p_discountPrice after = p_discountPrice before
  /\ p_images after = p_images before
  /\ p_isActive after = p_isActive before.

(** The amounts of a checkout over the lines of a cart, in binary64: the
    total of a line is its unit price times its quantity, the subtotal is
    the sum of the line totals added in order from 0, the shipping cost is
    0 from a subtotal of 5000 on and 200 below, and the total adds the
    shipping cost and a tax of 0 to the subtotal. *)
Definition lineTotal (line : CartItem * Product) : float :=
  PrimFloat.mul (parseFloat (discount_or_list line.2)) (Number (ci_quantity line.1)).

Definition subtotalOf (items : list (CartItem * Product)) : float :=
  fold_left (fun s line => PrimFloat.add s (lineTotal line)) items 0%float.

Definition shippingCostOf (subtotal : float) : float :=
  if PrimFloat.leb 5000%float subtotal then 0%float else 200%float.

Definition totalOf (subtotal : float) : float :=
  PrimFloat.add (PrimFloat.add subtotal (shippingCostOf subtotal)) 0%float.

(** The order item of a cart line, and the order of a cart. *)
Definition orderItemData_of (line : CartItem * Product) : OrderItemData :=
  mkOrderItemData (ci_productId line.1) (ci_quantity line.1) (discount_or_list line.2)
    (lineTotal line) (p_name line.2) (first_image line.2) (ci_customization line.1).

Definition checkout_data (clock : Clock) (user : AuthUser) (body : CreateOrderBody)
    (db : DB) (items : list (CartItem * Product)) : OrderData :=
  mkOrderData (generateOrderNumber clock db) (user_id user)
    (subtotalOf items) (shippingCostOf (subtotalOf items)) 0%float
    (totalOf (subtotalOf items))
    (default "" (shippingAddress body)) (default "" (shippingPhone body))
    (or_null (notes body))
    (List.map orderItemData_of items).

(** A cart line passes the checks of the loop. *)
Definition line_ok (line : CartItem * Product) : Prop :=
  p_isActive line.2 = true /\ ci_quantity line.1 <= p_stock line.2.

(** The order row and the database a committed checkout leaves. *)
Definition placed_order (clock : Clock) (d : OrderData) (db : DB) : Order :=
  mkOrder (nextOrderId db) (od_orderNumber d) (od_userId d) PENDING
          (roundDecimal (od_subtotal d)) (roundDecimal (od_shippingCost d))
          (roundDecimal (od_taxAmount d)) (roundDecimal (od_totalAmount d))
          (od_shippingAddress d) (od_shippingPhone d) (od_notes d)
          None None None None None (now clock).

Definition placed_items (d : OrderData) (db : DB) : list OrderItem :=
  List.map (orderItem_of (nextOrderId db)) (od_items d).

Definition order_placed_event (clock : Clock) (orderId : Z) : OrderTracking :=
  mkOrderTracking orderId "Order Placed" "Your order has been placed successfully"
                  None (now clock).

Definition checkout_db (clock : Clock) (co : Checkout) (db : DB) : DB :=
  mkDB (apply_moves (checkout_moves (co_items co)) (products db))
       (List.filter (fun c => negb (cart_id c =? cart_id (co_cart co))) (carts db))
       (List.filter (fun ci => negb (ci_cartId ci =? cart_id (co_cart co))) (cartItems db))
       (orders db ++ [placed_order clock (co_data co) db])
       (orderItems db ++ placed_items (co_data co) db)
       (orderTracking db ++ [order_placed_event clock (nextOrderId db)])
       (deliveries db) (nextCartId db) (nextOrderId db + 1).

(** No order carries the number yet (orders_order_number_key). *)
Definition number_free (number : string) (db : DB) : bool :=
  negb (existsb (fun o => String.eqb (o_orderNumber o) number) (orders db)).

(** What the request and the cart give to the row of the order fits its
    columns: the address and the notes a TEXT, the phone a VARCHAR(15),
    the subtotal and the total a DECIMAL(10,2). *)
Definition order_fits (body : CreateOrderBody) (lines : list (CartItem * Product)) : Prop :=
  nullable text (shippingAddress body) = true
  /\ nullable (varchar 15) (shippingPhone body) = true
  /\ nullable text (notes body) = true
  /\ decimal_fits (subtotalOf lines) = true
  /\ decimal_fits (totalOf (subtotalOf lines)) = true.

(** What a cart line gives to the row of its order item and to the stock
    of its product fits the columns: the first image a VARCHAR(255), the
    line total a DECIMAL(10,2), the stock that is left an INT. *)
Definition line_fits (line : CartItem * Product) : Prop :=
  nullable (varchar 255) (first_image line.2) = true
  /\ decimal_fits (lineTotal line) = true
  /\ int_column (p_stock line.2 - ci_quantity line.1) = true.

(** An order item copies its cart line: product, quantity, and the
    product's name, first image and unit price as they are at checkout. *)
Definition line_copied (orderId : Z) (line : CartItem * Product) (oi : OrderItem) : Prop :=
  oi_orderId oi = orderId
  /\ oi_productId oi = ci_productId line.1
  /\ oi_quantity oi = ci_quantity line.1
  /\ oi_productName oi = p_name line.2
  /\ oi_productImage oi = first_image line.2
  /\ oi_unitPrice oi = discount_or_list line.2.

Definition missingInputMessage : string :=
  "Please provide shipping address and phone number".

Definition orderPlacedMessage : string :=
  "Order placed successfully! Check your email for confirmation. (SRS-50)".

(** The outcome of a committed checkout of [cart], from [db]. *)
Definition checkout_committed (clock : Clock) (user : AuthUser) (db : DB) (cart : Cart)
    (r : Response (Order * list OrderItem) * DB) : Prop :=
  let lines := cart_items (cart_id cart) db in
  exists order items db',
    r = (mkResponse 201 true orderPlacedMessage (Some (order, items)) None, db')
    (* one order row *)
    /\ orders db' = orders db ++ [order]
    /\ o_userId order = user_id user
    /\ o_status order = PENDING
    (* one order item per cart line *)
    /\ orderItems db' = orderItems db ++ items
    /\ Forall2 (line_copied (o_id order)) lines items
    (* stock *)
    /\ (forall item product, (item, product) ∈ lines ->
          exists after,
            products db' !! ci_productId item = Some after
            /\ stock_moved product after (- ci_quantity item))
    /\ (forall pid, (forall line, line ∈ lines -> ci_productId line.1 <> pid) ->
          products db' !! pid = products db !! pid)
    (* one tracking event *)
    /\ orderTracking db' = orderTracking db ++ [order_placed_event clock (o_id order)]
    (* the cart and its items are gone *)
    /\ cartItems db'
       = List.filter (fun ci => negb (ci_cartId ci =? cart_id cart)) (cartItems db)
    /\ carts db' = List.filter (fun c => negb (cart_id c =? cart_id cart)) (carts db)
    /\ Forall (fun ci => ci_cartId ci <> cart_id cart) (cartItems db')
    /\ Forall (fun c => cart_id c <> cart_id cart) (carts db')
    /\ cart_findFirst (user_id user) db' = None
    (* the next cart fetch creates a fresh empty cart *)
    /\ exists fresh db'',
         getCart user db' = ((cart_id fresh, [], 0%float), db'')
         /\ carts db'' = carts db' ++ [fresh]
         /\ cart_id fresh <> cart_id cart
         /\ (fresh ∉ carts db)
         /\ cart_userId fresh = user_id user
         /\ cart_isActive fresh = true.

(** C1 as stated, at one request: a checkout with a shipping address and
    a phone, by a user whose active cart has a line, all products active
    and every quantity within stock, places the order. *)
Definition checkout_places_order (clock : Clock) (user : AuthUser)
    (body : CreateOrderBody) (db : DB) : Prop :=
  forall cart,
    truthy (shippingAddress body) = true ->
    truthy (shippingPhone body) = true ->
    cart_findFirst (user_id user) db = Some cart ->
    cart_items (cart_id cart) db <> [] ->
    Forall line_ok (cart_items (cart_id cart) db) ->
    res_status (createOrder clock user body db).1 = 201
    /\ orders (createOrder clock user body db).2 <> orders db.

(** An order item is priced from its cart line: the product's discount
    price if set, else its list price; the line total is the unit price
    times the quantity in binary64, rounded to two decimals. *)
Definition priced_line (line : CartItem * Product) (oi : OrderItem) : Prop :=
  oi_quantity oi = ci_quantity line.1
  /\ oi_unitPrice oi = match p_discountPrice line.2 with
                       | Some d => d
                       | None => p_price line.2
                       end
  /\ oi_totalPrice oi
     = roundDecimal (PrimFloat.mul (parseFloat (oi_unitPrice oi)) (Number (oi_quantity oi))).

(** The sum of the line totals of the items of an order as the handler
    adds them: the unit price times the quantity of each, in binary64,
    added in order from 0. *)
Definition sumTotals (items : list OrderItem) : float :=
  fold_left (fun s oi => PrimFloat.add s
                           (PrimFloat.mul (parseFloat (oi_unitPrice oi))
                                          (Number (oi_quantity oi))))
            items 0%float.

(** C2 as stated, on the order a checkout returns: a line total is the
    unit price times the quantity, the subtotal is the sum of the line
    totals, the shipping cost is 0 when the subtotal is 5000.00
    or more and 200.00 when it is less, the tax is 0 and the total is the
    subtotal plus the shipping cost plus the tax. *)
Definition totals_as_stated (order : Order) (items : list OrderItem) : Prop :=
  Forall (fun oi => hundredths (oi_totalPrice oi)
                    = hundredths (oi_unitPrice oi) * oi_quantity oi) items
  /\ hundredths (o_subtotal order)
  = fold_right (fun oi s => hundredths (oi_totalPrice oi) + s) 0 items
  /\ (500000 <= hundredths (o_subtotal order) -> hundredths (o_shippingCost order) = 0)
  /\ (hundredths (o_subtotal order) < 500000 -> hundredths (o_shippingCost order) = 20000)
  /\ hundredths (o_taxAmount order) = 0
  /\ hundredths (o_totalAmount order)
     = hundredths (o_subtotal order) + hundredths (o_shippingCost order)
       + hundredths (o_taxAmount order).

Definition checkout_totals_as_stated (clock : Clock) (user : AuthUser)
    (body : CreateOrderBody) (db : DB) : Prop :=
  forall order items,
    res_data (createOrder clock user body db).1 = Some (order, items) ->
    totals_as_stated order items.

(** A line at which the loop of createOrder throws. *)
Definition offending (line : CartItem * Product) : bool :=
  negb (p_isActive line.2) || (p_stock line.2 <? ci_quantity line.1).

(** C4 as stated, at one request: if some line of the user's cart asks for
    more than the stock, the answer is a 400 whose message states the
    available quantity of such a line, and the database is unchanged. *)
Definition stock_rejection_states_quantity (clock : Clock) (user : AuthUser)
    (body : CreateOrderBody) (db : DB) : Prop :=
  forall cart,
    cart_findFirst (user_id user) db = Some cart ->
    Exists (fun line : CartItem * Product => p_stock line.2 < ci_quantity line.1)
           (cart_items (cart_id cart) db) ->
    res_status (createOrder clock user body db).1 = 400
    /\ (exists line, line ∈ cart_items (cart_id cart) db
                     /\ p_stock line.2 < ci_quantity line.1
                     /\ res_message (createOrder clock user body db).1
                        = insufficientStockMessage line.2)
    /\ (createOrder clock user body db).2 = db.

(** The tracking event and the database a committed cancellation leaves. *)
Definition cancelled_event (clock : Clock) (user : AuthUser) (orderId : Z)
    (reason : option string) : OrderTracking :=
  mkOrderTracking orderId "Cancelled" (or reason "Order cancelled by customer")
                  (Some (user_id user)) (now clock).

Definition cancel_db (clock : Clock) (user : AuthUser) (orderId : Z)
    (items : list OrderItem) (reason : option string) (db : DB) : DB :=
  mkDB (apply_moves (cancel_moves items) (products db)) (carts db) (cartItems db)
       (List.map (fun o => if o_id o =? orderId
                           then with_cancelled o (now clock) (or reason "Cancelled by customer")
                           else o)
                 (orders db))
       (orderItems db)
       (orderTracking db ++ [cancelled_event clock user orderId reason])
       (deliveries db) (nextCartId db) (nextOrderId db).

Definition orderCancelledMessage : string := "Order cancelled successfully (SRS-56)".

Definition notCancellableMessage : string :=
  "Order cannot be cancelled at this stage. Please contact support.".

(** [after] is [before] cancelled at a time, for a reason: the status, the
    time and the reason of the cancellation are set, and the rest of the
    row is as it was. *)
Definition cancelled_from (before after : Order) (at_ : Z) (why : string) : Prop :=
  o_status after = CANCELLED
  /\ o_cancelledAt after = Some at_
  /\ o_cancelReason after = Some why
  /\ o_id after = o_id before
  /\ o_orderNumber after = o_orderNumber before
  /\ o_userId after = o_userId before
  /\ o_subtotal after = o_subtotal before
  /\ o_shippingCost after = o_shippingCost before
  /\ o_taxAmount after = o_taxAmount before
  /\ o_totalAmount after = o_totalAmount before
  /\ o_shippingAddress after = o_shippingAddress before
  /\ o_shippingPhone after = o_shippingPhone before
  /\ o_notes after = o_notes before
  /\ o_confirmedAt after = o_confirmedAt before
  /\ o_shippedAt after = o_shippedAt before
  /\ o_deliveredAt after = o_deliveredAt before
  /\ o_createdAt after = o_createdAt before.

(** What a cancellation writes fits the columns: the reason that is
    recorded a VARCHAR(255), and every stock an INT, before and after the
    quantities of the order's lines (none negative) are added to it. *)
Definition cancellation_fits (body : CancelBody) (items : list OrderItem) (db : DB)
    : Prop :=
  varchar 255 (given_or (reason body) "Cancelled by customer") = true
  /\ Forall (fun item => 0 <= oi_quantity item) items
  /\ forall pid p,
       products db !! pid = Some p ->
       int_column (p_stock p) = true
       /\ int_column (p_stock p + quantity_of pid (cancel_moves items)) = true.

(** The outcome of a committed cancellation of [order], from [db]: the
    order is CANCELLED with the time and the reason, each product's stock
    has grown by the quantities of the order's lines on it, and a tracking
    event is appended. *)
Definition cancellation_committed (clock : Clock) (user : AuthUser) (orderId : Z)
    (body : CancelBody) (db : DB) (order : Order) (r : Response unit * DB) : Prop :=
  let items := order_items orderId db in
  exists order' db',
    r = (mkResponse 200 true orderCancelledMessage None None, db')
    /\ order_findUnique orderId db' = Some order'
    /\ cancelled_from order order' (now clock)
         (given_or (reason body) "Cancelled by customer")
    /\ (forall pid p, products db !! pid = Some p ->
          exists p', products db' !! pid = Some p'
                     /\ stock_moved p p' (quantity_of pid (cancel_moves items)))
    /\ (NoDup (List.map oi_productId items) ->
        forall item p, item ∈ items -> products db !! oi_productId item = Some p ->
          exists p', products db' !! oi_productId item = Some p'
                     /\ stock_moved p p' (oi_quantity item))
    /\ (forall pid, (forall item, item ∈ items -> oi_productId item <> pid) ->
          products db' !! pid = products db !! pid)
    /\ orderTracking db'
       = orderTracking db
         ++ [mkOrderTracking orderId "Cancelled"
               (given_or (reason body) "Order cancelled by customer")
               (Some (user_id user)) (now clock)]
    /\ order_items orderId db' = items.

(** The engine has refused what a request writes: the answer is a 500 and
    the database is as it was. *)
Definition refused_by_engine {A} (db : DB) (r : Response A * DB) : Prop :=
  res_status r.1 = 500 /\ res_success r.1 = false /\ r.2 = db.

(** C5 as stated, at one request: after the owner has cancelled a PENDING
    or CONFIRMED order, a second cancellation by the owner is answered 400
    and restores no stock. *)
Definition second_cancellation_rejected (clock : Clock) (user : AuthUser) (orderId : Z)
    (body : CancelBody) (db : DB) : Prop :=
  forall order,
    order_findUnique orderId db = Some order ->
    o_userId order = user_id user ->
    o_status order = PENDING \/ o_status order = CONFIRMED ->
    let db1 := (cancelOrder clock user (Some orderId) body db).2 in
    res_status (cancelOrder clock user (Some orderId) body db1).1 = 400
    /\ products (cancelOrder clock user (Some orderId) body db1).2 = products db1.

(** The answers of cancelOrder, guard by guard (C6). *)
Definition cancel_guards (clock : Clock) (user : AuthUser) (orderId : Z)
    (body : CancelBody) (db : DB) : Prop :=
  let r := cancelOrder clock user (Some orderId) body db in
  (* no such order: 404 *)
  (order_findUnique orderId db = None ->
   r = (mkResponse 404 false "Order not found" None None, db))
  /\ forall order,
       order_findUnique orderId db = Some order ->
       (* neither owner nor admin: 403 *)
       (user_role user = USER -> o_userId order <> user_id user ->
        r = (mkResponse 403 false "Not authorized to cancel this order" None None, db))
       (* an owner who is not an admin, outside PENDING and CONFIRMED: 400 *)
       /\ (user_role user = USER -> o_userId order = user_id user ->
           o_status order <> PENDING -> o_status order <> CONFIRMED ->
           r = (mkResponse 400 false notCancellableMessage None None, db))
       (* an admin on another user's order without a reason: 400 *)
       /\ (user_role user = ADMIN -> o_userId order <> user_id user ->
           truthy (reason body) = false ->
           r = (mkResponse 400 false "Admin must provide a reason for cancellation"
                           None None, db))
       (* an admin otherwise passes the guards, whatever the status: the
          transaction runs, and commits unless the engine refuses what it
          writes *)
       /\ (user_role user = ADMIN ->
           o_userId order = user_id user \/ truthy (reason body) = true ->
           (res_status r.1 = 200 \/ refused_by_engine db r)
           /\ (cancellation_fits body (order_items orderId db) db ->
               cancellation_committed clock user orderId body db order r)).

(** *** The calendar *)

Definition leap_year (y : Z) : bool :=
  (y mod 4 =? 0) && (negb (y mod 100 =? 0) || (y mod 400 =? 0)).

Definition days_in_year (y : Z) : Z := if leap_year y then 366 else 365.

(** The days of the [n] years from the year [y] on. *)
Fixpoint days_of_years (n : nat) (y : Z) : Z :=
  match n with
  | O => 0
  | S n' => days_in_year y + days_of_years n' (y + 1)
  end.

(** The calendar of the handlers agrees with this one on the [n] years
    from the year [y], of which the day [d] is the first: the year starts
    where [startOfYear] says, and [yearOfDays] gives every day of the
    year its year. *)
Fixpoint calendars_agree (n : nat) (y d : Z) : bool :=
  match n with
  | O => true
  | S n' =>
      (startOfYear y =? d * msPerDay)
      && forallb (fun i => yearOfDays (d + Z.of_nat i) =? y)
                 (seq 0 (Z.to_nat (days_in_year y)))
      && calendars_agree n' (y + 1) (d + days_in_year y)
  end.

(** Midnight UTC of 1 January of the year [y], from 1970 on, in
    milliseconds since the epoch. *)
Definition new_year (y : Z) : Z :=
  days_of_years (Z.to_nat (y - 1970)) 1970 * msPerDay.

(** The time [t] falls in the year [y] of a calendar that is
    [offset] minutes ahead of UTC. *)
Definition in_year (offset y t : Z) : bool :=
  (new_year y <=? t + offset * 60000) && (t + offset * 60000 <? new_year (y + 1)).

(** The orders created in the year [y] of the server's calendar. *)
Definition ordersOfYear (clock : Clock) (y : Z) (db : DB) : list Order :=
  List.filter (fun o => in_year (tzOffsetMinutes clock) y (o_createdAt o)) (orders db).

(** The orders created from midnight UTC of 1 January of [y] on. *)
Definition ordersSince (y : Z) (db : DB) : list Order :=
  List.filter (fun o => new_year y <=? o_createdAt o) (orders db).

(** The order number with the year [y] and the counter [n] (C7): prefix,
    year, and the counter padded with zeros to six digits. *)
Definition order_number_is (number : string) (y n : Z) : Prop :=
  exists counter,
    number = "RA-" +:+ String_of_Z y +:+ "-" +:+ counter
    /\ counter = padStart 6 "0"%char (String_of_Z n)
    /\ parseDigits counter 0 = Some n
    /\ (6 <= String.length counter)%nat
    /\ (n < 1000000 -> String.length counter = 6%nat)
    /\ (1000000 <= n -> (7 <= String.length counter)%nat).

(** The order number is computed from the database the handler reads
    before the transaction, and the transaction inserts it as it is, on
    whatever database it runs. *)
Definition number_read_before_transaction (clock : Clock) (db : DB) : Prop :=
  forall user body db_cart co,
    prepareOrder_at clock user body db_cart db = inr co ->
    od_orderNumber (co_data co) = generateOrderNumber clock db
    /\ forall clock' db1 result db2,
         createOrderTx clock' co db1 = inr (result, db2) ->
         o_orderNumber result.1 = generateOrderNumber clock db.

(** C7 as stated, at one request: the counter of the generated number is
    the number of orders created within the current year, plus one. *)
Definition counter_counts_year (clock : Clock) (db : DB) : Prop :=
  forall y,
    in_year (tzOffsetMinutes clock) y (now clock) = true ->
    order_number_is (generateOrderNumber clock db) y
      (Z.of_nat (length (ordersOfYear clock y db)) + 1).

Definition invalidStatusMessage : string :=
  "Invalid status. Valid options: "
  +:+ "PENDING, CONFIRMED, PROCESSING, SHIPPED, DELIVERED, CANCELLED".

(** The request carries no tracking number, or no other delivery carries
    one (deliveries_tracking_number_key). *)
Definition tracking_free (orderId : Z) (body : StatusBody) (db : DB) : bool :=
  match trackingNumber body with
  | Some t =>
      String.eqb t ""
      || forallb (fun d => (d_orderId d =? orderId)
                           || match d_trackingNumber d with
                              | Some _ => false
                              | None => true
                              end)
                 (deliveries db)
  | None => true
  end.

(** What a status update writes fits the columns: the description a TEXT,
    the tracking number and the courier company a VARCHAR(100). *)
Definition status_update_fits (body : StatusBody) : Prop :=
  nullable text (description body) = true
  /\ nullable (varchar 100) (trackingNumber body) = true
  /\ nullable (varchar 100) (courierCompany body) = true.

(** The milestone a status stamps. *)
Definition stamped (st milestone : OrderStatus) (clock : Clock) (before : option Z)
    : option Z :=
  if bool_decide (st = milestone) then Some (now clock) else before.

(** The outcome of a committed status update of [order] to [st]: the order
    has the new status and the milestone time of CONFIRMED, SHIPPED or
    DELIVERED, a tracking event is appended, and no stock changes. *)
Definition status_update_committed (clock : Clock) (user : AuthUser) (orderId : Z)
    (body : StatusBody) (db : DB) (order : Order) (st : OrderStatus)
    (r : Response unit * DB) : Prop :=
  exists order' db',
    r = (mkResponse 200 true
           ("Order status updated to " +:+ string_of_OrderStatus st
            +:+ ". Customer notified. (SRS-75)") None None, db')
    /\ order_findUnique orderId db' = Some order'
    /\ o_status order' = st
    /\ o_confirmedAt order' = stamped st CONFIRMED clock (o_confirmedAt order)
    /\ o_shippedAt order' = stamped st SHIPPED clock (o_shippedAt order)
    /\ o_deliveredAt order' = stamped st DELIVERED clock (o_deliveredAt order)
    /\ orderTracking db'
       = orderTracking db
         ++ [mkOrderTracking orderId (string_of_OrderStatus st)
               (given_or (description body)
                  ("Order status updated to " +:+ string_of_OrderStatus st))
               (Some (user_id user)) (now clock)]
    /\ products db' = products db.

(** C8 as stated, at one request: a status in the enumerated set is
    accepted for an existing order, and a status outside the set is
    answered 400. *)
Definition status_checked_against_set (clock : Clock) (user : AuthUser) (orderId : Z)
    (body : StatusBody) (db : DB) : Prop :=
  forall s,
    status body = Some s ->
    (includes validStatuses s = true ->
     is_Some (order_findUnique orderId db) ->
     res_status (updateOrderStatus clock user (Some orderId) body db).1 = 200)
    /\ (includes validStatuses s = false ->
        res_status (updateOrderStatus clock user (Some orderId) body db).1 = 400).

(** C10 as stated, at one request: in a committed checkout, a line whose
    product has a discount price of zero is charged the list price. *)
Definition zero_discount_charged_list_price (clock : Clock) (user : AuthUser)
    (body : CreateOrderBody) (db : DB) : Prop :=
  forall cart order items,
    cart_findFirst (user_id user) db = Some cart ->
    res_data (createOrder clock user body db).1 = Some (order, items) ->
    Forall2 (fun (line : CartItem * Product) oi =>
               p_discountPrice line.2 = Some (mkDecimal 0) ->
               oi_unitPrice oi = p_price line.2)
            (cart_items (cart_id cart) db) items.

(** ** A concrete store

    The scenario of the specification: a user whose cart holds two of
    product A (stock 5, price 100.00) and one of product B (stock 1,
    price 50.00). *)
Module Scenario.

Definition productA : Product :=
  mkProduct "Ocean coaster" (mkDecimal 10000) None 5 (Some ["/uploads/a.png"]) true.
Definition productB : Product :=
  mkProduct "Amber keychain" (mkDecimal 5000) None 1 None true.

Definition alice : AuthUser := mkAuthUser 7 USER.
Definition admin : AuthUser := mkAuthUser 1 ADMIN.

Definition cart0 : Cart := mkCart 3 7 true.

Definition db0 : DB :=
  mkDB {[ 10 := productA; 11 := productB ]}
       [cart0]
       [mkCartItem 1 3 10 2 None (mkDecimal 10000);
        mkCartItem 2 3 11 1 None (mkDecimal 5000)]
       [] [] [] [] 4 1.

(** 2026-03-01T00:00:00Z, server in UTC. *)
Definition clock0 : Clock := mkClock 1772323200000 0.

Definition body0 : CreateOrderBody := mkCreateOrderBody (Some "X") (Some "Y") None None.

(** A store whose only cart holds one unit each of products with the
    given prices (in hundredths), all in stock. *)
Definition db_priced (prices : list Z) : DB :=
  mkDB (list_to_map
          (imap (fun i price =>
                   (Z.of_nat i, mkProduct "Item" (mkDecimal price) None 9 None true))
                prices))
       [cart0]
       (imap (fun i price => mkCartItem (Z.of_nat i) 3 (Z.of_nat i) 1 None (mkDecimal price))
             prices)
       [] [] [] [] 4 1.

Definition shippingCost_charged (db : DB) : option Decimal :=
  (fun r : Order * list OrderItem => o_shippingCost r.1)
    <$> res_data (createOrder clock0 alice body0 db).1.

Definition subtotal_charged (db : DB) : option Decimal :=
  (fun r : Order * list OrderItem => o_subtotal r.1)
    <$> res_data (createOrder clock0 alice body0 db).1.

(** A cart whose only line asks for one unit of a product that has been
    deactivated and has no stock left. *)
Definition retired : Product :=
  mkProduct "Retired tray" (mkDecimal 90000) None 0 None false.

Definition db_retired : DB :=
  mkDB {[ 12 := retired ]} [cart0] [mkCartItem 1 3 12 1 None (mkDecimal 90000)]
       [] [] [] [] 4 1.

(** A store with one PENDING order, placed by the administrator and by
    a customer respectively: two units of product A, of which three are
    left in stock. *)
Definition order_of (userId : Z) (st : OrderStatus) : Order :=
  mkOrder 1 "RA-2026-000001" userId st
          (mkDecimal 20000) (mkDecimal 20000) (mkDecimal 0) (mkDecimal 40000)
          "X" "Y" None None None None None None 1772323200000.

Definition db_ordered (userId : Z) (st : OrderStatus) : DB :=
  mkDB {[ 10 := with_stock productA 3 ]} [] []
       [order_of userId st]
       [mkOrderItem 1 10 2 (mkDecimal 10000) (mkDecimal 20000) "Ocean coaster"
                    (Some "/uploads/a.png") None]
       [order_placed_event clock0 1] [] 4 2.

Definition noReason : CancelBody := mkCancelBody None.

(** Two customers with one line each on product A. *)
Definition bob : AuthUser := mkAuthUser 8 USER.

Definition db_two : DB :=
  mkDB {[ 10 := productA ]}
       [cart0; mkCart 4 8 true]
       [mkCartItem 1 3 10 2 None (mkDecimal 10000);
        mkCartItem 2 4 10 1 None (mkDecimal 10000)]
       [] [] [] [] 5 1.

(** A status in lower case. *)
Definition body_shipped : StatusBody := mkStatusBody (Some "shipped") None None None.

(** The word 'shipped' spelled with the long s, U+017F, whose UTF-8 bytes
    are C5 BF. *)
Definition long_s_hipped : string :=
  String (Ascii.ascii_of_nat 197) (String (Ascii.ascii_of_nat 191) "hipped").

(** A second order whose delivery carries the tracking number TRK-1, and
    a request to ship the first order under the same number. *)
Definition db_tracked : DB :=
  mkDB {[ 10 := with_stock productA 3 ]} [] []
       [order_of 7 PENDING;
        mkOrder 2 "RA-2026-000002" 8 SHIPPED
                (mkDecimal 10000) (mkDecimal 20000) (mkDecimal 0) (mkDecimal 30000)
                "X" "Y" None None (Some 1772323200000) None None None 1772323200000]
       []
       [] [mkDelivery 2 D_SHIPPED (Some "TRK-1") None "X" "" "Pakistan" None] 4 3.

Definition body_same_tracking : StatusBody :=
  mkStatusBody (Some "SHIPPED") None (Some "TRK-1") None.

(** A product listed at 100.00 with a discount price of 0.00. *)
Definition giveaway : Product :=
  mkProduct "Sample bookmark" (mkDecimal 10000) (Some (mkDecimal 0)) 5 None true.

Definition db_giveaway : DB :=
  mkDB {[ 13 := giveaway ]} [cart0] [mkCartItem 1 3 13 1 None (mkDecimal 0)]
       [] [] [] [] 4 1.

End Scenario.


(** * The cart controller and the views of an order

    The handlers of the cart controller (addToCart, updateCartItem,
    removeFromCart, clearCart, getCartCount) and the two handlers of the
    order controller that show one order (getOrder, getOrderTracking), on
    the same tables.

    Conventions.
    - The ids and quantities of a request body are integers (JSON
      numbers), which the handlers read with [parseInt].  An id of the
      path is the integer [parseInt] reads from it, [None] when it reads
      none.
    - A handler that only reads is a function from the database to its
      answer. *)

(** ** The cart-item table and its key *)

(** The handlers of the cart controller insert cart items: the database
    together with the AUTO_INCREMENT counter of the cart-item table. *)
Record Store := mkStore { store_db : DB; nextCartItemId : Z }.

(** A number of a request body is falsy exactly when it is 0. *)
#[export] Instance truthy_Z : Truthy Z := fun z => negb (z =? 0).

(** prisma.product.findUnique({ where: { id } }) *)
Definition product_findUnique (productId : Z) (db : DB) : option Product :=
  products db !! productId.

(** prisma.cartItem.findUnique({ where: { cartId_productId } }) *)
Definition cartItem_findUnique_pair (cartId productId : Z) (db : DB) : option CartItem :=
  List.find (fun ci => (ci_cartId ci =? cartId) && (ci_productId ci =? productId))
            (cartItems db).

(** prisma.cartItem.findUnique({ where: { id }, include: { cart, product } }) *)
Definition cartItem_findUnique (itemId : Z) (db : DB) : option (CartItem * Cart * Product) :=
  item ← List.find (fun ci => ci_id ci =? itemId) (cartItems db);
  cart ← List.find (fun c => cart_id c =? ci_cartId item) (carts db);
  product ← products db !! ci_productId item;
  Some (item, cart, product).

(** prisma.cartItem.findMany({ where: { cartId } }) *)
Definition cartItem_findMany (cartId : Z) (db : DB) : list CartItem :=
  List.filter (fun ci => ci_cartId ci =? cartId) (cartItems db).

(** prisma.cartItem.update({ where: { id }, data }), on a row that was
    just read. *)
Definition cartItem_update (itemId : Z) (f : CartItem -> CartItem) (db : DB) : DB :=
  set_cartItems (List.map (fun ci => if ci_id ci =? itemId then f ci else ci)) db.

(** prisma.cartItem.delete({ where: { id } }), on a row that was just
    read. *)
Definition cartItem_delete (itemId : Z) (db : DB) : DB :=
  set_cartItems (List.filter (fun ci => negb (ci_id ci =? itemId))) db.

(** prisma.cartItem.create({ data }) *)
Definition cartItem_create (cartId productId quantity : Z) (priceAtTime : Decimal)
    (customization : option string) (st : Store) : CartItem * Store :=
  let item := mkCartItem (nextCartItemId st) cartId productId quantity customization
                         priceAtTime in
  (item, mkStore (set_cartItems (fun l => l ++ [item]) (store_db st))
                 (nextCartItemId st + 1)).

(** [items.reduce((sum, item) => sum + item.quantity, 0)] *)
Definition totalItemsOf (items : list CartItem) : Z :=
  fold_left (fun sum item => sum + ci_quantity item) items 0.

Definition with_quantity (item : CartItem) (quantity : Z) (customization : option string)
    : CartItem :=
  mkCartItem (ci_id item) (ci_cartId item) (ci_productId item) quantity customization
             (ci_priceAtTime item).

(** ** Cart controller: addToCart *)

(** [req.body] of addToCart: [productId] and [quantity] are absent or
    integers, [customization] is absent or a string. *)
Record AddToCartBody := mkAddToCartBody {
  add_productId : option Z;
  add_quantity : option Z;
  add_customization : option string;
}.

(** addToCart before asyncHandler.  [parseInt] of an integer is an
    integer, so the two [isNaN] tests never fire. *)
Definition addToCart_handler (user : AuthUser) (body : AddToCartBody) (st : Store)
    : (Thrown + Response (CartItem * Product * Z)) * Store :=
  let quantity := default 1 (add_quantity body) in
  (* Validate input *)
  if negb (truthy (add_productId body)) then
    (inl (throwStatus 400 "Product ID is required"), st)
  else
    let prodId := parseInt (default 0 (add_productId body)) in
    let qty := parseInt quantity in
    if qty <? 1 then (inl (throwStatus 400 "Invalid product ID or quantity"), st)
    else
      (* Check if product exists and is available *)
      match product_findUnique prodId (store_db st) with
      | None => (inl (throwStatus 404 "Product not found"), st)
      | Some product =>
          if negb (p_isActive product) then
            (inl (throwStatus 400 "This product is no longer available"), st)
          (* Check stock *)
          else if p_stock product <? qty then
            (inl (throwStatus 400
                    ("Insufficient stock. Only " +:+ String_of_Z (p_stock product)
                     +:+ " available.")), st)
          else
            (* Get or create cart *)
            let '(cart, db1) := getOrCreateCart (user_id user) (store_db st) in
            let st1 := mkStore db1 (nextCartItemId st) in
            (* Check if product already in cart *)
            let written :=
              match cartItem_findUnique_pair (cart_id cart) prodId db1 with
              | Some existingItem =>
                  (* Update quantity if already in cart (SRS-42) *)
                  let newQuantity := ci_quantity existingItem + qty in
                  (* Check stock for new quantity *)
                  if p_stock product <? newQuantity then
                    inl (throwStatus 400
                           ("Cannot add " +:+ String_of_Z qty +:+ " more. Only "
                            +:+ String_of_Z (p_stock product - ci_quantity existingItem)
                            +:+ " more available."))
                  else
                    let f := fun item =>
                      with_quantity item newQuantity
                        (match or_null (add_customization body) with
                         | Some c => Some c
                         | None => ci_customization existingItem
                         end) in
                    inr (f existingItem,
                         mkStore (cartItem_update (ci_id existingItem) f db1)
                                 (nextCartItemId st))
              | None =>
                  (* Add new item to cart (SRS-42) *)
                  let currentPrice := unitPriceOf product in
                  inr (cartItem_create (cart_id cart) prodId qty currentPrice
                         (or_null (add_customization body)) st1)
              end in
            match written with
            | inl err => (inl err, st1)
            | inr (cartItem, st2) =>
                (* Get updated cart summary *)
                let cartItems := cartItem_findMany (cart_id cart) (store_db st2) in
                let totalItems := totalItemsOf cartItems in
                (inr (mkResponse 200 true
                        (p_name product +:+ " added to cart successfully! (SRS-43)")
                        (Some (cartItem, product, totalItems)) None), st2)
            end
      end.

Definition addToCart (user : AuthUser) (body : AddToCartBody) (st : Store)
    : Response (CartItem * Product * Z) * Store :=
  match addToCart_handler user body st with
  | (inl err, st') => (errorHandler err, st')
  | (inr res, st') => (res, st')
  end.

(** ** Cart controller: updateCartItem *)

(** [req.body] of updateCartItem: [quantity] is absent or an integer;
    [customization] is absent, null or a string. *)
Record UpdateItemBody := mkUpdateItemBody {
  upd_quantity : option Z;
  upd_customization : option (option string);
}.

(** updateCartItem before asyncHandler; [itemId] is
    [parseInt(req.params.itemId)], [None] when it is NaN. *)
Definition updateCartItem_handler (user : AuthUser) (itemId : option Z)
    (body : UpdateItemBody) (st : Store) : (Thrown + Response CartItem) * Store :=
  match itemId with
  | None => (inl (throwStatus 400 "Invalid item ID"), st)
  | Some cartItemId =>
      (* Find cart item *)
      match cartItem_findUnique cartItemId (store_db st) with
      | None => (inl (throwStatus 404 "Cart item not found"), st)
      | Some (cartItem, cart, product) =>
          (* Verify ownership *)
          if negb (cart_userId cart =? user_id user) then
            (inl (throwStatus 403 "Not authorized to modify this cart"), st)
          else
            (* Validate quantity *)
            let invalid :=
              match upd_quantity body with
              | Some quantity =>
                  let qty := parseInt quantity in
                  if qty <? 1 then Some (throwStatus 400 "Quantity must be at least 1")
                  (* Check stock *)
                  else if p_stock product <? qty then
                    Some (throwStatus 400
                            ("Only " +:+ String_of_Z (p_stock product)
                             +:+ " available in stock"))
                  else None
              | None => None
              end in
            match invalid with
            | Some err => (inl err, st)
            | None =>
                (* Update item *)
                let f := fun item =>
                  with_quantity item
                    (match upd_quantity body with
                     | Some quantity => parseInt quantity
                     | None => ci_quantity item
                     end)
                    (match upd_customization body with
                     | Some c => c
                     | None => ci_customization item
                     end) in
                (inr (mkResponse 200 true "Cart item updated" (Some (f cartItem)) None),
                 mkStore (cartItem_update cartItemId f (store_db st)) (nextCartItemId st))
            end
      end
  end.

Definition updateCartItem (user : AuthUser) (itemId : option Z) (body : UpdateItemBody)
    (st : Store) : Response CartItem * Store :=
  match updateCartItem_handler user itemId body st with
  | (inl err, st') => (errorHandler err, st')
  | (inr res, st') => (res, st')
  end.

(** ** Cart controller: removeFromCart *)

(** The totals of the remaining lines: the number of units and the
    subtotal (a binary64 number; the answer prints it with two decimals). *)
Definition cartSummary (lines : list (CartItem * Product)) : Z * float :=
  fold_left (fun '(totalItems, subtotal) '(item, product) =>
               let price := unitPriceOf product in
               (totalItems + ci_quantity item,
                PrimFloat.add subtotal
                  (PrimFloat.mul (parseFloat price) (Number (ci_quantity item)))))
            lines (0, 0%float).

(** removeFromCart before asyncHandler; [itemId] as in updateCartItem. *)
Definition removeFromCart_handler (user : AuthUser) (itemId : option Z) (st : Store)
    : (Thrown + Response (Z * float)) * Store :=
  match itemId with
  | None => (inl (throwStatus 400 "Invalid item ID"), st)
  | Some cartItemId =>
      (* Find cart item *)
      match cartItem_findUnique cartItemId (store_db st) with
      | None => (inl (throwStatus 404 "Cart item not found"), st)
      | Some (cartItem, cart, product) =>
          (* Verify ownership *)
          if negb (cart_userId cart =? user_id user) then
            (inl (throwStatus 403 "Not authorized to modify this cart"), st)
          else
            (* Delete item (SRS-46, SRS-47) *)
            let db1 := cartItem_delete cartItemId (store_db st) in
            (* Get updated cart totals (SRS-48) *)
            let remainingItems := cart_items (cart_id cart) db1 in
            (inr (mkResponse 200 true (p_name product +:+ " removed from cart")
                    (Some (cartSummary remainingItems)) None),
             mkStore db1 (nextCartItemId st))
      end
  end.

Definition removeFromCart (user : AuthUser) (itemId : option Z) (st : Store)
    : Response (Z * float) * Store :=
  match removeFromCart_handler user itemId st with
  | (inl err, st') => (errorHandler err, st')
  | (inr res, st') => (res, st')
  end.

(** ** Cart controller: clearCart and getCartCount *)

(** clearCart: it never throws.  The summary of the answer is the constant
    [{ totalItems: 0, subtotal: '0.00' }]. *)
Definition clearCart (user : AuthUser) (st : Store) : Response (Z * string) * Store :=
  match cart_findFirst (user_id user) (store_db st) with
  | None => (mkResponse 200 true "Cart is already empty" None None, st)
  | Some cart =>
      (* Delete all items *)
      (mkResponse 200 true "Cart cleared successfully" (Some (0, "0.00")) None,
       mkStore (set_cartItems (List.filter (fun ci => negb (ci_cartId ci =? cart_id cart)))
                  (store_db st))
               (nextCartItemId st))
  end.

(** getCartCount: the number of units in the user's active cart; it reads
    only. *)
Definition getCartCount (user : AuthUser) (db : DB) : Response Z :=
  let count :=
    match cart_findFirst (user_id user) db with
    | Some cart => totalItemsOf (cartItem_findMany (cart_id cart) db)
    | None => 0
    end in
  mkResponse 200 true "" (Some count) None.

(** ** Order controller: getOrder and getOrderTracking *)

(** [req.user.role === 'ADMIN'] *)
Definition is_admin (user : AuthUser) : bool :=
  match user_role user with ADMIN => true | USER => false end.

(** getOrder before asyncHandler; it reads only.  [included] is what the
    ORM attaches to the order row (items with their products, user,
    payment, delivery, tracking history). *)
Definition getOrder_handler {A} (included : DB -> Order -> A) (user : AuthUser)
    (id : option Z) (db : DB) : Thrown + Response (Order * A) :=
  match id with
  | None => inl (throwStatus 400 "Invalid order ID")
  | Some orderId =>
      match order_findUnique orderId db with
      | None => inl (throwStatus 404 "Order not found")
      | Some order =>
          (* Check authorization (user can only see their own orders, admin can see all) *)
          if negb (o_userId order =? user_id user) && negb (is_admin user) then
            inl (throwStatus 403 "Not authorized to view this order")
          else inr (mkResponse 200 true "" (Some (order, included db order)) None)
      end
  end.

(** [orderBy: { timestamp: 'desc' }]: newest first; events of the same
    instant keep their insertion order. *)
Fixpoint insertNewestFirst (e : OrderTracking) (l : list OrderTracking)
    : list OrderTracking :=
  match l with
  | [] => [e]
  | x :: l' =>
      if ot_timestamp x <=? ot_timestamp e then e :: x :: l'
      else x :: insertNewestFirst e l'
  end.

Definition newestFirst (l : list OrderTracking) : list OrderTracking :=
  fold_right insertNewestFirst [] l.

(** prisma.orderTracking.findMany({ where: { orderId },
    orderBy: { timestamp: 'desc' } }) *)
Definition orderTracking_findMany (orderId : Z) (db : DB) : list OrderTracking :=
  newestFirst (List.filter (fun e => ot_orderId e =? orderId) (orderTracking db)).

(** prisma.delivery.findUnique({ where: { orderId } }) *)
Definition delivery_findUnique (orderId : Z) (db : DB) : option Delivery :=
  List.find (fun d => d_orderId d =? orderId) (deliveries db).

(** The data of getOrderTracking's answer; the delivery is shown with the
    columns the model of the table has. *)
Record TrackingView := mkTrackingView {
  tv_orderNumber : string;
  tv_currentStatus : OrderStatus;
  tv_delivery : option Delivery;
  tv_trackingHistory : list OrderTracking;
}.

(** getOrderTracking before asyncHandler; it reads only. *)
Definition getOrderTracking_handler (user : AuthUser) (id : option Z) (db : DB)
    : Thrown + Response TrackingView :=
  match id with
  | None => inl (throwStatus 400 "Invalid order ID")
  | Some orderId =>
      match order_findUnique orderId db with
      | None => inl (throwStatus 404 "Order not found")
      | Some order =>
          (* Check authorization *)
          if negb (o_userId order =? user_id user) && negb (is_admin user) then
            inl (throwStatus 403 "Not authorized")
          else
            (* Get tracking history and delivery info *)
            inr (mkResponse 200 true ""
                   (Some (mkTrackingView (o_orderNumber order) (o_status order)
                            (delivery_findUnique orderId db)
                            (orderTracking_findMany orderId db)))
                   None)
      end
  end.

(** A read handler behind asyncHandler. *)
Definition answer {A} (r : Thrown + Response A) : Response A :=
  match r with
  | inl err => errorHandler err
  | inr res => res
  end.

Definition getOrder {A} (included : DB -> Order -> A) (user : AuthUser) (id : option Z)
    (db : DB) : Response (Order * A) :=
  answer (getOrder_handler included user id db).

Definition getOrderTracking (user : AuthUser) (id : option Z) (db : DB)
    : Response TrackingView :=
  answer (getOrderTracking_handler user id db).

(** ** Constraints of the schema on the cart-item and order keys *)

(** The constraints of [db_ok], and the primary keys of carts and
    cart_items: the ids of the carts are distinct, those of the cart items
    are distinct and below the AUTO_INCREMENT counter. *)
Definition store_ok (st : Store) : bool :=
  db_ok (store_db st)
  && distinctb (fun c c' => cart_id c =? cart_id c') (carts (store_db st))
  && forallb (fun ci => ci_id ci <? nextCartItemId st) (cartItems (store_db st))
  && distinctb (fun ci ci' => ci_id ci =? ci_id ci') (cartItems (store_db st)).

(** orders: the ids are distinct and below the AUTO_INCREMENT counter;
    orders_order_number_key; order_items_order_id_fkey;
    order_tracking_order_id_fkey; deliveries_order_id_fkey. *)
Definition orders_ok (db : DB) : bool :=
  forallb (fun o => o_id o <? nextOrderId db) (orders db)
  && distinctb (fun o o' => o_id o =? o_id o') (orders db)
  && distinctb (fun o o' => String.eqb (o_orderNumber o) (o_orderNumber o')) (orders db)
  && forallb (fun oi => existsb (fun o => o_id o =? oi_orderId oi) (orders db))
             (orderItems db)
  && forallb (fun e => existsb (fun o => o_id o =? ot_orderId e) (orders db))
             (orderTracking db)
  && forallb (fun d => existsb (fun o => o_id o =? d_orderId d) (orders db))
             (deliveries db).

(** Every cart line asks for at least one unit. *)
Definition quantities_ok (db : DB) : bool :=
  forallb (fun ci => 1 <=? ci_quantity ci) (cartItems db).

(** No product has a negative stock. *)
Definition stock_ok (db : DB) : Prop :=
  forall pid p, products db !! pid = Some p -> 0 <= p_stock p.

(** The rows of the carts that do not belong to [userId]. *)
Definition rows_of_others (userId : Z) (db : DB) : list CartItem :=
  List.filter
    (fun ci => negb (existsb (fun c => (cart_id c =? ci_cartId ci)
                                       && (cart_userId c =? userId)) (carts db)))
    (cartItems db).

(** The line the user's active cart has for a product, if any. *)
Definition cartLineOf (userId productId : Z) (db : DB) : option CartItem :=
  cart ← cart_findFirst userId db;
  cartItem_findUnique_pair (cart_id cart) productId db.

(** The carts that do not belong to [userId]. *)
Definition carts_of_others (userId : Z) (db : DB) : list Cart :=
  List.filter (fun c => negb (cart_userId c =? userId)) (carts db).

(** Between [db] and [db'], nothing has changed but the carts of [userId]
    and their rows. *)
Definition untouched_for_others (userId : Z) (db db' : DB) : Prop :=
  carts_of_others userId db' = carts_of_others userId db
  /\ rows_of_others userId db' = rows_of_others userId db
  /\ products db' = products db
  /\ orders db' = orders db
  /\ orderItems db' = orderItems db
  /\ orderTracking db' = orderTracking db
  /\ deliveries db' = deliveries db.

(** The order number of a year with a given counter. *)
Definition orderNumber_of (year k : Z) : string :=
  "RA-" +:+ String_of_Z year +:+ "-" +:+ padStart 6 "0"%char (String_of_Z k).

(** The order numbers of [year] in use have counters up to the number of
    orders dated from the start of that year. *)
Definition numbers_below (year : Z) (db : DB) : Prop :=
  forall o k,
    o ∈ orders db -> 0 < k -> o_orderNumber o = orderNumber_of year k ->
    k <= order_count_gte (startOfYear year) db.

(** A list of events that runs from the newest to the oldest. *)
Fixpoint descending (l : list OrderTracking) : Prop :=
  match l with
  | [] => True
  | e :: l' => Forall (fun e' => ot_timestamp e' <= ot_timestamp e) l' /\ descending l'
  end.


(** A number that JavaScript writes without an exponent, which [parseInt]
    reads as it is: an integer below 10^21 in magnitude. *)
Definition plain_number (n : Z) : Prop := Z.abs n < 10 ^ 21.

(** A field of the request, when the request has it, is such a number. *)
Definition plain_field (field : option Z) : Prop :=
  forall n, field = Some n -> plain_number n.
(** ** Concrete stores for the cart controller *)
Module Shop.

(** The store of the scenario with the counter of the cart-item table. *)
Definition store0 : Store := mkStore Scenario.db0 3.

(** Two customers with a cart each. *)
Definition store_two : Store := mkStore Scenario.db_two 3.

(** Two more units of product A. *)
Definition add_two : AddToCartBody := mkAddToCartBody (Some 10) (Some 2) None.

(** Three units on a line. *)
Definition three_units : UpdateItemBody := mkUpdateItemBody (Some 3) None.

(** 2027-01-01T01:00 in a zone five hours east of UTC, which is
    2026-12-31T20:00:00Z. *)
Definition clock_east : Clock := mkClock 1798747200000 300.

(** The store after the first order of the local year 2027, and the
    clock an hour later. *)
Definition db_first_of_year : DB :=
  (createOrder clock_east Scenario.alice Scenario.body0 Scenario.db_two).2.

Definition clock_east_later : Clock := mkClock 1798750800000 300.

(** Two customers with the last unit of a product in their carts, and
    the store after the second customer has checked out. *)
Definition last_unit : Product :=
  mkProduct "River table" (mkDecimal 2500000) None 1 None true.

Definition db_last_unit : DB :=
  mkDB {[ 20 := last_unit ]}
       [Scenario.cart0; mkCart 4 8 true]
       [mkCartItem 1 3 20 1 None (mkDecimal 2500000);
        mkCartItem 2 4 20 1 None (mkDecimal 2500000)]
       [] [] [] [] 5 1.

Definition db_unit_sold : DB :=
  (createOrder Scenario.clock0 Scenario.bob Scenario.body0 db_last_unit).2.

End Shop.

(** * Properties *)

(** ** The transaction monad *)

Lemma transaction_inl {A} (body : Tx A) db err :
  body db = inl err -> transaction body db = (inl err, db).
Proof. intros H. unfold transaction. by rewrite H. Qed.

Lemma transaction_inr {A} (body : Tx A) db a db' :
  body db = inr (a, db') -> transaction body db = (inr a, db').
Proof. intros H. unfold transaction. by rewrite H. Qed.

(** A transaction that throws leaves the database as it was. *)
Lemma transaction_rollback {A} (body : Tx A) db err db' :
  transaction body db = (inl err, db') -> db' = db.
Proof.
  unfold transaction. destruct (body db) as [e | [a d]]; intros H; by inversion H.
Qed.

Lemma bind_inr {A B} (m : Tx A) (k : A -> Tx B) db a db' :
  m db = inr (a, db') -> (m ≫= k) db = k a db'.
Proof. intros H. unfold mbind, Tx_bind, bind. by rewrite H. Qed.

Lemma bind_inl {A B} (m : Tx A) (k : A -> Tx B) db err :
  m db = inl err -> (m ≫= k) db = inl err.
Proof. intros H. unfold mbind, Tx_bind, bind. by rewrite H. Qed.

(** ** The error middleware *)

Lemma errorHandler_data {A} err : res_data (@errorHandler A err) = None.
Proof. unfold errorHandler. by repeat case_match. Qed.

Lemma errorHandler_success {A} err : res_success (@errorHandler A err) = false.
Proof. unfold errorHandler. by repeat case_match. Qed.

(** An error thrown by a handler after [res.status(code)], [code] not 200,
    is answered with that status and the error's message. *)
Lemma errorHandler_throwStatus {A} code message :
  code <> 200 ->
  @errorHandler A (throwStatus code message) = mkResponse code false message None None.
Proof.
  intros H. unfold errorHandler, throwStatus, code_is. simpl.
  by destruct (Z.eqb_spec code 200).
Qed.

(** ** Stock moves *)

Lemma with_stock_same p : with_stock p (p_stock p) = p.
Proof. by destruct p. Qed.

Lemma lookup_stock_add pid n (m : gmap Z Product) k :
  stock_add pid n m !! k =
  if decide (k = pid) then (fun p => with_stock p (p_stock p + n)) <$> m !! k
  else m !! k.
Proof.
  unfold stock_add. case_decide as Hk.
  - subst k. destruct (m !! pid) as [p|] eqn:Hp.
    + by rewrite lookup_insert_eq.
    + by rewrite Hp.
  - destruct (m !! pid) as [p|] eqn:Hp; [|done].
    by rewrite lookup_insert_ne.
Qed.

Lemma lookup_apply_moves moves (m : gmap Z Product) k :
  apply_moves moves m !! k =
  (fun p => with_stock p (p_stock p + quantity_of k moves)) <$> m !! k.
Proof.
  revert m. induction moves as [|[pid n] moves IH]; intros m; simpl.
  - destruct (m !! k) as [p|]; simpl; [|done].
    by rewrite Z.add_0_r, with_stock_same.
  - unfold apply_moves in *. simpl. rewrite IH, lookup_stock_add.
    case_decide as Hk.
    + subst k. rewrite Z.eqb_refl.
      destruct (m !! pid) as [p|]; simpl; [|done].
      f_equal. unfold with_stock; simpl. f_equal. lia.
    + destruct (Z.eqb_spec pid k) as [->|_]; [done|]. done.
Qed.

Lemma product_update_stock_some pid n db p :
  products db !! pid = Some p ->
  int_column (p_stock p + n) = true ->
  product_update_stock pid n db = inr (tt, set_products (stock_add pid n) db).
Proof.
  intros Hp Hint. unfold product_update_stock, stock_add, set_products.
  by rewrite Hp, Hint.
Qed.

Lemma product_update_stock_inr pid n db r :
  product_update_stock pid n db = inr r ->
  r = (tt, set_products (stock_add pid n) db).
Proof.
  unfold product_update_stock, stock_add, set_products.
  destruct (products db !! pid) as [p|]; [|done].
  destruct (int_column (p_stock p + n)); [|done]. by intros [= <-].
Qed.

(** A stock update on a product that exists throws only when the stock
    would leave the INT range. *)
Lemma product_update_stock_inl pid n db err :
  is_Some (products db !! pid) ->
  product_update_stock pid n db = inl err -> err = valueOutOfRange.
Proof.
  intros [p Hp]. unfold product_update_stock. rewrite Hp.
  destruct (int_column (p_stock p + n)); [done|]. by intros [= <-].
Qed.

Lemma set_products_compose f g db :
  set_products f (set_products g db) = set_products (fun m => f (g m)) db.
Proof. done. Qed.

(** A loop of stock updates over rows whose products all exist, with
    moves that keep the stocks within an INT, applies the moves in
    order. *)
Lemma forEach_moves {A} (xs : list A) (f : A -> Tx unit) (g : A -> Z * Z) db :
  (forall x, f x = product_update_stock (g x).1 (g x).2) ->
  Forall (fun x => is_Some (products db !! (g x).1)) xs ->
  moves_fit (List.map g xs) (products db) ->
  forEach xs f db = inr (tt, set_products (apply_moves (List.map g xs)) db).
Proof.
  intros Hf. revert db. induction xs as [|x xs IH]; intros db Hall Hfit.
  - simpl. unfold ret. by destruct db.
  - inversion Hall as [|? ? [p Hp] Hrest]; subst. simpl.
    simpl in Hfit. destruct (g x) as [pid n] eqn:Hg. destruct Hfit as [Hint Hfit].
    simpl in Hp.
    erewrite bind_inr;
      [|rewrite Hf, Hg; eapply product_update_stock_some; [exact Hp|by apply Hint]].
    rewrite IH.
    + by rewrite set_products_compose.
    + eapply Forall_impl; [exact Hrest|]. intros y [q Hq]. simpl.
      rewrite lookup_stock_add. case_decide; [rewrite Hq|]; eauto.
    + exact Hfit.
Qed.

(** When the loop returns, it has applied the moves in order. *)
Lemma forEach_moves_inr {A} (xs : list A) (f : A -> Tx unit) (g : A -> Z * Z) db r :
  (forall x, f x = product_update_stock (g x).1 (g x).2) ->
  forEach xs f db = inr r ->
  r = (tt, set_products (apply_moves (List.map g xs)) db).
Proof.
  intros Hf. revert db. induction xs as [|x xs IH]; intros db H.
  - simpl in H. unfold ret in H. injection H as <-. by destruct db.
  - simpl in H. unfold mbind, Tx_bind, bind in H.
    destruct (f x db) as [e|[u db1]] eqn:E; [done|].
    rewrite Hf in E. apply product_update_stock_inr in E. injection E as _ ->.
    apply IH in H. rewrite H, set_products_compose. unfold apply_moves. simpl.
    by destruct (g x).
Qed.

(** When the loop throws, over rows whose products all exist, a stock has
    left the INT range. *)
Lemma forEach_moves_inl {A} (xs : list A) (f : A -> Tx unit) (g : A -> Z * Z) db err :
  (forall x, f x = product_update_stock (g x).1 (g x).2) ->
  Forall (fun x => is_Some (products db !! (g x).1)) xs ->
  forEach xs f db = inl err -> err = valueOutOfRange.
Proof.
  intros Hf. revert db. induction xs as [|x xs IH]; intros db Hall H; [done|].
  inversion Hall as [|? ? Hp Hrest]; subst.
  simpl in H. unfold mbind, Tx_bind, bind in H.
  destruct (f x db) as [e|[u db1]] eqn:E.
  - injection H as <-. rewrite Hf in E. by eapply product_update_stock_inl.
  - rewrite Hf in E. apply product_update_stock_inr in E. injection E as _ ->.
    eapply IH; [|exact H].
    eapply Forall_impl; [exact Hrest|]. intros y [q Hq]. simpl.
    rewrite lookup_stock_add. case_decide; [rewrite Hq|]; eauto.
Qed.

Lemma stock_moved_with_stock p n : stock_moved p (with_stock p (p_stock p + n)) n.
Proof. by repeat split. Qed.

Lemma quantity_of_nonneg pid (moves : list (Z * Z)) :
  Forall (fun m => 0 <= m.2) moves -> 0 <= quantity_of pid moves.
Proof.
  induction moves as [|[k n] moves IH]; intros H; [done|].
  inversion H; subst. simpl in *. destruct (k =? pid); [|by apply IH].
  specialize (IH ltac:(done)). lia.
Qed.

Lemma int_column_between a b c :
  a <= b <= c -> int_column a = true -> int_column c = true -> int_column b = true.
Proof. unfold int_column. lia. Qed.

(** Moves that only add, on stocks that are INTs and stay INTs with all
    the moves added, keep the stocks within an INT one after the other. *)
Lemma moves_fit_adding (moves : list (Z * Z)) (m : gmap Z Product) :
  Forall (fun mv => 0 <= mv.2) moves ->
  (forall pid p, m !! pid = Some p ->
     int_column (p_stock p) = true
     /\ int_column (p_stock p + quantity_of pid moves) = true) ->
  moves_fit moves m.
Proof.
  revert m. induction moves as [|[pid n] moves IH]; intros m Hpos Hm; [done|].
  inversion Hpos as [|? ? Hn Hrest]; subst. simpl in Hn.
  pose proof (quantity_of_nonneg pid _ Hrest) as Hq.
  split.
  - intros p Hp. destruct (Hm _ _ Hp) as [H0 H1]. simpl in H1.
    rewrite Z.eqb_refl in H1.
    eapply (int_column_between (p_stock p) _ (p_stock p + (n + quantity_of pid moves)));
      [lia|done|done].
  - apply IH; [done|]. intros k p' Hk. rewrite lookup_stock_add in Hk.
    case_decide as Hkp.
    + subst k. destruct (m !! pid) as [p|] eqn:Hp; [|done].
      simpl in Hk. injection Hk as <-. destruct (Hm _ _ Hp) as [H0 H1]. simpl in H1.
      rewrite Z.eqb_refl in H1. simpl. split.
      * eapply (int_column_between (p_stock p) _
                  (p_stock p + (n + quantity_of pid moves))); [lia|done|done].
      * by rewrite <- Z.add_assoc.
    + destruct (Hm _ _ Hk) as [H0 H1]. simpl in H1.
      destruct (Z.eqb_spec pid k) as [->|_]; [done|]. done.
Qed.

(** Moves on distinct products, each within an INT from the stock the
    product has, keep the stocks within an INT one after the other. *)
Lemma moves_fit_distinct (moves : list (Z * Z)) (m : gmap Z Product) :
  NoDup (List.map fst moves) ->
  Forall (fun mv => forall p, m !! mv.1 = Some p -> int_column (p_stock p + mv.2) = true)
         moves ->
  moves_fit moves m.
Proof.
  revert m. induction moves as [|[pid n] moves IH]; intros m Hnd Hall; [done|].
  simpl in Hnd. apply NoDup_cons in Hnd as [Hpid Hnd].
  inversion Hall as [|? ? Hhead Hrest]; subst. split; [exact Hhead|].
  apply IH; [done|]. apply Forall_forall. intros [k j] Hin p Hp. simpl in *.
  rewrite Forall_forall in Hrest. apply (Hrest _ Hin).
  rewrite lookup_stock_add in Hp. case_decide as Hk; [|done].
  subst k. exfalso. apply Hpid. apply list_elem_of_In.
  change pid with ((pid, j).1). apply (in_map fst). by apply list_elem_of_In.
Qed.

(** ** Reading a cart *)

Lemma elem_of_cart_items cartId db (line : CartItem * Product) :
  line ∈ cart_items cartId db <->
  line.1 ∈ cartItems db /\ ci_cartId line.1 = cartId
  /\ products db !! ci_productId line.1 = Some line.2.
Proof.
  unfold cart_items. rewrite list_elem_of_omap. split.
  - intros (ci & Hin & Hf).
    destruct (Z.eqb_spec (ci_cartId ci) cartId) as [Hc|Hc]; [|done].
    destruct (products db !! ci_productId ci) as [p|] eqn:Hp; [|done].
    simpl in Hf. inversion Hf; subst. simpl. done.
  - intros (Hin & Hc & Hp). exists line.1. split; [done|].
    rewrite Hc, Z.eqb_refl, Hp. simpl. by destruct line.
Qed.

Lemma cart_items_nil cartId db :
  Forall (fun ci => ci_cartId ci <> cartId) (cartItems db) ->
  cart_items cartId db = [].
Proof.
  intros Hall. unfold cart_items.
  induction (cartItems db) as [|ci l IH]; [done|].
  inversion Hall; subst. simpl.
  destruct (Z.eqb_spec (ci_cartId ci) cartId); [done|]. by apply IH.
Qed.

Lemma cart_findFirst_some userId db cart :
  cart_findFirst userId db = Some cart ->
  cart ∈ carts db /\ cart_userId cart = userId /\ cart_isActive cart = true.
Proof.
  unfold cart_findFirst. intros H.
  apply find_some in H as [Hin Hp].
  apply andb_true_iff in Hp as [Hu Ha].
  apply Z.eqb_eq in Hu. by rewrite <- list_elem_of_In in Hin.
Qed.

Lemma distinctb_same_eq {A} (same : A -> A -> bool) (l : list A) x y :
  (forall a b, same a b = same b a) ->
  distinctb same l = true -> x ∈ l -> y ∈ l -> same x y = true -> x = y.
Proof.
  intros Hsym. induction l as [|a l IH]; intros Hd Hx Hy Hs.
  - by apply elem_of_nil in Hx.
  - simpl in Hd. apply andb_true_iff in Hd as [Hna Hd].
    apply negb_true_iff in Hna.
    assert (Hno : forall z, z ∈ l -> same a z = false).
    { intros z Hz. destruct (same a z) eqn:E; [|done].
      assert (existsb (same a) l = true); [|congruence].
      apply existsb_exists. exists z. by rewrite <- list_elem_of_In. }
    apply elem_of_cons in Hx as [->|Hx]; apply elem_of_cons in Hy as [->|Hy].
    + done.
    + rewrite (Hno y Hy) in Hs. done.
    + rewrite Hsym, (Hno x Hx) in Hs. done.
    + by apply IH.
Qed.

(** The lines of a cart reference distinct products
    (cart_items_cart_id_product_id_key). *)
Lemma cart_items_distinct_products cartId db :
  distinctb (fun ci ci' => (ci_cartId ci =? ci_cartId ci')
                           && (ci_productId ci =? ci_productId ci'))
            (cartItems db) = true ->
  NoDup (List.map (fun line : CartItem * Product => ci_productId line.1)
                  (cart_items cartId db)).
Proof.
  unfold cart_items. induction (cartItems db) as [|ci l IH]; intros Hd.
  - constructor.
  - simpl in Hd. apply andb_true_iff in Hd as [Hna Hd].
    apply negb_true_iff in Hna. simpl.
    destruct (Z.eqb_spec (ci_cartId ci) cartId) as [Hc|Hc]; [|by apply IH].
    destruct (products db !! ci_productId ci) as [p|] eqn:Hp; [|by apply IH].
    simpl. constructor; [|by apply IH].
    intros Hin. apply list_elem_of_In, in_map_iff in Hin as (line & Heq & Hin).
    apply list_elem_of_In, list_elem_of_omap in Hin as (ci' & Hin' & Hf).
    destruct (Z.eqb_spec (ci_cartId ci') cartId) as [Hc'|]; [|done].
    destruct (products db !! ci_productId ci'); [|done].
    simpl in Hf. inversion Hf; subst line. simpl in Heq.
    assert (existsb (fun ci'0 => (ci_cartId ci =? ci_cartId ci'0)
                                 && (ci_productId ci =? ci_productId ci'0)) l = true);
      [|congruence].
    apply existsb_exists. exists ci'. split; [by apply list_elem_of_In|].
    apply andb_true_iff. split; apply Z.eqb_eq; congruence.
Qed.

(** ** The loop over the cart lines *)

Lemma unitPriceOf_rule product : unitPriceOf product = discount_or_list product.
Proof. unfold unitPriceOf, discount_or_list, or. by destruct (p_discountPrice product). Qed.

Lemma firstImage_rule product : firstImage product = first_image product.
Proof.
  unfold firstImage, first_image, or_null.
  destruct (p_images product) as [[|image l]|]; simpl; try done.
  unfold truthy, truthy_string. by destruct (String.eqb image "").
Qed.

Lemma or_given (given : option string) standard : or given standard = given_or given standard.
Proof.
  unfold or, given_or. destruct given as [s|]; [|done].
  unfold truthy, truthy_string. by destruct (String.eqb s "").
Qed.

Lemma validateItems_ok items subtotal acc :
  Forall line_ok items ->
  validateItems items subtotal acc
  = inr (fold_left (fun s line => PrimFloat.add s (lineTotal line)) items subtotal,
         acc ++ List.map orderItemData_of items).
Proof.
  revert subtotal acc. induction items as [|[item product] items IH];
    intros subtotal acc Hall.
  - simpl. by rewrite app_nil_r.
  - inversion Hall as [|? ? [Hact Hqty] Hrest]; subst. simpl in Hact, Hqty. simpl.
    rewrite Hact. simpl.
    destruct (Z.ltb_spec (p_stock product) (ci_quantity item)) as [Hlt|_]; [lia|].
    rewrite IH by done. rewrite <- app_assoc.
    unfold orderItemData_of, lineTotal. simpl.
    by rewrite unitPriceOf_rule, firstImage_rule.
Qed.

Lemma validateItems_inr items subtotal acc subtotal' out :
  validateItems items subtotal acc = inr (subtotal', out) ->
  Forall line_ok items
  /\ subtotal' = fold_left (fun s line => PrimFloat.add s (lineTotal line)) items subtotal
  /\ out = acc ++ List.map orderItemData_of items.
Proof.
  revert subtotal acc. induction items as [|[item product] items IH];
    intros subtotal acc H.
  - simpl in H. inversion H; subst. by rewrite app_nil_r.
  - simpl in H.
    destruct (p_isActive product) eqn:Hact; simpl in H; [|done].
    destruct (Z.ltb_spec (p_stock product) (ci_quantity item)) as [|Hqty]; [done|].
    apply IH in H as (Hall & Hs & Hout). split; [|split].
    + constructor; [by split|done].
    + rewrite Hs. unfold lineTotal. simpl. by rewrite unitPriceOf_rule.
    + rewrite Hout, <- app_assoc. unfold orderItemData_of, lineTotal. simpl.
      by rewrite unitPriceOf_rule, firstImage_rule.
Qed.

(** ** createOrder, step by step *)

Lemma prepareOrder_at_ok clock user body db db_count cart :
  truthy (shippingAddress body) = true ->
  truthy (shippingPhone body) = true ->
  cart_findFirst (user_id user) db = Some cart ->
  cart_items (cart_id cart) db <> [] ->
  Forall line_ok (cart_items (cart_id cart) db) ->
  prepareOrder_at clock user body db db_count
  = inr (mkCheckout cart (cart_items (cart_id cart) db)
           (checkout_data clock user body db_count (cart_items (cart_id cart) db))).
Proof.
  intros Ha Hp Hc Hne Hall. unfold prepareOrder_at.
  rewrite Ha, Hp, Hc. simpl.
  destruct (cart_items (cart_id cart) db) as [|l ls] eqn:Hitems; [done|].
  cbn [length Nat.eqb].
  by rewrite (validateItems_ok _ _ _ Hall).
Qed.

Lemma prepareOrder_ok clock user body db cart :
  truthy (shippingAddress body) = true ->
  truthy (shippingPhone body) = true ->
  cart_findFirst (user_id user) db = Some cart ->
  cart_items (cart_id cart) db <> [] ->
  Forall line_ok (cart_items (cart_id cart) db) ->
  prepareOrder clock user body db
  = inr (mkCheckout cart (cart_items (cart_id cart) db)
           (checkout_data clock user body db (cart_items (cart_id cart) db))).
Proof. apply prepareOrder_at_ok. Qed.

Lemma order_create_ok clock d db :
  amounts_fit d = true ->
  strings_fit d = true ->
  number_free (od_orderNumber d) db = true ->
  Forall (fun it => orderItem_refused db it = None) (od_items d) ->
  order_create clock d db
  = inr ((placed_order clock d db, placed_items d db),
         set_nextOrderId (nextOrderId db + 1)
           (set_orderItems (fun l => l ++ placed_items d db)
              (set_orders (fun l => l ++ [placed_order clock d db]) db))).
Proof.
  intros Ham Hst Hfree Hitems. unfold order_create. rewrite Ham, Hst. simpl.
  unfold number_free in Hfree. apply negb_true_iff in Hfree. rewrite Hfree.
  replace (omap (orderItem_refused db) (od_items d)) with (@nil Thrown); [reflexivity|].
  symmetry. induction Hitems as [|it l Hit _ IH]; [done|]. simpl. by rewrite Hit.
Qed.

Lemma order_create_inr clock d db r db' :
  order_create clock d db = inr (r, db') ->
  r = (placed_order clock d db, placed_items d db)
  /\ db' = set_nextOrderId (nextOrderId db + 1)
             (set_orderItems (fun l => l ++ placed_items d db)
                (set_orders (fun l => l ++ [placed_order clock d db]) db))
  /\ number_free (od_orderNumber d) db = true.
Proof.
  unfold order_create, number_free. intros H.
  destruct (amounts_fit d); [|done]. destruct (strings_fit d); [|done]. simpl in H.
  destruct (existsb _ (orders db)); [done|].
  destruct (head _); [done|]. by inversion H.
Qed.

(** An order row that fits its columns is refused only for its number. *)
Lemma order_create_taken clock d db :
  amounts_fit d = true ->
  strings_fit d = true ->
  number_free (od_orderNumber d) db = false ->
  order_create clock d db = inl (prismaError "P2002" "Unique constraint failed").
Proof.
  intros Ham Hst Hfree. unfold order_create. rewrite Ham, Hst. simpl.
  unfold number_free in Hfree. apply negb_false_iff in Hfree. by rewrite Hfree.
Qed.

Lemma createOrderTx_ok clock co db :
  amounts_fit (co_data co) = true ->
  strings_fit (co_data co) = true ->
  number_free (od_orderNumber (co_data co)) db = true ->
  Forall (fun it => orderItem_refused db it = None) (od_items (co_data co)) ->
  Forall (fun line : CartItem * Product =>
            is_Some (products db !! ci_productId line.1)) (co_items co) ->
  moves_fit (checkout_moves (co_items co)) (products db) ->
  co_cart co ∈ carts db ->
  createOrderTx clock co db
  = inr ((placed_order clock (co_data co) db, placed_items (co_data co) db),
         checkout_db clock co db).
Proof.
  intros Ham Hst Hfree Hitems Hprod Hfit Hcart. unfold createOrderTx.
  erewrite bind_inr; [|by apply order_create_ok].
  erewrite bind_inr; cycle 1.
  { apply (forEach_moves _ _ (fun line => (ci_productId line.1, - ci_quantity line.1))).
    - by intros [item product].
    - exact Hprod.
    - exact Hfit. }
  erewrite bind_inr; [|reflexivity].
  erewrite bind_inr; [|reflexivity].
  erewrite bind_inr; cycle 1.
  { unfold cart_delete. simpl.
    replace (existsb _ _) with true; [reflexivity|].
    symmetry. apply existsb_exists. exists (co_cart co).
    split; [by apply list_elem_of_In|apply Z.eqb_refl]. }
  reflexivity.
Qed.

(** When the transaction of createOrder returns, it has inserted the
    order under a number that was free and left the database of a
    committed checkout. *)
Lemma createOrderTx_inr clock co db result db' :
  createOrderTx clock co db = inr (result, db') ->
  result = (placed_order clock (co_data co) db, placed_items (co_data co) db)
  /\ db' = checkout_db clock co db
  /\ number_free (od_orderNumber (co_data co)) db = true.
Proof.
  unfold createOrderTx, mbind, Tx_bind, bind. intros H.
  destruct (order_create clock (co_data co) db) as [e|[r d1]] eqn:E1; [done|].
  apply order_create_inr in E1 as (-> & -> & Hfree).
  destruct (forEach _ _ _) as [e|[u d2]] eqn:E2; [done|].
  apply (forEach_moves_inr _ _ (fun line => (ci_productId line.1, - ci_quantity line.1)))
    in E2; [|by intros [item product]].
  injection E2 as _ ->.
  unfold orderTracking_create in H at 1. simpl in H.
  unfold cartItem_deleteMany, cart_delete in H. simpl in H.
  destruct (existsb _ _); [|done].
  unfold mret, Tx_ret, ret in H. by inversion H.
Qed.

Lemma quantity_of_notin pid (moves : list (Z * Z)) :
  (forall m, m ∈ moves -> m.1 <> pid) -> quantity_of pid moves = 0.
Proof.
  induction moves as [|[k n] moves IH]; intros H; [done|]. simpl.
  destruct (Z.eqb_spec k pid) as [->|_].
  - exfalso. by apply (H (pid, n)); [left|].
  - apply IH. intros m Hm. apply H. by right.
Qed.

Lemma quantity_of_nodup pid n (moves : list (Z * Z)) :
  NoDup (List.map fst moves) -> (pid, n) ∈ moves -> quantity_of pid moves = n.
Proof.
  induction moves as [|[k j] moves IH]; intros Hnd Hin.
  - by apply elem_of_nil in Hin.
  - simpl in Hnd. apply NoDup_cons in Hnd as [Hk Hnd]. simpl.
    apply elem_of_cons in Hin as [Heq|Hin].
    + inversion Heq; subst. rewrite Z.eqb_refl.
      rewrite quantity_of_notin; [lia|].
      intros m Hm Hm1. apply Hk. rewrite <- Hm1.
      apply list_elem_of_In, (in_map fst). by apply list_elem_of_In.
    + destruct (Z.eqb_spec k pid) as [->|_]; [|by apply IH].
      exfalso. apply Hk.
      apply list_elem_of_In. change pid with ((pid, n).1).
      apply (in_map fst). by apply list_elem_of_In.
Qed.

Lemma Forall2_line_copied orderId lines :
  Forall2 (line_copied orderId) lines
          (List.map (orderItem_of orderId) (List.map orderItemData_of lines)).
Proof.
  induction lines as [|line lines IH]; simpl; constructor; [|done].
  by repeat split.
Qed.

Lemma db_ok_elim db :
  db_ok db = true ->
  Forall (fun c => cart_id c < nextCartId db) (carts db)
  /\ distinctb (fun c c' => (cart_userId c =? cart_userId c')
                            && Bool.eqb (cart_isActive c) (cart_isActive c'))
               (carts db) = true
  /\ Forall (fun ci => (exists c, c ∈ carts db /\ cart_id c = ci_cartId ci)
                       /\ is_Some (products db !! ci_productId ci)) (cartItems db)
  /\ distinctb (fun ci ci' => (ci_cartId ci =? ci_cartId ci')
                              && (ci_productId ci =? ci_productId ci'))
               (cartItems db) = true
  /\ Forall (fun oi => is_Some (products db !! oi_productId oi)) (orderItems db).
Proof.
  unfold db_ok. rewrite !andb_true_iff. intros [[[[H1 H2] H3] H4] H5].
  repeat split; try done.
  - apply Forall_forall. intros c Hc.
    rewrite forallb_forall in H1. apply list_elem_of_In, H1 in Hc. lia.
  - apply Forall_forall. intros ci Hci.
    rewrite forallb_forall in H3. apply list_elem_of_In, H3 in Hci.
    apply andb_true_iff in Hci as [Hc Hp]. split.
    + apply existsb_exists in Hc as (c & Hin & Heq).
      exists c. split; [by apply list_elem_of_In|lia].
    + unfold product_exists in Hp. destruct (products db !! ci_productId ci); [eauto|done].
  - apply Forall_forall. intros oi Hoi.
    rewrite forallb_forall in H5. apply list_elem_of_In, H5 in Hoi.
    unfold product_exists in Hoi. destruct (products db !! oi_productId oi); [eauto|done].
Qed.

(** With at most one active cart per user, deleting the user's active cart
    leaves the user without one. *)
Lemma cart_findFirst_after_delete userId db cart l :
  distinctb (fun c c' => (cart_userId c =? cart_userId c')
                         && Bool.eqb (cart_isActive c) (cart_isActive c'))
            (carts db) = true ->
  cart_findFirst userId db = Some cart ->
  l = List.filter (fun c => negb (cart_id c =? cart_id cart)) (carts db) ->
  List.find (fun c => (cart_userId c =? userId) && cart_isActive c) l = None.
Proof.
  intros Hd Hf ->. apply cart_findFirst_some in Hf as (Hin & Hu & Ha).
  destruct (List.find _ _) as [c|] eqn:E; [|done]. exfalso.
  apply find_some in E as [Hc Hp].
  apply filter_In in Hc as [Hc Hid].
  apply andb_true_iff in Hp as [Hu' Ha']. apply Z.eqb_eq in Hu'.
  assert (cart = c) as ->.
  { eapply (distinctb_same_eq _ (carts db)); [|exact Hd|exact Hin| |].
    - intros a b. simpl. rewrite (Z.eqb_sym (cart_userId a)).
      by destruct (cart_isActive a), (cart_isActive b).
    - by apply list_elem_of_In.
    - simpl. apply andb_true_iff. split; [lia|]. by rewrite Ha, Ha'. }
  rewrite Z.eqb_refl in Hid. done.
Qed.

Lemma Forall_filter_neq {A} (key : A -> Z) (k : Z) (l : list A) :
  Forall (fun x => key x <> k) (List.filter (fun x => negb (key x =? k)) l).
Proof.
  apply Forall_forall. intros x Hx.
  apply list_elem_of_In, filter_In in Hx as [_ Hx].
  apply negb_true_iff, Z.eqb_neq in Hx. done.
Qed.

(** ** Values that fit their columns *)

(** A string of at most [n] characters has at most [4 n] bytes. *)
Lemma length_characters_from pending s :
  (String.length s <= pending + 4 * characters_from pending s)%nat.
Proof.
  revert pending. induction s as [|c s IH]; intros pending; [simpl; lia|].
  assert (Hw : (1 <= utf8_width c <= 4)%nat).
  { unfold utf8_width. repeat case_match; lia. }
  cbn [String.length characters_from].
  destruct pending as [|pending'].
  - specialize (IH (utf8_width c - 1)%nat). lia.
  - destruct (is_continuation c).
    + specialize (IH pending'). lia.
    + specialize (IH (utf8_width c - 1)%nat). lia.
Qed.

Lemma varchar_text n s : Z.of_nat n <= 16383 -> varchar n s = true -> text s = true.
Proof.
  unfold varchar, text, characters. intros Hn H.
  apply Nat.leb_le in H. apply Z.leb_le.
  pose proof (length_characters_from 0 s). lia.
Qed.

Lemma decimal_fits_shippingCostOf s : decimal_fits (shippingCostOf s) = true.
Proof. unfold shippingCostOf. destruct (PrimFloat.leb _ _); vm_compute; reflexivity. Qed.

(** The row of the order a checkout writes fits its columns. *)
Lemma order_fits_data clock user body db lines :
  order_fits body lines ->
  amounts_fit (checkout_data clock user body db lines) = true
  /\ strings_fit (checkout_data clock user body db lines) = true.
Proof.
  intros (Ha & Hp & Hn & Hs & Ht). split.
  - unfold amounts_fit. simpl. rewrite Hs, Ht, decimal_fits_shippingCostOf.
    vm_compute. reflexivity.
  - unfold strings_fit. simpl. apply andb_true_iff. split; [apply andb_true_iff; split|].
    + by destruct (shippingAddress body).
    + by destruct (shippingPhone body).
    + destruct (notes body) as [s|]; [|done]. simpl. by destruct (truthy s).
Qed.

(** The rows of the order items a checkout writes are not refused. *)
Lemma line_fits_items db lines :
  Forall (fun line : CartItem * Product =>
            is_Some (products db !! ci_productId line.1)) lines ->
  Forall line_fits lines ->
  Forall (fun it => orderItem_refused db it = None) (List.map orderItemData_of lines).
Proof.
  intros Hprod Hfit. apply Forall_forall. intros it Hit.
  apply list_elem_of_In, in_map_iff in Hit as (line & <- & Hl).
  rewrite Forall_forall in Hprod, Hfit. apply list_elem_of_In in Hl.
  destruct (Hfit _ Hl) as (Himg & Htot & _). destruct (Hprod _ Hl) as [p Hp].
  unfold orderItem_refused, product_exists. simpl. by rewrite Htot, Himg, Hp.
Qed.

(** The stock moves of a checkout keep the stocks within an INT. *)
Lemma line_fits_moves cartId db :
  db_ok db = true ->
  Forall line_fits (cart_items cartId db) ->
  moves_fit (checkout_moves (cart_items cartId db)) (products db).
Proof.
  intros Hok Hfit. destruct (db_ok_elim _ Hok) as (_ & _ & _ & Hlines & _).
  apply moves_fit_distinct.
  - unfold checkout_moves. rewrite map_map. simpl.
    by apply cart_items_distinct_products.
  - apply Forall_forall. intros mv Hmv p Hp.
    apply list_elem_of_In, in_map_iff in Hmv as ([item product] & <- & Hl).
    apply list_elem_of_In in Hl. rewrite Forall_forall in Hfit.
    destruct (Hfit _ Hl) as (_ & _ & Hint). simpl in *.
    apply elem_of_cart_items in Hl as (_ & _ & Hl). simpl in Hl.
    rewrite Hl in Hp. injection Hp as <-.
    by replace (p_stock product + - ci_quantity item)
      with (p_stock product - ci_quantity item) by lia.
Qed.

Lemma createOrder_commits clock user body db cart :
  db_ok db = true ->
  truthy (shippingAddress body) = true ->
  truthy (shippingPhone body) = true ->
  cart_findFirst (user_id user) db = Some cart ->
  cart_items (cart_id cart) db <> [] ->
  Forall line_ok (cart_items (cart_id cart) db) ->
  number_free (generateOrderNumber clock db) db = true ->
  order_fits body (cart_items (cart_id cart) db) ->
  Forall line_fits (cart_items (cart_id cart) db) ->
  createOrder clock user body db
  = (mkResponse 201 true orderPlacedMessage
       (Some (placed_order clock
                (checkout_data clock user body db (cart_items (cart_id cart) db)) db,
              placed_items
                (checkout_data clock user body db (cart_items (cart_id cart) db)) db))
       None,
     checkout_db clock
       (mkCheckout cart (cart_items (cart_id cart) db)
          (checkout_data clock user body db (cart_items (cart_id cart) db))) db).
Proof.
  intros Hok Ha Hp Hc Hne Hall Hfree Hfits Hlfits.
  pose proof (cart_findFirst_some _ _ _ Hc) as (Hin & Hu & Hact).
  set (lines := cart_items (cart_id cart) db) in *.
  assert (Hprod : Forall (fun line : CartItem * Product =>
                            is_Some (products db !! ci_productId line.1)) lines).
  { apply Forall_forall. intros line Hl.
    apply elem_of_cart_items in Hl as (_ & _ & Hl). eauto. }
  destruct (order_fits_data clock user body db lines Hfits) as [Ham Hst].
  unfold createOrder, createOrder_handler, createOrder_handler_at.
  fold (prepareOrder clock user body db).
  rewrite (prepareOrder_ok _ _ _ _ _ Ha Hp Hc Hne Hall). fold lines.
  erewrite transaction_inr; [reflexivity|].
  apply createOrderTx_ok; simpl; try done.
  - by apply line_fits_items.
  - by apply line_fits_moves.
Qed.

Lemma checkout_db_committed clock user body db cart :
  db_ok db = true ->
  cart_findFirst (user_id user) db = Some cart ->
  checkout_committed clock user db cart
    (mkResponse 201 true orderPlacedMessage
       (Some (placed_order clock
                (checkout_data clock user body db (cart_items (cart_id cart) db)) db,
              placed_items
                (checkout_data clock user body db (cart_items (cart_id cart) db)) db))
       None,
     checkout_db clock
       (mkCheckout cart (cart_items (cart_id cart) db)
          (checkout_data clock user body db (cart_items (cart_id cart) db))) db).
Proof.
  intros Hok Hc.
  destruct (db_ok_elim _ Hok) as (Hids & Hcarts & Hfk & Hlines & _).
  pose proof (cart_findFirst_some _ _ _ Hc) as (Hin & Hu & Hact).
  unfold checkout_committed.
  set (lines := cart_items (cart_id cart) db) in *.
  eexists _, _, _. split; [reflexivity|]. simpl.
  repeat match goal with |- _ /\ _ => split end; try done.
  - apply Forall2_line_copied.
  - intros item product Hl. rewrite lookup_apply_moves.
    pose proof Hl as Hl'. apply elem_of_cart_items in Hl' as (_ & _ & Hl'). simpl in Hl'.
    rewrite Hl'. simpl. eexists. split; [reflexivity|].
    erewrite (quantity_of_nodup _ (- ci_quantity item)).
    + apply stock_moved_with_stock.
    + unfold checkout_moves. rewrite map_map. simpl.
      by apply cart_items_distinct_products.
    + unfold checkout_moves. apply list_elem_of_In, in_map_iff.
      exists (item, product). split; [done|by apply list_elem_of_In].
  - intros pid Hpid. rewrite lookup_apply_moves, quantity_of_notin.
    + destruct (products db !! pid) as [p|]; simpl; [|done].
      by rewrite Z.add_0_r, with_stock_same.
    + intros m Hm. unfold checkout_moves in Hm.
      apply list_elem_of_In, in_map_iff in Hm as (line & <- & Hl). simpl.
      by apply Hpid, list_elem_of_In.
  - apply (Forall_filter_neq ci_cartId).
  - apply (Forall_filter_neq cart_id).
  - unfold cart_findFirst. simpl. by eapply cart_findFirst_after_delete.
  - exists (mkCart (nextCartId db) (user_id user) true).
    unfold getCart, getOrCreateCart.
    replace (cart_findFirst _ _) with (@None Cart);
      [|symmetry; unfold cart_findFirst; simpl; by eapply cart_findFirst_after_delete].
    simpl. eexists. rewrite cart_items_nil; cycle 1.
    { simpl. apply Forall_forall. intros ci Hci.
      apply list_elem_of_In, filter_In in Hci as [Hci _].
      rewrite Forall_forall in Hfk. apply list_elem_of_In, Hfk in Hci as [(c & Hcin & <-) _].
      rewrite Forall_forall in Hids. apply Hids in Hcin. lia. }
    simpl. split; [reflexivity|]. simpl.
    rewrite Forall_forall in Hids. pose proof (Hids _ Hin) as Hlt.
    repeat split; try done.
    + lia.
    + intros Hf. apply Hids in Hf. simpl in Hf. lia.
Qed.

Lemma createOrder_collision clock user body db cart :
  truthy (shippingAddress body) = true ->
  truthy (shippingPhone body) = true ->
  cart_findFirst (user_id user) db = Some cart ->
  cart_items (cart_id cart) db <> [] ->
  Forall line_ok (cart_items (cart_id cart) db) ->
  order_fits body (cart_items (cart_id cart) db) ->
  number_free (generateOrderNumber clock db) db = false ->
  createOrder clock user body db
  = (errorHandler (prismaError "P2002" "Unique constraint failed"), db).
Proof.
  intros Ha Hp Hc Hne Hall Hfits Hfree.
  destruct (order_fits_data clock user body db _ Hfits) as [Ham Hst].
  unfold createOrder, createOrder_handler, createOrder_handler_at.
  fold (prepareOrder clock user body db).
  rewrite (prepareOrder_ok _ _ _ _ _ Ha Hp Hc Hne Hall).
  erewrite transaction_inl; [reflexivity|].
  unfold createOrderTx. apply bind_inl. by apply order_create_taken.
Qed.

(** Whatever the request, and whatever other requests committed while it
    ran, createOrder answers 201 or leaves the database as it was. *)
Lemma createOrder_at_atomic clock user body db_cart db_count db :
  res_status (createOrder_at clock user body db_cart db_count db).1 <> 201 ->
  (createOrder_at clock user body db_cart db_count db).2 = db.
Proof.
  unfold createOrder_at, createOrder_handler_at.
  destruct (prepareOrder_at clock user body db_cart db_count) as [err|co]; [done|].
  destruct (transaction _ db) as [[err|result] db'] eqn:E; simpl; [|done].
  intros _. by eapply transaction_rollback.
Qed.

Lemma createOrder_atomic clock user body db :
  res_status (createOrder clock user body db).1 <> 201 ->
  (createOrder clock user body db).2 = db.
Proof. apply createOrder_at_atomic. Qed.

(** ** C1: a checkout writes the order, the stock, the tracking event and
    the removal of the cart together, or nothing *)

(** C1, as the code has it.  For a request with a shipping address and
    phone, by a user whose active cart has at least one line, all products
    active and every quantity within stock: when the generated order
    number is free and what the request writes fits the columns (the
    address and the notes a TEXT, the phone a VARCHAR(15), the first image
    of each product a VARCHAR(255), the amounts a DECIMAL(10,2), the
    stocks an INT), createOrder answers 201 and leaves exactly one new
    order row, one order item per cart line (copying the product's name,
    first image and unit price), each line's product stock lowered by the
    line's quantity and no other stock changed, one 'Order Placed'
    tracking event, and neither the cart's items nor the cart, so that the
    next cart fetch creates a fresh empty cart.  When the number is taken,
    the unique constraint aborts the transaction.  Whatever the request,
    an answer other than 201 leaves the database unchanged. *)
Theorem createOrder_checkout clock user body db cart :
  db_ok db = true ->
  truthy (shippingAddress body) = true ->
  truthy (shippingPhone body) = true ->
  cart_findFirst (user_id user) db = Some cart ->
  cart_items (cart_id cart) db <> [] ->
  Forall line_ok (cart_items (cart_id cart) db) ->
  (number_free (generateOrderNumber clock db) db = true ->
   order_fits body (cart_items (cart_id cart) db) ->
   Forall line_fits (cart_items (cart_id cart) db) ->
   checkout_committed clock user db cart (createOrder clock user body db))
  /\ (number_free (generateOrderNumber clock db) db = false ->
      order_fits body (cart_items (cart_id cart) db) ->
      createOrder clock user body db
      = (errorHandler (prismaError "P2002" "Unique constraint failed"), db))
  /\ (res_status (createOrder clock user body db).1 <> 201 ->
      (createOrder clock user body db).2 = db).
Proof.
  intros Hok Ha Hp Hc Hne Hall. split; [|split].
  - intros Hfree Hfits Hlfits.
    rewrite (createOrder_commits _ _ _ _ _ Hok Ha Hp Hc Hne Hall Hfree Hfits Hlfits).
    by apply checkout_db_committed.
  - intros Hfree Hfits. by eapply createOrder_collision.
  - apply createOrder_atomic.
Qed.

Lemma createOrder_checkout_witness :
  checkout_committed Scenario.clock0 Scenario.alice Scenario.db0 Scenario.cart0
    (createOrder Scenario.clock0 Scenario.alice Scenario.body0 Scenario.db0).
Proof.
  assert (Hlines : cart_items 3 Scenario.db0
                   = [(mkCartItem 1 3 10 2 None (mkDecimal 10000), Scenario.productA);
                      (mkCartItem 2 3 11 1 None (mkDecimal 5000), Scenario.productB)])
    by (vm_compute; reflexivity).
  refine (proj1 (createOrder_checkout Scenario.clock0 Scenario.alice Scenario.body0
                   Scenario.db0 Scenario.cart0 _ _ _ _ _ _) _ _ _).
  - vm_compute. reflexivity.
  - reflexivity.
  - reflexivity.
  - reflexivity.
  - vm_compute. discriminate.
  - change (cart_id Scenario.cart0) with 3. rewrite Hlines.
    repeat (apply List.Forall_cons; [split; [reflexivity|simpl; lia]|]).
    apply List.Forall_nil.
  - vm_compute. reflexivity.
  - change (cart_id Scenario.cart0) with 3. rewrite Hlines.
    split; [|split; [|split; [|split]]]; vm_compute; reflexivity.
  - change (cart_id Scenario.cart0) with 3. rewrite Hlines.
    repeat (apply List.Forall_cons;
            [split; [|split]; vm_compute; reflexivity|]).
    apply List.Forall_nil.
Defined.

(** The second customer of the night of the new year, on a server five
    hours east of UTC: an hour after the first order of the local year
    2027, a checkout of a cart with a line in stock is answered 400, for
    its order number is the one of the first order. *)
Lemma checkout_new_year_counterexample :
  ~ checkout_places_order Shop.clock_east_later Scenario.bob Scenario.body0
      Shop.db_first_of_year.
Proof.
  intros H. destruct (H (mkCart 4 8 true)) as [Hstatus _].
  - reflexivity.
  - reflexivity.
  - vm_compute. reflexivity.
  - vm_compute. discriminate.
  - replace (cart_items _ _)
      with [(mkCartItem 2 4 10 1 None (mkDecimal 10000), with_stock Scenario.productA 3)]
      by (vm_compute; reflexivity).
    apply List.Forall_cons; [split; [reflexivity|simpl; lia]|]. apply List.Forall_nil.
  - vm_compute in Hstatus. discriminate.
Qed.

(** The scenario of the specification: the order totals 2 x 100 + 1 x 50
    plus the fee, product A is left with 3 and product B with 0, the cart is
    gone, and a second checkout is refused for an empty cart. *)
Example scenario_checkout :
  exists r,
    createOrder Scenario.clock0 Scenario.alice Scenario.body0 Scenario.db0 = r
    /\ (fun d : Order * list OrderItem => o_totalAmount d.1) <$> res_data r.1
       = Some (mkDecimal 45000)
    /\ p_stock <$> products r.2 !! 10 = Some 3
    /\ p_stock <$> products r.2 !! 11 = Some 0
    /\ carts r.2 = [] /\ cartItems r.2 = []
    /\ createOrder Scenario.clock0 Scenario.alice Scenario.body0 r.2
       = (mkResponse 400 false "Your cart is empty" None None, r.2).
Proof.
  eexists. split; [vm_compute; reflexivity|].
  split; [vm_compute; reflexivity|].
  split; [vm_compute; reflexivity|].
  split; [vm_compute; reflexivity|].
  split; [vm_compute; reflexivity|].
  split; vm_compute; reflexivity.
Qed.

(** A phone number of sixteen characters: the engine refuses the row of
    the order, the answer is a 500, and nothing is written. *)
Example checkout_long_phone :
  let body := mkCreateOrderBody (Some "X") (Some "+92 300 1234567x") None None in
  createOrder Scenario.clock0 Scenario.alice body Scenario.db0
  = (mkResponse 500 false
       "The provided value for the column is too long for the column's type."
       None (Some "P2000"),
     Scenario.db0).
Proof. vm_compute. reflexivity. Qed.

(** ** C2: the totals of a committed order *)

Lemma prepareOrder_at_inr clock user body db db_count co :
  prepareOrder_at clock user body db db_count = inr co ->
  truthy (shippingAddress body) = true
  /\ truthy (shippingPhone body) = true
  /\ exists cart,
       cart_findFirst (user_id user) db = Some cart
       /\ cart_items (cart_id cart) db <> []
       /\ Forall line_ok (cart_items (cart_id cart) db)
       /\ co = mkCheckout cart (cart_items (cart_id cart) db)
                 (checkout_data clock user body db_count (cart_items (cart_id cart) db)).
Proof.
  unfold prepareOrder_at. intros H.
  destruct (truthy (shippingAddress body)) eqn:Ha; [|done].
  destruct (truthy (shippingPhone body)) eqn:Hp; [|done]. simpl in H.
  destruct (cart_findFirst (user_id user) db) as [cart|] eqn:Hc; [|done].
  destruct (cart_items (cart_id cart) db) as [|l ls] eqn:Hitems; [done|].
  cbn [length Nat.eqb] in H.
  destruct (validateItems (l :: ls) 0%float []) as [err|[subtotal out]] eqn:Hv; [done|].
  apply validateItems_inr in Hv as (Hall & -> & ->).
  inversion H; subst. repeat split; try done.
  exists cart. rewrite Hitems. by repeat split.
Qed.

Lemma prepareOrder_inr clock user body db co :
  prepareOrder clock user body db = inr co ->
  truthy (shippingAddress body) = true
  /\ truthy (shippingPhone body) = true
  /\ exists cart,
       cart_findFirst (user_id user) db = Some cart
       /\ cart_items (cart_id cart) db <> []
       /\ Forall line_ok (cart_items (cart_id cart) db)
       /\ co = mkCheckout cart (cart_items (cart_id cart) db)
                 (checkout_data clock user body db (cart_items (cart_id cart) db)).
Proof. apply prepareOrder_at_inr. Qed.

(** What a 201 answer of createOrder carries. *)
Lemma createOrder_201 clock user body db order items :
  res_status (createOrder clock user body db).1 = 201 ->
  res_data (createOrder clock user body db).1 = Some (order, items) ->
  exists cart,
    cart_findFirst (user_id user) db = Some cart
    /\ Forall line_ok (cart_items (cart_id cart) db)
    /\ order = placed_order clock
                 (checkout_data clock user body db (cart_items (cart_id cart) db)) db
    /\ items = placed_items
                 (checkout_data clock user body db (cart_items (cart_id cart) db)) db.
Proof.
  unfold createOrder, createOrder_handler, createOrder_handler_at.
  destruct (prepareOrder_at clock user body db db) as [err|co] eqn:Hprep;
    [simpl; by rewrite errorHandler_data|].
  apply prepareOrder_at_inr in Hprep as (_ & _ & cart & Hc & _ & Hall & ->).
  unfold transaction.
  destruct (createOrderTx _ _ db) as [err|[result db']] eqn:Htx;
    [simpl; by rewrite errorHandler_data|].
  apply createOrderTx_inr in Htx as (-> & _ & _). simpl. intros _ H. inversion H; subst.
  by exists cart.
Qed.

Lemma compare_cont_Eq_antisym m1 m2 :
  Pos.compare_cont Eq m2 m1 = CompOpp (Pos.compare_cont Eq m1 m2).
Proof. exact (Pos.compare_antisym m1 m2). Qed.

Lemma SFcompare_Lt_Gt x y : SFcompare x y = Some Lt -> SFcompare y x = Some Gt.
Proof.
  destruct x as [s1|s1| |s1 m1 e1], y as [s2|s2| |s2 m2 e2]; simpl;
    try destruct s1; try destruct s2; try congruence; intros H;
    rewrite (Z.compare_antisym e1 e2), (compare_cont_Eq_antisym m1 m2);
    destruct (e1 ?= e2)%Z; simpl in *; try congruence;
    destruct (Pos.compare_cont Eq m1 m2); simpl in *; congruence.
Qed.

(** In binary64, [x < y] excludes [y <= x]. *)
Lemma ltb_not_leb (x y : float) :
  PrimFloat.ltb x y = true -> PrimFloat.leb y x = false.
Proof.
  rewrite FloatAxioms.ltb_spec, FloatAxioms.leb_spec. unfold SFltb, SFleb.
  destruct (SFcompare (Prim2SF x) (Prim2SF y)) as [[]|] eqn:E; try discriminate.
  intros _. by rewrite (SFcompare_Lt_Gt _ _ E).
Qed.

Lemma sumTotals_placed orderId lines s :
  fold_left (fun s oi => PrimFloat.add s
                           (PrimFloat.mul (parseFloat (oi_unitPrice oi))
                                          (Number (oi_quantity oi))))
            (List.map (orderItem_of orderId) (List.map orderItemData_of lines)) s
  = fold_left (fun s line => PrimFloat.add s (lineTotal line)) lines s.
Proof.
  revert s. induction lines as [|line lines IH]; intros s; [done|].
  simpl. by rewrite IH.
Qed.

Lemma Forall2_priced_line orderId lines :
  Forall2 priced_line lines
          (List.map (orderItem_of orderId) (List.map orderItemData_of lines)).
Proof.
  induction lines as [|[item product] lines IH]; simpl; constructor; [|done].
  by repeat split.
Qed.




(** The boundary of free shipping: a subtotal of exactly 5000 ships free,
    one cent less pays the fee. *)
Example shipping_at_threshold :
  Scenario.subtotal_charged (Scenario.db_priced [500000]) = Some (mkDecimal 500000)
  /\ Scenario.shippingCost_charged (Scenario.db_priced [500000]) = Some (mkDecimal 0).
Proof. split; vm_compute; reflexivity. Qed.

Example shipping_one_cent_below :
  Scenario.shippingCost_charged (Scenario.db_priced [499999]) = Some (mkDecimal 20000).
Proof. vm_compute. reflexivity. Qed.

(** The subtotal is a binary64 sum: lines of 619.28, 4259.44 and 121.28
    add up to 5000.00 exactly, but to a number below 5000 in binary64; the
    order pays the fee, and its subtotal is stored as 5000.00. *)
Example shipping_rounding :
  61928 + 425944 + 12128 = 500000
  /\ PrimFloat.ltb (subtotalOf (cart_items 3 (Scenario.db_priced [61928; 425944; 12128])))
                   5000%float = true
  /\ Scenario.subtotal_charged (Scenario.db_priced [61928; 425944; 12128])
     = Some (mkDecimal 500000)
  /\ Scenario.shippingCost_charged (Scenario.db_priced [61928; 425944; 12128])
     = Some (mkDecimal 20000).
Proof.
  split; [done|]. split; [vm_compute; reflexivity|].
  split; vm_compute; reflexivity.
Qed.

(** ** C3: an empty cart *)

(** C3.  When the user has no active cart, or the active cart has no item
    row, createOrder answers 400 and the database is unchanged (no order
    row, no stock change); the error is 'Your cart is empty' for every
    request that carries a shipping address and a phone (a request without
    them is refused before the cart is read). *)
Theorem createOrder_empty_cart clock user body db :
  (cart_findFirst (user_id user) db = None
   \/ exists cart, cart_findFirst (user_id user) db = Some cart
                   /\ Forall (fun ci => ci_cartId ci <> cart_id cart) (cartItems db)) ->
  res_status (createOrder clock user body db).1 = 400
  /\ res_success (createOrder clock user body db).1 = false
  /\ (createOrder clock user body db).2 = db
  /\ orders (createOrder clock user body db).2 = orders db
  /\ products (createOrder clock user body db).2 = products db
  /\ (truthy (shippingAddress body) = true ->
      truthy (shippingPhone body) = true ->
      createOrder clock user body db
      = (mkResponse 400 false "Your cart is empty" None None, db)).
Proof.
  intros Hcart.
  assert (Hcases : createOrder clock user body db
                   = (mkResponse 400 false
                        (if truthy (shippingAddress body) && truthy (shippingPhone body)
                         then "Your cart is empty" else missingInputMessage) None None, db)).
  { unfold createOrder, createOrder_handler, createOrder_handler_at, prepareOrder_at.
    destruct (truthy (shippingAddress body)), (truthy (shippingPhone body)); try done.
    simpl. destruct Hcart as [->|(cart & -> & Hnone)]; [done|].
    by rewrite (cart_items_nil _ _ Hnone). }
  rewrite Hcases. simpl. repeat split.
  intros -> ->. done.
Qed.

Lemma createOrder_empty_cart_witness :
  res_status (createOrder Scenario.clock0 Scenario.admin Scenario.body0 Scenario.db0).1 = 400
  /\ res_success (createOrder Scenario.clock0 Scenario.admin Scenario.body0 Scenario.db0).1
     = false
  /\ (createOrder Scenario.clock0 Scenario.admin Scenario.body0 Scenario.db0).2
     = Scenario.db0
  /\ orders (createOrder Scenario.clock0 Scenario.admin Scenario.body0 Scenario.db0).2
     = orders Scenario.db0
  /\ products (createOrder Scenario.clock0 Scenario.admin Scenario.body0 Scenario.db0).2
     = products Scenario.db0
  /\ (truthy (shippingAddress Scenario.body0) = true ->
      truthy (shippingPhone Scenario.body0) = true ->
      createOrder Scenario.clock0 Scenario.admin Scenario.body0 Scenario.db0
      = (mkResponse 400 false "Your cart is empty" None None, Scenario.db0)).
Proof.
  apply (createOrder_empty_cart Scenario.clock0 Scenario.admin Scenario.body0 Scenario.db0).
  left. reflexivity.
Defined.

(** ** C4: a line beyond the stock *)

Lemma validateItems_offending items subtotal acc line :
  List.find offending items = Some line ->
  validateItems items subtotal acc
  = inl (throwStatus 400 (if p_isActive line.2 then insufficientStockMessage line.2
                          else unavailableMessage line.2)).
Proof.
  revert subtotal acc. induction items as [|[item product] items IH];
    intros subtotal acc H; [done|].
  simpl in H. unfold offending in H at 1. simpl in H. simpl.
  destruct (p_isActive product) eqn:Hact; simpl in *.
  - destruct (p_stock product <? ci_quantity item) eqn:Hq.
    + inversion H; subst. simpl. by rewrite Hact.
    + by apply IH.
  - inversion H; subst. simpl. by rewrite Hact.
Qed.

Lemma find_offending items :
  Exists (fun line : CartItem * Product => p_stock line.2 < ci_quantity line.1) items ->
  exists line, List.find offending items = Some line.
Proof.
  intros H. destruct (List.find offending items) as [line|] eqn:E; [eauto|].
  exfalso. apply Exists_exists in H as (line & Hin & Hlt).
  apply list_elem_of_In, (find_none _ _ E) in Hin. unfold offending in Hin.
  apply orb_false_iff in Hin as [_ Hq]. apply Z.ltb_ge in Hq. lia.
Qed.

(** C4, as the code has it.  For a request with a shipping address and
    phone where some line of the user's cart asks for more than the stock:
    createOrder answers 400 and the database, hence every stock, is
    unchanged.  The error is that of the first line, in cart order, whose
    product is inactive or short of stock: it states the available
    quantity when that product is active, and says that the product is no
    longer available when it is inactive. *)
Theorem createOrder_insufficient_stock clock user body db cart :
  truthy (shippingAddress body) = true ->
  truthy (shippingPhone body) = true ->
  cart_findFirst (user_id user) db = Some cart ->
  Exists (fun line : CartItem * Product => p_stock line.2 < ci_quantity line.1)
         (cart_items (cart_id cart) db) ->
  exists line,
    List.find offending (cart_items (cart_id cart) db) = Some line
    /\ createOrder clock user body db
       = (mkResponse 400 false
            (if p_isActive line.2 then insufficientStockMessage line.2
             else unavailableMessage line.2) None None, db)
    /\ (p_isActive line.2 = true -> p_stock line.2 < ci_quantity line.1).
Proof.
  intros Ha Hp Hc Hex.
  destruct (find_offending _ Hex) as [line Hfind].
  exists line. split; [done|]. split.
  - unfold createOrder, createOrder_handler, createOrder_handler_at, prepareOrder_at. rewrite Ha, Hp, Hc. simpl.
    destruct (cart_items (cart_id cart) db) as [|l ls] eqn:Hitems; [done|].
    cbn [length Nat.eqb]. by rewrite (validateItems_offending _ _ _ _ Hfind).
  - intros Hact. apply find_some in Hfind as [_ Hoff].
    unfold offending in Hoff. rewrite Hact in Hoff. simpl in Hoff. lia.
Qed.

Lemma createOrder_insufficient_stock_witness :
  exists line,
    List.find offending (cart_items 3 Scenario.db_retired) = Some line
    /\ createOrder Scenario.clock0 Scenario.alice Scenario.body0 Scenario.db_retired
       = (mkResponse 400 false
            (if p_isActive line.2 then insufficientStockMessage line.2
             else unavailableMessage line.2) None None, Scenario.db_retired)
    /\ (p_isActive line.2 = true -> p_stock line.2 < ci_quantity line.1).
Proof.
  apply (createOrder_insufficient_stock Scenario.clock0 Scenario.alice Scenario.body0
           Scenario.db_retired Scenario.cart0).
  - reflexivity.
  - reflexivity.
  - reflexivity.
  - replace (cart_items _ _)
      with [(mkCartItem 1 3 12 1 None (mkDecimal 90000), Scenario.retired)]
      by (vm_compute; reflexivity).
    apply List.Exists_cons_hd. simpl. lia.
Defined.

(** A deactivated product without stock: the line asks for more than the
    stock, and the answer names the product instead of stating the
    available quantity. *)
Lemma createOrder_stock_message_counterexample :
  ~ stock_rejection_states_quantity Scenario.clock0 Scenario.alice Scenario.body0
      Scenario.db_retired.
Proof.
  intros H. destruct (H Scenario.cart0) as (_ & (line & Hin & _ & Hmsg) & _).
  - reflexivity.
  - replace (cart_items _ _)
      with [(mkCartItem 1 3 12 1 None (mkDecimal 90000), Scenario.retired)]
      by (vm_compute; reflexivity).
    apply List.Exists_cons_hd. simpl. lia.
  - replace (cart_items _ _)
      with [(mkCartItem 1 3 12 1 None (mkDecimal 90000), Scenario.retired)] in Hin
      by (vm_compute; reflexivity).
    apply list_elem_of_singleton in Hin. subst line.
    vm_compute in Hmsg. discriminate.
Qed.

(** ** cancelOrder, step by step *)

Lemma order_findUnique_some orderId db order :
  order_findUnique orderId db = Some order ->
  order ∈ orders db /\ o_id order = orderId.
Proof.
  unfold order_findUnique. intros H. apply find_some in H as [Hin Hid].
  split; [by apply list_elem_of_In|lia].
Qed.

Lemma find_update orderId (f : Order -> Order) (l : list Order) :
  (forall o, o_id (f o) = o_id o) ->
  List.find (fun o => o_id o =? orderId)
            (List.map (fun o => if o_id o =? orderId then f o else o) l)
  = f <$> List.find (fun o => o_id o =? orderId) l.
Proof.
  intros Hid. induction l as [|o l IH]; [done|]. simpl.
  destruct (o_id o =? orderId) eqn:E.
  - by rewrite Hid, E.
  - by rewrite E.
Qed.

Lemma order_update_ok orderId f db order :
  order_findUnique orderId db = Some order ->
  order_update orderId true f db
  = inr (tt, set_orders (List.map (fun o => if o_id o =? orderId then f o else o)) db).
Proof.
  intros Hfind. unfold order_update.
  replace (existsb _ _) with true; [done|].
  symmetry. apply existsb_exists. exists order. by apply find_some in Hfind.
Qed.

(** An update of an order that exists throws only when a string does not
    fit its column. *)
Lemma order_update_refused orderId f db order :
  order_findUnique orderId db = Some order ->
  order_update orderId false f db = inl dataTooLong.
Proof.
  intros Hfind. unfold order_update.
  replace (existsb _ _) with true; [done|].
  symmetry. apply existsb_exists. exists order. by apply find_some in Hfind.
Qed.

Lemma order_update_inr orderId fits f db r :
  order_update orderId fits f db = inr r ->
  r = (tt, set_orders (List.map (fun o => if o_id o =? orderId then f o else o)) db).
Proof.
  unfold order_update. destruct (existsb _ _); [|done]. destruct fits; [|done].
  by intros [= <-].
Qed.

(** A reason that fits the column of the order fits the description of
    the tracking event. *)
Lemma cancel_description_fits why :
  varchar 255 (or why "Cancelled by customer") = true ->
  varchar 50 "Cancelled" && text (or why "Order cancelled by customer") = true.
Proof.
  rewrite !or_given. unfold given_or. destruct why as [s|]; [destruct (String.eqb s "")|];
    intros H; [vm_compute; reflexivity| |vm_compute; reflexivity].
  apply andb_true_iff. split; [vm_compute; reflexivity|].
  apply (varchar_text 255); [lia|done].
Qed.

Lemma cancelOrderTx_ok clock user orderId items why db order :
  order_findUnique orderId db = Some order ->
  Forall (fun item => is_Some (products db !! oi_productId item)) items ->
  varchar 255 (or why "Cancelled by customer") = true ->
  moves_fit (cancel_moves items) (products db) ->
  cancelOrderTx clock user orderId items why db
  = inr (tt, cancel_db clock user orderId items why db).
Proof.
  intros Hfind Hprod Hwhy Hfit. unfold cancelOrderTx. rewrite Hwhy.
  erewrite bind_inr; [|by eapply order_update_ok].
  erewrite bind_inr; cycle 1.
  { apply (forEach_moves _ _ (fun item => (oi_productId item, oi_quantity item)));
      [done|exact Hprod|exact Hfit]. }
  unfold orderTracking_create. cbn [ot_status ot_description].
  by rewrite (cancel_description_fits _ Hwhy).
Qed.

(** When the transaction of cancelOrder returns, it has left the database
    of a committed cancellation. *)
Lemma cancelOrderTx_inr clock user orderId items why db r :
  cancelOrderTx clock user orderId items why db = inr r ->
  r = (tt, cancel_db clock user orderId items why db).
Proof.
  unfold cancelOrderTx, mbind, Tx_bind, bind. intros H.
  destruct (order_update _ _ _ db) as [e|[u d1]] eqn:E1; [done|].
  apply order_update_inr in E1. injection E1 as _ ->.
  destruct (forEach _ _ _) as [e|[u' d2]] eqn:E2; [done|].
  apply (forEach_moves_inr _ _ (fun item => (oi_productId item, oi_quantity item)))
    in E2; [|done].
  injection E2 as _ ->.
  unfold orderTracking_create in H. destruct (_ && _); [|done]. by injection H as <-.
Qed.

(** When it throws, on an order that exists whose items reference
    products that exist, the engine has refused a value. *)
Lemma cancelOrderTx_inl clock user orderId items why db order err :
  order_findUnique orderId db = Some order ->
  Forall (fun item => is_Some (products db !! oi_productId item)) items ->
  cancelOrderTx clock user orderId items why db = inl err ->
  err = dataTooLong \/ err = valueOutOfRange.
Proof.
  intros Hfind Hprod. unfold cancelOrderTx, mbind, Tx_bind, bind. intros H.
  destruct (varchar 255 _) eqn:Hwhy.
  - rewrite (order_update_ok _ _ _ _ Hfind) in H.
    destruct (forEach _ _ _) as [e|[u' d2]] eqn:E2.
    + injection H as <-. right.
      eapply (forEach_moves_inl _ _ (fun item => (oi_productId item, oi_quantity item)));
        [done| |exact E2].
      exact Hprod.
    + unfold orderTracking_create in H. destruct (_ && _); [done|].
      injection H as <-. by left.
  - rewrite (order_update_refused _ _ _ _ Hfind) in H. injection H as <-. by left.
Qed.

Lemma order_items_products orderId db :
  db_ok db = true ->
  Forall (fun item => is_Some (products db !! oi_productId item)) (order_items orderId db).
Proof.
  intros Hok. destruct (db_ok_elim _ Hok) as (_ & _ & _ & _ & Hfk).
  apply Forall_forall. intros item Hin.
  apply list_elem_of_In, filter_In in Hin as [Hin _].
  rewrite Forall_forall in Hfk. by apply Hfk, list_elem_of_In.
Qed.

(** Once the guards are passed, cancelOrder answers what its transaction
    gives. *)
Lemma cancelOrder_run clock user orderId body db order :
  order_findUnique orderId db = Some order ->
  (user_role user = ADMIN
   \/ (o_userId order = user_id user
       /\ (o_status order = PENDING \/ o_status order = CONFIRMED))) ->
  (user_role user = ADMIN ->
   o_userId order = user_id user \/ truthy (reason body) = true) ->
  cancelOrder clock user (Some orderId) body db
  = match cancelOrderTx clock user orderId (order_items orderId db) (reason body) db with
    | inl err => (errorHandler err, db)
    | inr (_, db') => (mkResponse 200 true orderCancelledMessage None None, db')
    end.
Proof.
  intros Hfind Hwho Hwhy.
  unfold cancelOrder, cancelOrder_handler, transaction. rewrite Hfind.
  assert (Hpass : forall (X : Type) (a b c d : X),
            (if negb (match user_role user with ADMIN => true | USER => false end)
                && negb (o_userId order =? user_id user) then a
             else if negb (match user_role user with ADMIN => true | USER => false end)
                     && negb (includes cancellableStatuses
                                (string_of_OrderStatus (o_status order))) then b
             else if (match user_role user with ADMIN => true | USER => false end)
                     && negb (o_userId order =? user_id user)
                     && negb (truthy (reason body)) then c
             else d) = d).
  { intros X a b c d. destruct (user_role user) eqn:Hrole; simpl.
    - destruct Hwho as [|[Hown Hst]]; [done|].
      apply Z.eqb_eq in Hown. rewrite Hown. simpl.
      by destruct Hst as [-> | ->].
    - destruct (Hwhy eq_refl) as [Hown|Hreason].
      + apply Z.eqb_eq in Hown. by rewrite Hown.
      + rewrite Hreason. simpl. by rewrite andb_false_r. }
  rewrite Hpass.
  by destruct (cancelOrderTx _ _ _ _ _ db) as [err|[[] db']].
Qed.

Lemma cancellation_fits_moves body items db :
  cancellation_fits body items db ->
  varchar 255 (or (reason body) "Cancelled by customer") = true
  /\ moves_fit (cancel_moves items) (products db).
Proof.
  intros (Hwhy & Hpos & Hint). rewrite or_given. split; [done|].
  apply moves_fit_adding; [|exact Hint].
  apply Forall_forall. intros mv Hmv. unfold cancel_moves in Hmv.
  apply list_elem_of_In, in_map_iff in Hmv as (item & <- & Hin). simpl.
  rewrite Forall_forall in Hpos. by apply Hpos, list_elem_of_In.
Qed.

(** Once the guards are passed, the cancellation commits when what it
    writes fits the columns. *)
Lemma cancelOrder_commits_db clock user orderId body db order :
  db_ok db = true ->
  order_findUnique orderId db = Some order ->
  (user_role user = ADMIN
   \/ (o_userId order = user_id user
       /\ (o_status order = PENDING \/ o_status order = CONFIRMED))) ->
  (user_role user = ADMIN ->
   o_userId order = user_id user \/ truthy (reason body) = true) ->
  cancellation_fits body (order_items orderId db) db ->
  cancelOrder clock user (Some orderId) body db
  = (mkResponse 200 true orderCancelledMessage None None,
     cancel_db clock user orderId (order_items orderId db) (reason body) db).
Proof.
  intros Hok Hfind Hwho Hwhy Hfits.
  apply cancellation_fits_moves in Hfits as [Hreason Hmoves].
  rewrite (cancelOrder_run _ _ _ _ _ _ Hfind Hwho Hwhy).
  by rewrite (cancelOrderTx_ok _ _ _ _ _ _ _ Hfind (order_items_products _ _ Hok)
                Hreason Hmoves).
Qed.

Lemma cancelled_from_with_cancelled order at_ why :
  cancelled_from order (with_cancelled order at_ why) at_ why.
Proof. by repeat split. Qed.

(** The database of a committed cancellation is as the statements say. *)
Lemma cancel_db_committed clock user orderId body db order :
  order_findUnique orderId db = Some order ->
  cancellation_committed clock user orderId body db order
    (mkResponse 200 true orderCancelledMessage None None,
     cancel_db clock user orderId (order_items orderId db) (reason body) db).
Proof.
  intros Hfind.
  exists (with_cancelled order (now clock) (or (reason body) "Cancelled by customer")).
  exists (cancel_db clock user orderId (order_items orderId db) (reason body) db).
  split; [done|]. simpl. split; [|split; [|split; [|split; [|split; [|split]]]]].
  - unfold order_findUnique in *. simpl. rewrite find_update; [|done].
    by rewrite Hfind.
  - rewrite <- or_given. apply cancelled_from_with_cancelled.
  - intros pid p Hp. rewrite lookup_apply_moves, Hp. simpl.
    eexists. split; [reflexivity|]. apply stock_moved_with_stock.
  - intros Hnd item p Hin Hp. rewrite lookup_apply_moves, Hp. simpl.
    eexists. split; [reflexivity|].
    erewrite (quantity_of_nodup _ (oi_quantity item)).
    + apply stock_moved_with_stock.
    + unfold cancel_moves. by rewrite map_map.
    + unfold cancel_moves. apply list_elem_of_In, in_map_iff.
      exists item. split; [done|by apply list_elem_of_In].
  - intros pid Hpid. rewrite lookup_apply_moves, quantity_of_notin.
    + destruct (products db !! pid) as [p|]; simpl; [|done].
      by rewrite Z.add_0_r, with_stock_same.
    + intros m Hm. unfold cancel_moves in Hm.
      apply list_elem_of_In, in_map_iff in Hm as (item & <- & Hin). simpl.
      by apply Hpid, list_elem_of_In.
  - unfold cancelled_event. by rewrite or_given.
  - done.
Qed.

Lemma cancelOrder_commits clock user orderId body db order :
  db_ok db = true ->
  order_findUnique orderId db = Some order ->
  (user_role user = ADMIN
   \/ (o_userId order = user_id user
       /\ (o_status order = PENDING \/ o_status order = CONFIRMED))) ->
  (user_role user = ADMIN ->
   o_userId order = user_id user \/ truthy (reason body) = true) ->
  cancellation_fits body (order_items orderId db) db ->
  cancellation_committed clock user orderId body db order
    (cancelOrder clock user (Some orderId) body db).
Proof.
  intros Hok Hfind Hwho Hwhy Hfits.
  rewrite (cancelOrder_commits_db _ _ _ _ _ _ Hok Hfind Hwho Hwhy Hfits).
  by apply cancel_db_committed.
Qed.

(** Once the guards are passed, the answer is 200, or the engine has
    refused a value and nothing is written. *)
Lemma cancelOrder_passed clock user orderId body db order :
  db_ok db = true ->
  order_findUnique orderId db = Some order ->
  (user_role user = ADMIN
   \/ (o_userId order = user_id user
       /\ (o_status order = PENDING \/ o_status order = CONFIRMED))) ->
  (user_role user = ADMIN ->
   o_userId order = user_id user \/ truthy (reason body) = true) ->
  res_status (cancelOrder clock user (Some orderId) body db).1 = 200
  \/ refused_by_engine db (cancelOrder clock user (Some orderId) body db).
Proof.
  intros Hok Hfind Hwho Hwhy.
  rewrite (cancelOrder_run _ _ _ _ _ _ Hfind Hwho Hwhy).
  destruct (cancelOrderTx _ _ _ _ _ db) as [err|[[] db']] eqn:Htx; [|by left].
  right.
  destruct (cancelOrderTx_inl _ _ _ _ _ _ _ _ Hfind (order_items_products _ _ Hok) Htx)
    as [-> | ->]; by repeat split.
Qed.

(** ** C5: cancellation by the owner *)

Lemma cancelOrder_owner_rejected clock user orderId body db order :
  order_findUnique orderId db = Some order ->
  user_role user = USER ->
  o_userId order = user_id user ->
  o_status order <> PENDING -> o_status order <> CONFIRMED ->
  cancelOrder clock user (Some orderId) body db
  = (mkResponse 400 false notCancellableMessage None None, db).
Proof.
  intros Hfind Hrole Hown Hp Hc.
  unfold cancelOrder, cancelOrder_handler. rewrite Hfind, Hrole.
  apply Z.eqb_eq in Hown. rewrite Hown. simpl.
  by destruct (o_status order).
Qed.


Lemma products_db_ordered userId st pid p :
  products (Scenario.db_ordered userId st) !! pid = Some p ->
  pid = 10 /\ p = with_stock Scenario.productA 3.
Proof.
  unfold Scenario.db_ordered. cbn [products]. intros H.
  apply lookup_singleton_Some in H as [<- <-]. done.
Qed.

Lemma cancellation_fits_db_ordered body userId st :
  varchar 255 (given_or (reason body) "Cancelled by customer") = true ->
  cancellation_fits body (order_items 1 (Scenario.db_ordered userId st))
    (Scenario.db_ordered userId st).
Proof.
  intros Hwhy. split; [exact Hwhy|]. split.
  - apply List.Forall_cons; [simpl; lia|apply List.Forall_nil].
  - intros pid p Hp. apply products_db_ordered in Hp as [-> ->].
    split; vm_compute; reflexivity.
Qed.



(** A reason of 256 characters: the engine refuses the update of the
    order, the answer is a 500, and nothing is written. *)
Example cancel_long_reason :
  let body := mkCancelBody (Some (replicate_char 256 "x"%char)) in
  let r := cancelOrder Scenario.clock0 Scenario.alice (Some 1) body
             (Scenario.db_ordered 7 PENDING) in
  (res_status r.1, res_code r.1, r.2) = (500, Some "P2000", Scenario.db_ordered 7 PENDING).
Proof. vm_compute. reflexivity. Qed.

(** ** C6: the guards of cancelOrder *)

(** C6.  cancelOrder answers 404 when the order does not exist; 403 when
    the caller is neither its owner nor an administrator; 400 when an owner
    who is not an administrator cancels an order that is neither PENDING
    nor CONFIRMED; 400 when an administrator cancels another user's order
    without a reason.  An administrator who owns the order or gives a
    reason passes the guards whatever the status of the order: the
    transaction runs, the answer is 200 unless the engine refuses a value
    (500, nothing written), and the cancellation commits when what it
    writes fits the columns. *)
Theorem cancelOrder_guards clock user orderId body db :
  db_ok db = true -> cancel_guards clock user orderId body db.
Proof.
  intros Hok. unfold cancel_guards. split.
  - intros Hnone. unfold cancelOrder, cancelOrder_handler. by rewrite Hnone.
  - intros order Hfind. split; [|split; [|split]].
    + intros Hrole Hown. unfold cancelOrder, cancelOrder_handler.
      rewrite Hfind, Hrole. apply Z.eqb_neq in Hown. by rewrite Hown.
    + intros Hrole Hown Hp Hc. by eapply cancelOrder_owner_rejected.
    + intros Hrole Hown Hreason. unfold cancelOrder, cancelOrder_handler.
      rewrite Hfind, Hrole, Hreason. apply Z.eqb_neq in Hown. by rewrite Hown.
    + intros Hrole Hwhy. split; [eapply cancelOrder_passed; eauto|].
      intros Hfits. apply cancelOrder_commits; auto.
Qed.

Lemma cancelOrder_guards_witness :
  cancel_guards Scenario.clock0 Scenario.admin 1 Scenario.noReason
    (Scenario.db_ordered 7 SHIPPED).
Proof.
  apply (cancelOrder_guards Scenario.clock0 Scenario.admin 1 Scenario.noReason
           (Scenario.db_ordered 7 SHIPPED)).
  vm_compute. reflexivity.
Defined.

(** An administrator cancels a customer's order that has been shipped. *)
Example admin_cancels_shipped :
  let body := mkCancelBody (Some "lost by the courier") in
  let r := cancelOrder Scenario.clock0 Scenario.admin (Some 1) body
             (Scenario.db_ordered 7 SHIPPED) in
  (res_status r.1, o_status <$> order_findUnique 1 r.2,
   o_cancelReason <$> order_findUnique 1 r.2, p_stock <$> products r.2 !! 10)
  = (200, Some CANCELLED, Some (Some "lost by the courier"), Some 5).
Proof. vm_compute. reflexivity. Qed.

(** ** C9: an administrator cancels a cancelled order *)



Lemma forallb_ext {A} (f g : A -> bool) (l : list A) :
  (forall x, f x = g x) -> forallb f l = forallb g l.
Proof. intros H. induction l as [|x l IH]; simpl; [done|]. by rewrite H, IH. Qed.

Lemma product_exists_cancel_db clock user orderId items why db pid :
  product_exists (cancel_db clock user orderId items why db) pid = product_exists db pid.
Proof.
  unfold product_exists, cancel_db. cbn [products].
  rewrite lookup_apply_moves. by destruct (products db !! pid).
Qed.

(** A cancellation keeps the constraints of the schema. *)
Lemma db_ok_cancel_db clock user orderId items why db :
  db_ok (cancel_db clock user orderId items why db) = db_ok db.
Proof.
  unfold db_ok. cbn [carts cartItems orderItems nextCartId cancel_db].
  rewrite (forallb_ext
             (fun oi => product_exists (cancel_db clock user orderId items why db)
                          (oi_productId oi))
             (fun oi => product_exists db (oi_productId oi)))
    by (intros oi; apply product_exists_cancel_db).
  do 2 f_equal. f_equal.
  apply forallb_ext. intros ci. by rewrite product_exists_cancel_db.
Qed.

(** The stock of product A across two cancellations by an administrator
    of a customer's order for two units: 3, then 5, then 7. *)
Example admin_cancels_twice :
  let body := mkCancelBody (Some "damaged in warehouse") in
  let db := Scenario.db_ordered 7 PENDING in
  let db1 := (cancelOrder Scenario.clock0 Scenario.admin (Some 1) body db).2 in
  let db2 := (cancelOrder Scenario.clock0 Scenario.admin (Some 1) body db1).2 in
  (p_stock <$> products db !! 10, p_stock <$> products db1 !! 10,
   p_stock <$> products db2 !! 10) = (Some 3, Some 5, Some 7).
Proof. vm_compute. reflexivity. Qed.

(** ** C7: the order number *)

Lemma digit_value_digit d : 0 <= d < 10 -> digit_value (digit d) = Some d.
Proof.
  intros H.
  assert (Hd : d = 0 \/ d = 1 \/ d = 2 \/ d = 3 \/ d = 4 \/ d = 5 \/ d = 6
               \/ d = 7 \/ d = 8 \/ d = 9) by lia.
  repeat (destruct Hd as [->|Hd]; [reflexivity|]). by subst.
Qed.

Lemma digits_S fuel n acc :
  digits (S fuel) n acc
  = if n <? 10 then String (digit (n mod 10)) acc
    else digits fuel (n / 10) (String (digit (n mod 10)) acc).
Proof. reflexivity. Qed.

(** With enough fuel, [digits] writes the [k] decimal digits of [n] in
    front of [acc]: reading them back multiplies what was read by [10^k]
    and adds [n]. *)
Lemma digits_spec fuel n acc :
  0 <= n < 2 ^ Z.of_nat (S fuel) ->
  exists k : nat,
    String.length (digits (S fuel) n acc) = (k + String.length acc)%nat
    /\ (1 <= k)%nat
    /\ (n = 0 \/ 10 ^ (Z.of_nat k - 1) <= n)
    /\ forall a, parseDigits (digits (S fuel) n acc) a
                 = parseDigits acc (a * 10 ^ Z.of_nat k + n).
Proof.
  assert (Hone : forall m acc', 0 <= m < 10 ->
            String.length (String (digit m) acc') = (1 + String.length acc')%nat
            /\ (1 <= 1)%nat
            /\ (m = 0 \/ 10 ^ (Z.of_nat 1 - 1) <= m)
            /\ forall a, parseDigits (String (digit m) acc') a
                         = parseDigits acc' (a * 10 ^ Z.of_nat 1 + m)).
  { intros m acc' Hm. split; [reflexivity|]. split; [lia|]. split; [lia|].
    intros a. cbn [parseDigits]. rewrite digit_value_digit by lia. f_equal. lia. }
  revert n acc. induction fuel as [|fuel IH]; intros n acc Hn.
  - exists 1%nat. change (2 ^ Z.of_nat 1) with 2 in Hn.
    rewrite digits_S, (Z.mod_small n 10) by lia.
    destruct (Z.ltb_spec n 10); [|lia]. apply Hone. lia.
  - rewrite digits_S. destruct (Z.ltb_spec n 10) as [Hlt|Hge].
    + exists 1%nat. rewrite (Z.mod_small n 10) by lia. apply Hone. lia.
    + assert (Hpow : 2 ^ Z.of_nat (S (S fuel)) = 2 * 2 ^ Z.of_nat (S fuel)).
      { rewrite (Nat2Z.inj_succ (S fuel)), Z.pow_succ_r; lia. }
      assert (Hq : 0 <= n / 10 < 2 ^ Z.of_nat (S fuel)).
      { split; [apply Z.div_pos; lia|].
        apply Z.div_lt_upper_bound; lia. }
      destruct (IH (n / 10) (String (digit (n mod 10)) acc) Hq)
        as (k & Hlen & Hk & Hlow & Hparse).
      exists (S k). pose proof (Z.div_mod n 10 ltac:(lia)) as Hdm.
      pose proof (Z.mod_pos_bound n 10 ltac:(lia)) as Hm.
      assert (Hk10 : 10 ^ Z.of_nat (S k) = 10 * 10 ^ Z.of_nat k).
      { rewrite Nat2Z.inj_succ, Z.pow_succ_r; lia. }
      split; [|split; [|split]].
      * rewrite Hlen. cbn [String.length]. lia.
      * lia.
      * right. destruct Hlow as [H0|Hlow]; [lia|].
        replace (Z.of_nat (S k) - 1) with (Z.succ (Z.of_nat k - 1)) by lia.
        rewrite Z.pow_succ_r by lia. lia.
      * intros a. rewrite Hparse. cbn [parseDigits].
        rewrite digit_value_digit by lia. f_equal. rewrite Hk10. lia.
Qed.

Lemma length_append (s1 s2 : string) :
  String.length (s1 +:+ s2) = (String.length s1 + String.length s2)%nat.
Proof. induction s1 as [|c s1 IH]; [done|]. simpl. by rewrite IH. Qed.

Lemma length_replicate_char m c : String.length (replicate_char m c) = m.
Proof. induction m as [|m IH]; [done|]. simpl. by rewrite IH. Qed.

Lemma parseDigits_zeros m s :
  parseDigits (replicate_char m "0"%char +:+ s) 0 = parseDigits s 0.
Proof. induction m as [|m IH]; [done|]. simpl. exact IH. Qed.

(** With enough fuel, a number of at least [10^k] is written with more
    than [k] digits. *)
Lemma digits_length_lower fuel n acc (k : nat) :
  0 <= n < 2 ^ Z.of_nat (S fuel) ->
  10 ^ Z.of_nat k <= n ->
  (k + 1 + String.length acc <= String.length (digits (S fuel) n acc))%nat.
Proof.
  revert n acc k. induction fuel as [|fuel IH]; intros n acc k Hn Hk.
  - change (2 ^ Z.of_nat 1) with 2 in Hn.
    rewrite digits_S. destruct (Z.ltb_spec n 10); [|lia].
    assert (k = 0)%nat as ->; [|cbn [String.length]; lia].
    destruct k as [|k]; [done|]. exfalso.
    assert (10 ^ 1 <= 10 ^ Z.of_nat (S k)) by (apply Z.pow_le_mono_r; lia). lia.
  - rewrite digits_S. destruct (Z.ltb_spec n 10) as [Hlt|Hge].
    + assert (k = 0)%nat as ->; [|cbn [String.length]; lia].
      destruct k as [|k]; [done|]. exfalso.
      assert (10 ^ 1 <= 10 ^ Z.of_nat (S k)) by (apply Z.pow_le_mono_r; lia). lia.
    + assert (Hpow : 2 ^ Z.of_nat (S (S fuel)) = 2 * 2 ^ Z.of_nat (S fuel)).
      { rewrite (Nat2Z.inj_succ (S fuel)), Z.pow_succ_r; lia. }
      assert (Hq : 0 <= n / 10 < 2 ^ Z.of_nat (S fuel)).
      { split; [apply Z.div_pos; lia|].
        apply Z.div_lt_upper_bound; lia. }
      destruct k as [|k].
      * assert (H1 : 10 ^ Z.of_nat 0 <= n / 10).
        { apply Z.div_le_lower_bound; simpl; lia. }
        specialize (IH (n / 10) (String (digit (n mod 10)) acc) 0%nat Hq H1).
        cbn [String.length] in IH. lia.
      * assert (H1 : 10 ^ Z.of_nat k <= n / 10).
        { apply Z.div_le_lower_bound; [lia|].
          rewrite Nat2Z.inj_succ, Z.pow_succ_r in Hk; lia. }
        specialize (IH (n / 10) (String (digit (n mod 10)) acc) k Hq H1).
        cbn [String.length] in IH. lia.
Qed.

(** A positive counter is written with at least six digits, exactly six
    below 1000000 and more from there on, and the digits read back as the
    counter. *)
Lemma padStart_counter n :
  0 < n ->
  parseDigits (padStart 6 "0"%char (String_of_Z n)) 0 = Some n
  /\ (6 <= String.length (padStart 6 "0"%char (String_of_Z n)))%nat
  /\ (n < 1000000 -> String.length (padStart 6 "0"%char (String_of_Z n)) = 6%nat).
Proof.
  intros Hn. unfold String_of_Z. destruct (Z.ltb_spec n 0); [lia|].
  destruct (digits_spec (Z.to_nat (Z.log2 n)) n "") as (k & Hlen & Hk & Hlow & Hparse).
  { split; [lia|]. rewrite Nat2Z.inj_succ, Z2Nat.id by apply Z.log2_nonneg.
    apply Z.log2_spec. lia. }
  cbn [String.length] in Hlen. rewrite Nat.add_0_r in Hlen.
  unfold padStart. rewrite length_append, length_replicate_char, Hlen.
  split; [|split].
  - rewrite parseDigits_zeros, Hparse. cbn [parseDigits]. f_equal; lia.
  - lia.
  - intros Hsmall. assert (k <= 6)%nat; [|lia].
    destruct Hlow as [|Hlow]; [lia|].
    assert (Z.of_nat k - 1 < 6); [|lia].
    apply (Z.pow_lt_mono_r_iff 10); lia.
Qed.

Lemma padStart_counter_long n :
  1000000 <= n -> (7 <= String.length (padStart 6 "0"%char (String_of_Z n)))%nat.
Proof.
  intros Hn. unfold String_of_Z. destruct (Z.ltb_spec n 0); [lia|].
  pose proof (digits_length_lower (Z.to_nat (Z.log2 n)) n "" 6) as Hlow.
  unfold padStart. rewrite length_append. cbn [String.length] in Hlow.
  assert (7 <= String.length (digits (S (Z.to_nat (Z.log2 n))) n ""))%nat; [|lia].
  apply Hlow; [|exact Hn].
  split; [lia|]. rewrite Nat2Z.inj_succ, Z2Nat.id by apply Z.log2_nonneg.
  apply Z.log2_spec. lia.
Qed.

(** The shape of a generated number. *)
Lemma order_number_shape clock db :
  order_number_is (generateOrderNumber clock db) (getFullYear clock)
    (order_count_gte (startOfYear (getFullYear clock)) db + 1).
Proof.
  assert (Hpos : 0 < order_count_gte (startOfYear (getFullYear clock)) db + 1).
  { unfold order_count_gte. lia. }
  destruct (padStart_counter _ Hpos) as (Hparse & Hmin & Hsix).
  eexists. split; [reflexivity|]. split; [reflexivity|].
  split; [exact Hparse|]. split; [exact Hmin|]. split; [exact Hsix|].
  apply padStart_counter_long.
Qed.

(** *** The calendar of the handlers *)

Lemma days_of_years_snoc n y :
  days_of_years (S n) y = days_of_years n y + days_in_year (y + Z.of_nat n).
Proof.
  revert y. induction n as [|n IH]; intros y.
  - cbn [days_of_years]. change (Z.of_nat 0) with 0. rewrite (Z.add_0_r y). lia.
  - change (days_of_years (S (S n)) y) with (days_in_year y + days_of_years (S n) (y + 1)).
    rewrite IH. cbn [days_of_years].
    replace (y + 1 + Z.of_nat n) with (y + Z.of_nat (S n)) by lia. lia.
Qed.

Lemma forallb_seq_Z (f : nat -> bool) (len : nat) i :
  forallb f (seq 0 len) = true -> 0 <= i < Z.of_nat len -> f (Z.to_nat i) = true.
Proof.
  intros H Hi. rewrite forallb_forall in H. apply H, in_seq. lia.
Qed.

Lemma calendars_agree_spec n y d :
  calendars_agree n y d = true ->
  forall j : nat,
    (j < n)%nat ->
    startOfYear (y + Z.of_nat j) = (d + days_of_years j y) * msPerDay
    /\ forall i, 0 <= i < days_in_year (y + Z.of_nat j) ->
                 yearOfDays (d + days_of_years j y + i) = y + Z.of_nat j.
Proof.
  revert y d. induction n as [|n IH]; intros y d H j Hj; [lia|].
  cbn [calendars_agree] in H. apply andb_true_iff in H as [H Hrest].
  apply andb_true_iff in H as [Hstart Hdays].
  destruct j as [|j].
  - cbn [days_of_years]. change (Z.of_nat 0) with 0. rewrite !Z.add_0_r.
    split; [lia|]. intros i Hi.
    assert (Hi' : 0 <= i < Z.of_nat (Z.to_nat (days_in_year y))) by lia.
    pose proof (forallb_seq_Z _ _ i Hdays Hi') as Hday. cbv beta in Hday.
    rewrite Z2Nat.id in Hday by lia. lia.
  - destruct (IH _ _ Hrest j ltac:(lia)) as [Hs Hd].
    cbn [days_of_years].
    replace (y + Z.of_nat (S j)) with (y + 1 + Z.of_nat j) by lia.
    replace (d + (days_in_year y + days_of_years j (y + 1)))
      with (d + days_in_year y + days_of_years j (y + 1)) by lia.
    split; [exact Hs|exact Hd].
Qed.

(** getFullYear and the start of the year of the handlers follow the
    calendar, from 1970 to 2199. *)
Lemma calendars_agree_2200 : calendars_agree 230 1970 0 = true.
Proof. vm_compute. reflexivity. Qed.

Lemma year_of_clock clock y :
  1970 <= y < 2200 ->
  in_year (tzOffsetMinutes clock) y (now clock) = true ->
  getFullYear clock = y /\ startOfYear y = new_year y.
Proof.
  intros Hy Hin. unfold in_year in Hin. apply andb_true_iff in Hin as [Hlo Hhi].
  apply Z.leb_le in Hlo. apply Z.ltb_lt in Hhi.
  assert (Hj : (Z.to_nat (y - 1970) < 230)%nat).
  { apply Nat2Z.inj_lt. rewrite Z2Nat.id by lia. change (Z.of_nat 230) with 230. lia. }
  destruct (calendars_agree_spec _ _ _ calendars_agree_2200 (Z.to_nat (y - 1970)) Hj)
    as [Hs Hd].
  rewrite Z2Nat.id in Hs, Hd by lia.
  replace (1970 + (y - 1970)) with y in Hs, Hd by lia.
  rewrite Z.add_0_l in Hs, Hd.
  unfold new_year in *.
  replace (Z.to_nat (y + 1 - 1970)) with (S (Z.to_nat (y - 1970))) in Hhi by lia.
  rewrite days_of_years_snoc, Z2Nat.id in Hhi by lia.
  replace (1970 + (y - 1970)) with y in Hhi by lia.
  split; [|exact Hs].
  unfold getFullYear.
  set (t := now clock + tzOffsetMinutes clock * 60000) in *.
  set (D := days_of_years (Z.to_nat (y - 1970)) 1970) in *.
  assert (Hms : msPerDay = 86400000) by reflexivity.
  assert (HD : D <= t / msPerDay < D + days_in_year y).
  { split.
    - apply Z.div_le_lower_bound; lia.
    - apply Z.div_lt_upper_bound; lia. }
  replace (t / msPerDay) with (D + (t / msPerDay - D)) by lia.
  apply Hd. lia.
Qed.




Example second_order_of_2026 :
  generateOrderNumber Scenario.clock0 (Scenario.db_ordered 7 PENDING) = "RA-2026-000002".
Proof. vm_compute. reflexivity. Qed.

(** West of UTC the count runs ahead: on a server five hours west, at
    2026-12-31T21:00 local time, an order created two hours earlier is
    counted with the year 2026, and three hours later, at midnight, the
    first order of 2027 gets the counter 000002. *)
Example first_order_of_2027_west :
  let db := Scenario.db_ordered 7 PENDING in
  let placed := mkOrder 2 "RA-2026-000002" 7 PENDING (mkDecimal 20000) (mkDecimal 20000)
                  (mkDecimal 0) (mkDecimal 40000) "X" "Y" None None None None None None
                  1798761600000 in
  let db' := set_orders (fun l => l ++ [placed]) db in
  (getFullYear (mkClock 1798779600000 (-300)),
   generateOrderNumber (mkClock 1798779600000 (-300)) db')
  = (2027, "RA-2027-000002").
Proof. vm_compute. reflexivity. Qed.

(** Two checkouts that both read the count before either commits get the
    same number; the first commit succeeds and the second is refused by
    the unique constraint, leaving the database as the first left it. *)
Example concurrent_checkouts_collide :
  exists coA coB resultA dbA,
    prepareOrder Scenario.clock0 Scenario.alice Scenario.body0 Scenario.db_two = inr coA
    /\ prepareOrder Scenario.clock0 Scenario.bob Scenario.body0 Scenario.db_two = inr coB
    /\ od_orderNumber (co_data coA) = od_orderNumber (co_data coB)
    /\ transaction (createOrderTx Scenario.clock0 coA) Scenario.db_two = (inr resultA, dbA)
    /\ transaction (createOrderTx Scenario.clock0 coB) dbA
       = (inl (prismaError "P2002" "Unique constraint failed"), dbA).
Proof.
  eexists _, _, _, _.
  split; [vm_compute; reflexivity|].
  split; [vm_compute; reflexivity|].
  split; [vm_compute; reflexivity|].
  split; [vm_compute; reflexivity|].
  vm_compute. reflexivity.
Qed.

(** ** C8: updateOrderStatus *)

Lemma OrderStatus_of_string_some x st :
  OrderStatus_of_string x = Some st -> x = string_of_OrderStatus st.
Proof.
  unfold OrderStatus_of_string. intros H. apply find_some in H as [_ H].
  by apply String.eqb_eq in H.
Qed.

Lemma OrderStatus_of_string_none x :
  OrderStatus_of_string x = None -> includes validStatuses x = false.
Proof.
  unfold OrderStatus_of_string, includes, allOrderStatuses, validStatuses.
  cbn [List.find existsb string_of_OrderStatus]. rewrite !(String.eqb_sym x).
  repeat match goal with
         | |- context [String.eqb ?a x] =>
             destruct (String.eqb a x); [intros H; discriminate H|]
         end.
  reflexivity.
Qed.

Lemma includes_string_of_OrderStatus st :
  includes validStatuses (string_of_OrderStatus st) = true.
Proof. by destruct st. Qed.

Lemma OrderStatus_of_string_of st :
  OrderStatus_of_string (string_of_OrderStatus st) = Some st.
Proof. by destruct st. Qed.

Lemma status_description_fits body st :
  nullable text (description body) = true ->
  varchar 50 (string_of_OrderStatus st)
  && text (or (description body) ("Order status updated to " +:+ string_of_OrderStatus st))
  = true.
Proof.
  intros H. apply andb_true_iff. split; [by destruct st|].
  rewrite or_given. unfold given_or.
  destruct (description body) as [s|]; [destruct (String.eqb s "")|];
    [by destruct st|done|by destruct st].
Qed.

Lemma nullable_or_null (fits : string -> bool) (given : option string) :
  nullable fits given = true -> nullable fits (or_null given) = true.
Proof. destruct given as [s|]; [|done]. simpl. by destruct (truthy s). Qed.

Lemma tracking_free_not_taken orderId body db db' :
  tracking_free orderId body db = true ->
  deliveries db' = deliveries db ->
  match or_null (trackingNumber body) with
  | Some t => tracking_taken orderId t db'
  | None => false
  end = false.
Proof.
  unfold tracking_free, or_null, tracking_taken. intros Hall ->. revert Hall.
  destruct (trackingNumber body) as [s|]; [|done].
  unfold truthy, truthy_string. destruct (String.eqb s "") eqn:E; simpl; [done|].
  intros Hall. apply not_true_is_false. intros Hex.
  apply existsb_exists in Hex as (d & Hin & Hd).
  rewrite forallb_forall in Hall. specialize (Hall d Hin).
  apply andb_true_iff in Hd as [Hid Htr]. apply negb_true_iff in Hid.
  rewrite Hid in Hall. simpl in Hall. by destruct (d_trackingNumber d).
Qed.

Lemma updateOrderStatusTx_ok clock user orderId order body st ud db :
  order_findUnique orderId db = Some order ->
  ud_status ud = string_of_OrderStatus st ->
  tracking_free orderId body db = true ->
  status_update_fits body ->
  exists db',
    updateOrderStatusTx clock user orderId order body (string_of_OrderStatus st) ud db
    = inr (tt, db')
    /\ orders db'
       = List.map (fun o => if o_id o =? orderId then apply_update st ud o else o) (orders db)
    /\ orderTracking db'
       = orderTracking db
         ++ [mkOrderTracking orderId (string_of_OrderStatus st)
               (or (description body)
                   ("Order status updated to " +:+ string_of_OrderStatus st))
               (Some (user_id user)) (now clock)]
    /\ products db' = products db.
Proof.
  intros Hfind Hud Hfree (Hdesc & Htrack & Hcourier). unfold updateOrderStatusTx.
  erewrite bind_inr; cycle 1.
  { unfold order_update_data. rewrite Hud, OrderStatus_of_string_of.
    by eapply order_update_ok. }
  erewrite bind_inr; cycle 1.
  { unfold orderTracking_create. cbn [ot_status ot_description].
    by rewrite (status_description_fits _ _ Hdesc). }
  destruct (_ || _ || _).
  - unfold delivery_upsert.
    rewrite (nullable_or_null _ _ Htrack), (nullable_or_null _ _ Hcourier).
    cbn [negb andb]. erewrite tracking_free_not_taken; [|exact Hfree|reflexivity].
    eexists. split; [reflexivity|]. done.
  - eexists. split; [reflexivity|]. done.
Qed.

Lemma toUpperCase_nonempty s st :
  toUpperCase s = string_of_OrderStatus st -> truthy s = true.
Proof. destruct s; [by destruct st|done]. Qed.

Lemma stamped_milestones st clock order :
  let ud :=
    mkUpdateData (string_of_OrderStatus st)
      (if String.eqb (string_of_OrderStatus st) "CONFIRMED" then Some (now clock) else None)
      (if String.eqb (string_of_OrderStatus st) "SHIPPED" then Some (now clock) else None)
      (if String.eqb (string_of_OrderStatus st) "DELIVERED" then Some (now clock) else None) in
  o_status (apply_update st ud order) = st
  /\ o_confirmedAt (apply_update st ud order) = stamped st CONFIRMED clock (o_confirmedAt order)
  /\ o_shippedAt (apply_update st ud order) = stamped st SHIPPED clock (o_shippedAt order)
  /\ o_deliveredAt (apply_update st ud order)
     = stamped st DELIVERED clock (o_deliveredAt order).
Proof. by destruct st. Qed.




(** The status 'SHIPPED' is in the set, and the request is answered 400
    because another delivery carries its tracking number; nothing is
    written. *)
Example status_update_tracking_taken :
  ~ status_checked_against_set Scenario.clock0 Scenario.admin 1
      Scenario.body_same_tracking Scenario.db_tracked
  /\ (updateOrderStatus Scenario.clock0 Scenario.admin (Some 1)
        Scenario.body_same_tracking Scenario.db_tracked).2 = Scenario.db_tracked.
Proof.
  split; [|vm_compute; reflexivity].
  intros H. destruct (H "SHIPPED" eq_refl) as [Hin _].
  specialize (Hin eq_refl ltac:(eexists; reflexivity)). vm_compute in Hin. discriminate.
Qed.

(** A status spelled with the long s (U+017F, the bytes C5 BF) reads
    SHIPPED in upper case: the request is answered 200 and the order is
    SHIPPED. *)
Example status_long_s :
  let body := mkStatusBody (Some Scenario.long_s_hipped) None None None in
  let r := updateOrderStatus Scenario.clock0 Scenario.admin (Some 1) body
             (Scenario.db_ordered 7 PENDING) in
  (toUpperCase Scenario.long_s_hipped, res_status r.1, o_status <$> order_findUnique 1 r.2)
  = ("SHIPPED", 200, Some SHIPPED).
Proof. vm_compute. reflexivity. Qed.

(** A tracking number of 101 characters: the engine refuses the row of
    the delivery, the answer is a 500, and nothing is written. *)
Example status_long_tracking_number :
  let body := mkStatusBody (Some "SHIPPED") None (Some (replicate_char 101 "7"%char)) None in
  let r := updateOrderStatus Scenario.clock0 Scenario.admin (Some 1) body
             (Scenario.db_ordered 7 PENDING) in
  (res_status r.1, res_code r.1, r.2) = (500, Some "P2000", Scenario.db_ordered 7 PENDING).
Proof. vm_compute. reflexivity. Qed.

(** ** C10: the discount price *)

(** On a number, [x || y] falls back to [y] when [x] is zero... *)
Lemma or_number_zero (y : float) : or (Some 0%float) y = y.
Proof. reflexivity. Qed.

(** ... but a decimal object is truthy whatever its value. *)
Lemma or_Decimal (d y : Decimal) : or (Some d) y = d.
Proof. reflexivity. Qed.

(** C10, as the code has it.  The unit price of a checkout line, and the
    current price of a cart line, is the product's discount price whenever
    that price is not null, and the list price when it is null.  The
    discount price is a decimal object, and an object passes the truthiness
    check of [||] whatever its value: with a discount price of zero the
    unit price is zero. *)
Theorem discount_price_rule :
  (forall clock user body db order items,
     res_status (createOrder clock user body db).1 = 201 ->
     res_data (createOrder clock user body db).1 = Some (order, items) ->
     exists cart,
       cart_findFirst (user_id user) db = Some cart
       /\ Forall2 (fun (line : CartItem * Product) oi =>
                     oi_unitPrice oi = discount_or_list line.2)
                  (cart_items (cart_id cart) db) items)
  /\ (forall user db,
        Forall2 (fun (line : CartItem * Product) cl =>
                   cl_currentPrice cl = discount_or_list line.2)
                (cart_items (getCart user db).1.1.1 (getCart user db).2)
                (getCart user db).1.1.2)
  /\ (forall product,
        p_discountPrice product = Some (mkDecimal 0) ->
        unitPriceOf product = mkDecimal 0).
Proof.
  split; [|split].
  - intros clock user body db order items Hs Hd.
    destruct (createOrder_201 _ _ _ _ _ _ Hs Hd) as (cart & Hc & _ & _ & ->).
    exists cart. split; [done|]. unfold placed_items. simpl.
    eapply Forall2_impl; [apply Forall2_priced_line|].
    intros line oi (_ & H & _). exact H.
  - intros user db. unfold getCart.
    destruct (getOrCreateCart (user_id user) db) as [cart db'] eqn:E. simpl.
    induction (cart_items (cart_id cart) db') as [|[item product] lines IH];
      simpl; constructor.
    + apply unitPriceOf_rule.
    + exact IH.
  - intros product H. rewrite unitPriceOf_rule. unfold discount_or_list. by rewrite H.
Qed.

(** A product listed at 100.00 with a discount price of 0.00 is ordered at
    a unit price of 0.00, not 100.00. *)
Lemma zero_discount_counterexample :
  ~ zero_discount_charged_list_price Scenario.clock0 Scenario.alice Scenario.body0
      Scenario.db_giveaway.
Proof.
  intros H.
  specialize (H Scenario.cart0 _ _ eq_refl eq_refl).
  replace (cart_items _ _)
    with [(mkCartItem 1 3 13 1 None (mkDecimal 0), Scenario.giveaway)] in H
    by (vm_compute; reflexivity).
  apply Forall2_cons_1 in H as [H _]. specialize (H eq_refl). discriminate H.
Qed.

Example zero_discount_order_is_free :
  (fun r : Order * list OrderItem => (o_subtotal r.1, List.map oi_unitPrice r.2))
    <$> res_data (createOrder Scenario.clock0 Scenario.alice Scenario.body0
                    Scenario.db_giveaway).1
  = Some (mkDecimal 0, [mkDecimal 0]).
Proof. vm_compute. reflexivity. Qed.

(** * Properties of the cart controller and of the views of an order *)

(** ** The cart controller: the rows a request writes *)

Lemma totalItemsOf_acc items a :
  fold_left (fun sum item => sum + ci_quantity item) items a = a + totalItemsOf items.
Proof.
  unfold totalItemsOf. revert a.
  induction items as [|x items IH]; intros a; simpl; [lia|].
  rewrite IH, (IH (0 + _)). lia.
Qed.

Lemma totalItemsOf_cons x items :
  totalItemsOf (x :: items) = ci_quantity x + totalItemsOf items.
Proof. unfold totalItemsOf at 1. simpl. rewrite totalItemsOf_acc. lia. Qed.

Lemma totalItemsOf_app l1 l2 :
  totalItemsOf (l1 ++ l2) = totalItemsOf l1 + totalItemsOf l2.
Proof.
  induction l1 as [|x l1 IH]; [reflexivity|].
  simpl. rewrite !totalItemsOf_cons, IH. lia.
Qed.

Lemma store_ok_elim st :
  store_ok st = true ->
  db_ok (store_db st) = true
  /\ distinctb (fun c c' => cart_id c =? cart_id c') (carts (store_db st)) = true
  /\ Forall (fun ci => ci_id ci < nextCartItemId st) (cartItems (store_db st))
  /\ distinctb (fun ci ci' => ci_id ci =? ci_id ci') (cartItems (store_db st)) = true.
Proof.
  unfold store_ok. rewrite !andb_true_iff. intros [[[H1 H2] H3] H4].
  repeat split; try assumption.
  rewrite List.Forall_forall. intros ci Hin.
  rewrite forallb_forall in H3. apply H3 in Hin. lia.
Qed.

Lemma find_none_intro {A} (f : A -> bool) (l : list A) :
  Forall (fun x => f x = false) l -> List.find f l = None.
Proof.
  induction 1 as [|x l Hx _ IH]; [reflexivity|]. simpl. rewrite Hx. exact IH.
Qed.

(** A fresh cart id carries no row (cart_items_cart_id_fkey). *)
Lemma fresh_cart_no_rows db :
  db_ok db = true -> Forall (fun ci => ci_cartId ci <> nextCartId db) (cartItems db).
Proof.
  intros Hok. destruct (db_ok_elim db Hok) as (Hids & _ & Hfk & _).
  rewrite List.Forall_forall in *. intros ci Hin Heq.
  destruct (Hfk ci Hin) as [(c & Hc & Hid) _].
  apply list_elem_of_In in Hc. apply Hids in Hc. lia.
Qed.

Lemma cartItem_findUnique_pair_fresh db pid :
  db_ok db = true -> cartItem_findUnique_pair (nextCartId db) pid db = None.
Proof.
  intros Hok. unfold cartItem_findUnique_pair.
  apply find_none_intro.
  eapply List.Forall_impl; [|apply (fresh_cart_no_rows db Hok)].
  intros ci Hne. apply andb_false_iff. left. apply Z.eqb_neq. exact Hne.
Qed.

Lemma store_eta st : mkStore (store_db st) (nextCartItemId st) = st.
Proof. destruct st; reflexivity. Qed.

(** The two outcomes of a cart request: an error that writes nothing, or
    an answer with data. *)
Lemma addToCart_cases user body st :
  db_ok (store_db st) = true ->
  (res_success (addToCart user body st).1 = false
   /\ res_data (addToCart user body st).1 = None
   /\ (addToCart user body st).2 = st)
  \/ (res_success (addToCart user body st).1 = true
      /\ res_status (addToCart user body st).1 = 200
      /\ exists d, res_data (addToCart user body st).1 = Some d).
Proof.
  intros Hok. unfold addToCart, addToCart_handler.
  destruct (negb (truthy (add_productId body))); [left; repeat split|].
  destruct (parseInt (default 1 (add_quantity body)) <? 1); [left; repeat split|].
  destruct (product_findUnique _ _) as [product|]; [|left; repeat split].
  destruct (negb (p_isActive product)); [left; repeat split|].
  destruct (p_stock product <? _); [left; repeat split|].
  unfold getOrCreateCart.
  destruct (cart_findFirst (user_id user) (store_db st)) as [cart|] eqn:Hcart.
  - destruct (cartItem_findUnique_pair _ _ _) as [existing|].
    + destruct (p_stock product <? _); simpl.
      * left. repeat split. apply store_eta.
      * right. repeat split. eexists. reflexivity.
    + simpl. right. repeat split. eexists. reflexivity.
  - simpl. unfold cartItem_findUnique_pair. simpl.
    fold (cartItem_findUnique_pair (nextCartId (store_db st))
            (parseInt (default 0 (add_productId body))) (store_db st)).
    rewrite cartItem_findUnique_pair_fresh by assumption. simpl.
    right. repeat split. eexists. reflexivity.
Qed.

Lemma updateCartItem_cases user itemId body st :
  (res_success (updateCartItem user itemId body st).1 = false
   /\ res_data (updateCartItem user itemId body st).1 = None
   /\ (updateCartItem user itemId body st).2 = st)
  \/ (res_success (updateCartItem user itemId body st).1 = true
      /\ res_status (updateCartItem user itemId body st).1 = 200
      /\ exists d, res_data (updateCartItem user itemId body st).1 = Some d).
Proof.
  unfold updateCartItem, updateCartItem_handler.
  destruct itemId as [cartItemId|]; [|left; repeat split].
  destruct (cartItem_findUnique _ _) as [[[cartItem cart] product]|]; [|left; repeat split].
  destruct (negb _); [left; repeat split|].
  destruct (upd_quantity body) as [qty|].
  - cbv zeta. destruct (parseInt qty <? 1); [left; repeat split|].
    destruct (p_stock product <? parseInt qty); [left; repeat split|].
    simpl. right. repeat split. eexists. reflexivity.
  - simpl. right. repeat split. eexists. reflexivity.
Qed.

Lemma removeFromCart_cases user itemId st :
  (res_success (removeFromCart user itemId st).1 = false
   /\ res_data (removeFromCart user itemId st).1 = None
   /\ (removeFromCart user itemId st).2 = st)
  \/ (res_success (removeFromCart user itemId st).1 = true
      /\ res_status (removeFromCart user itemId st).1 = 200
      /\ exists d, res_data (removeFromCart user itemId st).1 = Some d).
Proof.
  unfold removeFromCart, removeFromCart_handler.
  destruct itemId as [cartItemId|]; [|left; repeat split].
  destruct (cartItem_findUnique _ _) as [[[cartItem cart] product]|]; [|left; repeat split].
  destruct (negb _); [left; repeat split|].
  simpl. right. repeat split. eexists. reflexivity.
Qed.

(** What a successful addToCart has done: it raised the quantity of the
    line the cart had for the product, or appended a new line. *)
Lemma addToCart_inv user body st item product total :
  db_ok (store_db st) = true ->
  res_data (addToCart user body st).1 = Some (item, product, total) ->
  let qty := parseInt (default 1 (add_quantity body)) in
  let st' := (addToCart user body st).2 in
  exists prodId cart db1,
    parseInt <$> add_productId body = Some prodId
    /\ 1 <= qty
    /\ products (store_db st) !! prodId = Some product
    /\ p_isActive product = true
    /\ getOrCreateCart (user_id user) (store_db st) = (cart, db1)
    /\ total = totalItemsOf (cartItem_findMany (cart_id cart) (store_db st'))
    /\ ((exists existing,
           cart_findFirst (user_id user) (store_db st) = Some cart
           /\ cartItem_findUnique_pair (cart_id cart) prodId (store_db st) = Some existing
           /\ ci_quantity existing + qty <= p_stock product
           /\ item = with_quantity existing (ci_quantity existing + qty)
                       (match or_null (add_customization body) with
                        | Some c => Some c
                        | None => ci_customization existing
                        end)
           /\ st' = mkStore
                      (set_cartItems
                         (List.map (fun ci => if ci_id ci =? ci_id existing
                                              then with_quantity ci (ci_quantity existing + qty)
                                                     (match or_null (add_customization body) with
                                                      | Some c => Some c
                                                      | None => ci_customization existing
                                                      end)
                                              else ci))
                         (store_db st))
                      (nextCartItemId st))
        \/ (cartItem_findUnique_pair (cart_id cart) prodId db1 = None
            /\ qty <= p_stock product
            /\ item = mkCartItem (nextCartItemId st) (cart_id cart) prodId qty
                        (or_null (add_customization body)) (unitPriceOf product)
            /\ st' = mkStore (set_cartItems (fun l => l ++ [item]) db1)
                             (nextCartItemId st + 1))).
Proof.
  intros Hok. unfold addToCart, addToCart_handler.
  generalize (parseInt (default 1 (add_quantity body))). intros qty.
  destruct (add_productId body) as [raw|] eqn:Hpid;
    [|unfold truthy, truthy_nullable; simpl; discriminate].
  destruct (negb (truthy (Some raw))); [simpl; try rewrite errorHandler_data; discriminate|].
  destruct (qty <? 1) eqn:Hq;
    [simpl; try rewrite errorHandler_data; discriminate|].
  simpl default. remember (parseInt raw) as prodId eqn:Hprod. unfold product_findUnique.
  destruct (products (store_db st) !! prodId) as [p|] eqn:Hp;
    [|simpl; try rewrite errorHandler_data; discriminate].
  destruct (p_isActive p) eqn:Hact; simpl negb;
    [|simpl; try rewrite errorHandler_data; discriminate].
  destruct (p_stock p <? qty) eqn:Hstock;
    [simpl; try rewrite errorHandler_data; discriminate|].
  destruct (getOrCreateCart (user_id user) (store_db st)) as [cart db1] eqn:Hcart.
  destruct (cartItem_findUnique_pair (cart_id cart) prodId db1) as [existing|] eqn:Hex.
  - destruct (p_stock p <? ci_quantity existing + qty) eqn:Hnew;
      [simpl; try rewrite errorHandler_data; discriminate|].
    simpl. intros [= <- <- <-].
    exists prodId, cart, db1. split; [simpl; by rewrite Hprod|].
    repeat split; try assumption; try lia.
    left. exists existing.
    unfold getOrCreateCart in Hcart.
    destruct (cart_findFirst (user_id user) (store_db st)) as [c|] eqn:Hfind.
    + injection Hcart as <- <-. repeat split; try assumption; try reflexivity. lia.
    + exfalso. unfold cart_create in Hcart. injection Hcart as <- <-.
      simpl in Hex. unfold cartItem_findUnique_pair in Hex. simpl in Hex.
      pose proof (cartItem_findUnique_pair_fresh (store_db st) prodId Hok) as Hnone.
      unfold cartItem_findUnique_pair in Hnone. congruence.
  - simpl. intros [= <- <- <-].
    exists prodId, cart, db1. split; [simpl; by rewrite Hprod|].
    repeat split; try assumption; try lia.
    right. repeat split; try assumption; try reflexivity. lia.
Qed.

(** ** Unique keys on lists of rows *)

Lemma existsb_false_Forall {A} (f : A -> bool) (l : list A) :
  existsb f l = false <-> Forall (fun x => f x = false) l.
Proof.
  induction l as [|x l IH]; simpl.
  - split; [constructor|reflexivity].
  - rewrite orb_false_iff, IH. split.
    + intros [H1 H2]. constructor; assumption.
    + intros H. inversion H; subst. split; assumption.
Qed.

Lemma distinctb_app {A} (same : A -> A -> bool) (l1 l2 : list A) :
  distinctb same (l1 ++ l2) = true
  <-> distinctb same l1 = true /\ distinctb same l2 = true
      /\ Forall (fun a => Forall (fun b => same a b = false) l2) l1.
Proof.
  induction l1 as [|x l1 IH]; simpl.
  - split; [intros H; repeat split; [assumption|constructor]|intros (_ & H & _); exact H].
  - rewrite !andb_true_iff, !negb_true_iff, IH, existsb_app, orb_false_iff,
      !existsb_false_Forall.
    split.
    + intros ([H1 H2] & H3 & H4 & H5). repeat split; try assumption.
      constructor; assumption.
    + intros ([H1 H3] & H4 & H5). inversion H5; subst. repeat split; assumption.
Qed.

Lemma distinctb_map {A} (same : A -> A -> bool) (h : A -> A) (l : list A) :
  (forall a b, same (h a) (h b) = same a b) ->
  distinctb same (List.map h l) = distinctb same l.
Proof.
  intros Hh. induction l as [|x l IH]; [reflexivity|].
  simpl. rewrite IH. f_equal. f_equal. clear IH.
  induction l as [|y l IH]; [reflexivity|]. simpl. rewrite Hh, IH. reflexivity.
Qed.

Lemma existsb_filter_false {A} (f p : A -> bool) (l : list A) :
  existsb f l = false -> existsb f (List.filter p l) = false.
Proof.
  rewrite !existsb_false_Forall, !List.Forall_forall.
  intros H x Hx. apply filter_In in Hx. apply H, Hx.
Qed.

Lemma distinctb_filter {A} (same : A -> A -> bool) (p : A -> bool) (l : list A) :
  distinctb same l = true -> distinctb same (List.filter p l) = true.
Proof.
  induction l as [|x l IH]; [reflexivity|].
  simpl. rewrite andb_true_iff, negb_true_iff. intros [H1 H2].
  destruct (p x); [|auto]. simpl.
  rewrite andb_true_iff, negb_true_iff. split; [|auto].
  apply existsb_filter_false, H1.
Qed.

(** A row appended under a key no row has. *)
Lemma distinctb_snoc {A} (same : A -> A -> bool) (l : list A) (x : A) :
  distinctb same l = true -> Forall (fun a => same a x = false) l ->
  distinctb same (l ++ [x]) = true.
Proof.
  intros H1 H2. apply distinctb_app. repeat split; [assumption|].
  eapply List.Forall_impl; [|exact H2]. intros a Ha. constructor; [exact Ha|constructor].
Qed.

Lemma find_map_preserving {A} (p : A -> bool) (h : A -> A) (l : list A) :
  (forall y, p (h y) = p y) -> List.find p (List.map h l) = h <$> List.find p l.
Proof.
  intros Hp. induction l as [|x l IH]; [reflexivity|].
  simpl. rewrite Hp. destruct (p x); [reflexivity|exact IH].
Qed.

Lemma filter_filter_keep {A} (q r : A -> bool) (l : list A) :
  Forall (fun y => q y = true -> r y = true) l ->
  List.filter q (List.filter r l) = List.filter q l.
Proof.
  induction 1 as [|x l Hx _ IH]; [reflexivity|]. simpl.
  destruct (r x) eqn:Hr; simpl.
  - rewrite IH. reflexivity.
  - destruct (q x); [specialize (Hx eq_refl); discriminate|exact IH].
Qed.

Lemma filter_map_keep {A} (q : A -> bool) (h : A -> A) (l : list A) :
  Forall (fun y => q (h y) = q y /\ (q y = true -> h y = y)) l ->
  List.filter q (List.map h l) = List.filter q l.
Proof.
  induction 1 as [|x l [Hq Hx] _ IH]; [reflexivity|]. simpl.
  rewrite Hq, IH. destruct (q x); [rewrite Hx by reflexivity|]; reflexivity.
Qed.

(** The row a key finds is the only row of that key. *)
Lemma find_filter_unique {A} (same : A -> A -> bool) (p : A -> bool) (l : list A) x :
  (forall a b, p a = true -> p b = true -> same a b = true) ->
  distinctb same l = true -> List.find p l = Some x -> List.filter p l = [x].
Proof.
  intros Hp. induction l as [|y l IH]; [discriminate|].
  simpl. rewrite andb_true_iff, negb_true_iff. intros [H1 H2].
  destruct (p y) eqn:Hy.
  - intros [= ->]. f_equal.
    rewrite existsb_false_Forall in H1.
    clear IH H2. induction H1 as [|z l Hz _ IH]; [reflexivity|]. simpl.
    destruct (p z) eqn:Hpz; [|exact IH].
    rewrite (Hp x z Hy Hpz) in Hz. discriminate.
  - intros Hf. apply IH; assumption.
Qed.

Lemma find_some_elem {A} (p : A -> bool) (l : list A) x :
  List.find p l = Some x -> x ∈ l /\ p x = true.
Proof. intros H. apply find_some in H. rewrite list_elem_of_In. exact H. Qed.

Lemma Forall_elem {A} (P : A -> Prop) (l : list A) x : Forall P l -> x ∈ l -> P x.
Proof. intros H Hx. rewrite List.Forall_forall in H. apply H, list_elem_of_In, Hx. Qed.

Lemma find_snoc {A} (p : A -> bool) (l : list A) x :
  List.find p (l ++ [x])
  = match List.find p l with Some y => Some y | None => if p x then Some x else None end.
Proof.
  induction l as [|y l IH]; [reflexivity|]. simpl. destruct (p y); [reflexivity|exact IH].
Qed.

Lemma filter_nil_intro {A} (p : A -> bool) (l : list A) :
  Forall (fun x => p x = false) l -> List.filter p l = [].
Proof.
  induction 1 as [|x l Hx _ IH]; [reflexivity|]. simpl. rewrite Hx. exact IH.
Qed.

(** ** The constraints of the schema are kept by the writes of the cart
    controller *)

Lemma forallb_Forall_iff {A} (f : A -> bool) (l : list A) :
  forallb f l = true <-> Forall (fun x => f x = true) l.
Proof. rewrite forallb_forall, List.Forall_forall. reflexivity. Qed.

Lemma existsb_elem {A} (f : A -> bool) (l : list A) :
  existsb f l = true <-> exists x, x ∈ l /\ f x = true.
Proof.
  rewrite existsb_exists. split; intros (x & H1 & H2); exists x; split;
    try assumption; apply list_elem_of_In; assumption.
Qed.

Lemma db_ok_intro db :
  Forall (fun c => cart_id c < nextCartId db) (carts db) ->
  distinctb (fun c c' => (cart_userId c =? cart_userId c')
                         && Bool.eqb (cart_isActive c) (cart_isActive c'))
            (carts db) = true ->
  Forall (fun ci => (exists c, c ∈ carts db /\ cart_id c = ci_cartId ci)
                    /\ is_Some (products db !! ci_productId ci)) (cartItems db) ->
  distinctb (fun ci ci' => (ci_cartId ci =? ci_cartId ci')
                           && (ci_productId ci =? ci_productId ci'))
            (cartItems db) = true ->
  Forall (fun oi => is_Some (products db !! oi_productId oi)) (orderItems db) ->
  db_ok db = true.
Proof.
  intros H1 H2 H3 H4 H5. unfold db_ok.
  rewrite !andb_true_iff, !forallb_Forall_iff. repeat split; try assumption.
  - eapply List.Forall_impl; [|exact H1]. intros c Hc. simpl in Hc. lia.
  - eapply List.Forall_impl; [|exact H3]. intros ci [(c & Hc & Hid) [p Hp]].
    apply andb_true_iff. split.
    + apply existsb_elem. exists c. split; [assumption|lia].
    + unfold product_exists. rewrite Hp. reflexivity.
  - eapply List.Forall_impl; [|exact H5]. intros oi [p Hp].
    unfold product_exists. simpl. rewrite Hp. reflexivity.
Qed.

Lemma store_ok_intro st :
  db_ok (store_db st) = true ->
  distinctb (fun c c' => cart_id c =? cart_id c') (carts (store_db st)) = true ->
  Forall (fun ci => ci_id ci < nextCartItemId st) (cartItems (store_db st)) ->
  distinctb (fun ci ci' => ci_id ci =? ci_id ci') (cartItems (store_db st)) = true ->
  store_ok st = true.
Proof.
  intros H1 H2 H3 H4. unfold store_ok.
  rewrite !andb_true_iff, forallb_Forall_iff. repeat split; try assumption.
  eapply List.Forall_impl; [|exact H3]. intros ci Hci. simpl in Hci. lia.
Qed.

(** getOrCreateCart keeps the constraints, and its cart is the user's
    active cart afterwards. *)
Lemma getOrCreateCart_ok userId st cart db1 :
  store_ok st = true ->
  getOrCreateCart userId (store_db st) = (cart, db1) ->
  store_ok (mkStore db1 (nextCartItemId st)) = true
  /\ cart_findFirst userId db1 = Some cart
  /\ cartItems db1 = cartItems (store_db st)
  /\ products db1 = products (store_db st)
  /\ orderItems db1 = orderItems (store_db st)
  /\ (cart_findFirst userId (store_db st) = Some cart /\ db1 = store_db st
      \/ cart_findFirst userId (store_db st) = None
         /\ carts db1 = carts (store_db st) ++ [cart]
         /\ cart = mkCart (nextCartId (store_db st)) userId true).
Proof.
  intros Hok. unfold getOrCreateCart.
  destruct (cart_findFirst userId (store_db st)) as [c|] eqn:Hfind.
  - intros [= <- <-]. rewrite store_eta. repeat split; try assumption. left. split; reflexivity.
  - unfold cart_create. intros [= <- <-]. simpl.
    destruct (store_ok_elim st Hok) as (Hdb & Hcid & Hids & Hdis).
    destruct (db_ok_elim _ Hdb) as (Hlt & Hua & Hfk & Hpair & Hoi).
    assert (Hnone : Forall (fun c => (cart_userId c =? userId) && cart_isActive c = false)
                           (carts (store_db st))).
    { rewrite List.Forall_forall. intros c Hc.
      eapply find_none in Hfind; [exact Hfind|exact Hc]. }
    repeat split.
    + apply store_ok_intro; simpl; try assumption.
      * apply db_ok_intro; simpl; try assumption.
        -- apply Forall_app. split.
           ++ eapply List.Forall_impl; [|exact Hlt]. intros c Hc. simpl in Hc. lia.
           ++ constructor; [simpl; lia|constructor].
        -- apply distinctb_snoc; [assumption|].
           eapply List.Forall_impl; [|exact Hnone]. intros c Hc. simpl.
           cbv beta in Hc.
           destruct (cart_isActive c); simpl; [exact Hc|apply andb_false_r].
        -- eapply List.Forall_impl; [|exact Hfk]. intros ci [(c & Hc & Hid) Hp].
           split; [|exact Hp]. exists c. split; [|exact Hid].
           apply elem_of_app. left. exact Hc.
      * apply distinctb_snoc; [assumption|].
        eapply List.Forall_impl; [|exact Hlt]. intros c Hc. simpl in *.
        apply Z.eqb_neq. lia.
    + unfold cart_findFirst. simpl. rewrite find_snoc.
      unfold cart_findFirst in Hfind. rewrite Hfind. simpl.
      rewrite Z.eqb_refl. reflexivity.
    + right. repeat split.
Qed.

Lemma store_ok_update st (h : CartItem -> CartItem) :
  store_ok st = true ->
  (forall ci, ci_id (h ci) = ci_id ci /\ ci_cartId (h ci) = ci_cartId ci
              /\ ci_productId (h ci) = ci_productId ci) ->
  store_ok (mkStore (set_cartItems (List.map h) (store_db st)) (nextCartItemId st)) = true.
Proof.
  intros Hok Hh.
  destruct (store_ok_elim st Hok) as (Hdb & Hcid & Hids & Hdis).
  destruct (db_ok_elim _ Hdb) as (Hlt & Hua & Hfk & Hpair & Hoi).
  apply store_ok_intro; simpl; try assumption.
  - apply db_ok_intro; simpl; try assumption.
    + apply List.Forall_map. eapply List.Forall_impl; [|exact Hfk].
      intros ci. destruct (Hh ci) as (_ & -> & ->). tauto.
    + rewrite distinctb_map; [assumption|].
      intros a b. destruct (Hh a) as (_ & -> & ->), (Hh b) as (_ & -> & ->). reflexivity.
  - apply List.Forall_map. eapply List.Forall_impl; [|exact Hids].
    intros ci. destruct (Hh ci) as (-> & _). tauto.
  - rewrite distinctb_map; [assumption|].
    intros a b. destruct (Hh a) as (-> & _), (Hh b) as (-> & _). reflexivity.
Qed.

Lemma Forall_filter_keep {A} (P : A -> Prop) (p : A -> bool) (l : list A) :
  Forall P l -> Forall P (List.filter p l).
Proof.
  rewrite !List.Forall_forall. intros H x Hx. apply filter_In in Hx. apply H, Hx.
Qed.

Lemma store_ok_filter st (p : CartItem -> bool) :
  store_ok st = true ->
  store_ok (mkStore (set_cartItems (List.filter p) (store_db st)) (nextCartItemId st)) = true.
Proof.
  intros Hok.
  destruct (store_ok_elim st Hok) as (Hdb & Hcid & Hids & Hdis).
  destruct (db_ok_elim _ Hdb) as (Hlt & Hua & Hfk & Hpair & Hoi).
  apply store_ok_intro; simpl; try assumption.
  - apply db_ok_intro; simpl; try assumption.
    + apply Forall_filter_keep, Hfk.
    + apply distinctb_filter, Hpair.
  - apply Forall_filter_keep, Hids.
  - apply distinctb_filter, Hdis.
Qed.

Lemma store_ok_append st item :
  store_ok st = true ->
  ci_id item = nextCartItemId st ->
  (exists c, c ∈ carts (store_db st) /\ cart_id c = ci_cartId item) ->
  is_Some (products (store_db st) !! ci_productId item) ->
  cartItem_findUnique_pair (ci_cartId item) (ci_productId item) (store_db st) = None ->
  store_ok (mkStore (set_cartItems (fun l => l ++ [item]) (store_db st))
                    (nextCartItemId st + 1)) = true.
Proof.
  intros Hok Hid Hcart Hprod Hnone.
  destruct (store_ok_elim st Hok) as (Hdb & Hcid & Hids & Hdis).
  destruct (db_ok_elim _ Hdb) as (Hlt & Hua & Hfk & Hpair & Hoi).
  apply store_ok_intro; simpl; try assumption.
  - apply db_ok_intro; simpl; try assumption.
    + apply Forall_app. split; [exact Hfk|]. constructor; [|constructor]. split; assumption.
    + apply distinctb_snoc; [assumption|].
      rewrite List.Forall_forall. intros ci Hci.
      eapply find_none in Hnone; [|exact Hci]. simpl in Hnone. exact Hnone.
  - apply Forall_app. split.
    + eapply List.Forall_impl; [|exact Hids]. intros ci Hci. simpl in Hci. lia.
    + constructor; [lia|constructor].
  - apply distinctb_snoc; [assumption|].
    eapply List.Forall_impl; [|exact Hids]. intros ci Hci. simpl in Hci.
    apply Z.eqb_neq. lia.
Qed.

Lemma cartItem_findUnique_pair_some cartId productId db item :
  cartItem_findUnique_pair cartId productId db = Some item ->
  item ∈ cartItems db /\ ci_cartId item = cartId /\ ci_productId item = productId.
Proof.
  intros H. apply find_some_elem in H. destruct H as [H1 H2].
  apply andb_true_iff in H2. split; [assumption|]. lia.
Qed.

Lemma cartItem_findUnique_some itemId db item cart product :
  cartItem_findUnique itemId db = Some (item, cart, product) ->
  List.find (fun ci => ci_id ci =? itemId) (cartItems db) = Some item
  /\ item ∈ cartItems db /\ ci_id item = itemId
  /\ cart ∈ carts db /\ cart_id cart = ci_cartId item
  /\ products db !! ci_productId item = Some product.
Proof.
  unfold cartItem_findUnique.
  destruct (List.find _ (cartItems db)) as [x|] eqn:Hx; [|discriminate]. simpl.
  destruct (List.find _ (carts db)) as [c|] eqn:Hc; [|discriminate]. simpl.
  destruct (products db !! ci_productId x) as [p|] eqn:Hp; [|discriminate]. simpl.
  intros [= <- <- <-].
  apply find_some_elem in Hx, Hc. destruct Hx as [Hx1 Hx2], Hc as [Hc1 Hc2].
  repeat split; try assumption; try reflexivity; lia.
Qed.

(** What a successful updateCartItem has done. *)
Lemma updateCartItem_inv user itemId body st d :
  res_data (updateCartItem user itemId body st).1 = Some d ->
  exists id item cart product,
    itemId = Some id
    /\ cartItem_findUnique id (store_db st) = Some (item, cart, product)
    /\ cart_userId cart = user_id user
    /\ (forall q, upd_quantity body = Some q -> 1 <= parseInt q <= p_stock product)
    /\ d = with_quantity item
             (match upd_quantity body with Some q => parseInt q | None => ci_quantity item end)
             (match upd_customization body with Some c => c | None => ci_customization item end)
    /\ (updateCartItem user itemId body st).2
       = mkStore
           (set_cartItems
              (List.map (fun ci =>
                 if ci_id ci =? id then
                   with_quantity ci
                     (match upd_quantity body with Some q => parseInt q | None => ci_quantity ci end)
                     (match upd_customization body with
                      | Some c => c
                      | None => ci_customization ci
                      end)
                 else ci))
              (store_db st))
           (nextCartItemId st).
Proof.
  unfold updateCartItem, updateCartItem_handler.
  destruct itemId as [id|]; [|simpl; discriminate].
  destruct (cartItem_findUnique id (store_db st)) as [[[item cart] product]|] eqn:Hfind;
    [|simpl; discriminate].
  destruct (cart_userId cart =? user_id user) eqn:Hown; [|simpl; discriminate].
  simpl negb. cbv iota.
  destruct (upd_quantity body) as [qty|] eqn:Hq.
  - cbv zeta. destruct (parseInt qty <? 1) eqn:H1; [simpl; discriminate|].
    destruct (p_stock product <? parseInt qty) eqn:H2; [simpl; discriminate|].
    simpl. intros [= <-]. exists id, item, cart, product.
    split; [reflexivity|]. split; [exact Hfind|]. split; [lia|].
    split; [intros q [= <-]; lia|]. split; reflexivity.
  - simpl. intros [= <-]. exists id, item, cart, product.
    split; [reflexivity|]. split; [exact Hfind|]. split; [lia|].
    split; [discriminate|]. split; reflexivity.
Qed.

(** What a successful removeFromCart has done. *)
Lemma removeFromCart_inv user itemId st d :
  res_data (removeFromCart user itemId st).1 = Some d ->
  exists id item cart product,
    itemId = Some id
    /\ cartItem_findUnique id (store_db st) = Some (item, cart, product)
    /\ cart_userId cart = user_id user
    /\ (removeFromCart user itemId st).2
       = mkStore (set_cartItems (List.filter (fun ci => negb (ci_id ci =? id))) (store_db st))
                 (nextCartItemId st)
    /\ d = cartSummary (cart_items (cart_id cart) (store_db (removeFromCart user itemId st).2)).
Proof.
  unfold removeFromCart, removeFromCart_handler.
  destruct itemId as [id|]; [|simpl; discriminate].
  destruct (cartItem_findUnique id (store_db st)) as [[[item cart] product]|] eqn:Hfind;
    [|simpl; discriminate].
  destruct (cart_userId cart =? user_id user) eqn:Hown; [|simpl; discriminate].
  simpl. intros [= <-]. exists id, item, cart, product.
  split; [reflexivity|]. split; [exact Hfind|]. split; [lia|]. split; reflexivity.
Qed.

Lemma addToCart_store_ok user body st :
  store_ok st = true -> store_ok (addToCart user body st).2 = true.
Proof.
  intros Hok. pose proof (store_ok_elim st Hok) as (Hdb & _).
  destruct (addToCart_cases user body st Hdb) as [(_ & _ & ->)|(_ & _ & [[item product] total] & Hd)];
    [exact Hok|].
  destruct (addToCart_inv user body st item product total Hdb Hd)
    as (prodId & cart & db1 & Hpid & Hq & Hp & Hact & Hcart & Htot & Hcase).
  destruct (getOrCreateCart_ok _ _ _ _ Hok Hcart) as (Hok1 & Hfind1 & Hitems1 & Hprod1 & _ & _).
  destruct Hcase as [(existing & Hfind & Hex & Hle & Hitem & ->)|(Hnone & Hle & Hitem & ->)].
  - apply store_ok_update; [assumption|]. intros ci.
    destruct (ci_id ci =? ci_id existing); repeat split.
  - apply (store_ok_append (mkStore db1 (nextCartItemId st))); simpl; try assumption.
    + subst item. reflexivity.
    + subst item. simpl. exists cart. split; [|reflexivity].
      apply cart_findFirst_some in Hfind1. apply Hfind1.
    + subst item. simpl. rewrite Hprod1, Hp. eexists. reflexivity.
    + subst item. simpl. exact Hnone.
Qed.

Lemma updateCartItem_store_ok user itemId body st :
  store_ok st = true -> store_ok (updateCartItem user itemId body st).2 = true.
Proof.
  intros Hok.
  destruct (updateCartItem_cases user itemId body st) as [(_ & _ & ->)|(_ & _ & d & Hd)];
    [exact Hok|].
  destruct (updateCartItem_inv _ _ _ _ _ Hd) as (id & item & cart & product & _ & _ & _ & _ & _ & ->).
  apply store_ok_update; [assumption|]. intros ci.
  destruct (ci_id ci =? id); repeat split.
Qed.

Lemma removeFromCart_store_ok user itemId st :
  store_ok st = true -> store_ok (removeFromCart user itemId st).2 = true.
Proof.
  intros Hok.
  destruct (removeFromCart_cases user itemId st) as [(_ & _ & ->)|(_ & _ & d & Hd)];
    [exact Hok|].
  destruct (removeFromCart_inv _ _ _ _ Hd) as (id & item & cart & product & _ & _ & _ & -> & _).
  apply store_ok_filter, Hok.
Qed.

Lemma clearCart_store_ok user st :
  store_ok st = true -> store_ok (clearCart user st).2 = true.
Proof.
  intros Hok. unfold clearCart.
  destruct (cart_findFirst _ _); [|exact Hok]. simpl. apply store_ok_filter, Hok.
Qed.

(** ** The cart controller: what a request does to the cart *)

Lemma split_by_id (l : list CartItem) x :
  distinctb (fun ci ci' => ci_id ci =? ci_id ci') l = true -> x ∈ l ->
  exists l1 l2,
    l = l1 ++ x :: l2
    /\ Forall (fun y => ci_id y <> ci_id x) l1
    /\ Forall (fun y => ci_id y <> ci_id x) l2.
Proof.
  intros Hd Hx. apply list_elem_of_split in Hx. destruct Hx as (l1 & l2 & ->).
  exists l1, l2. split; [reflexivity|].
  apply distinctb_app in Hd. destruct Hd as (_ & Hd2 & Hd3). split.
  - eapply List.Forall_impl; [|exact Hd3]. intros a Ha.
    inversion Ha; subst. apply Z.eqb_neq. assumption.
  - simpl in Hd2. apply andb_true_iff in Hd2. destruct Hd2 as [Hd2 _].
    apply negb_true_iff, existsb_false_Forall in Hd2.
    eapply List.Forall_impl; [|exact Hd2]. intros a Ha. simpl in Ha.
    apply Z.eqb_neq in Ha. congruence.
Qed.

Lemma map_update_other (h : CartItem -> CartItem) k (l : list CartItem) :
  Forall (fun y => ci_id y <> k) l ->
  List.map (fun ci => if ci_id ci =? k then h ci else ci) l = l.
Proof.
  induction 1 as [|y l Hy _ IH]; [reflexivity|]. simpl.
  apply Z.eqb_neq in Hy. rewrite Hy, IH. reflexivity.
Qed.

Lemma map_update_split (h : CartItem -> CartItem) (l1 l2 : list CartItem) x :
  Forall (fun y => ci_id y <> ci_id x) l1 ->
  Forall (fun y => ci_id y <> ci_id x) l2 ->
  List.map (fun ci => if ci_id ci =? ci_id x then h ci else ci) (l1 ++ x :: l2)
  = l1 ++ h x :: l2.
Proof.
  intros H1 H2. rewrite List.map_app. simpl.
  rewrite !map_update_other by assumption. rewrite Z.eqb_refl. reflexivity.
Qed.

Lemma filter_remove_other k (l : list CartItem) :
  Forall (fun y => ci_id y <> k) l ->
  List.filter (fun ci => negb (ci_id ci =? k)) l = l.
Proof.
  induction 1 as [|y l Hy _ IH]; [reflexivity|]. simpl.
  apply Z.eqb_neq in Hy. rewrite Hy. simpl. rewrite IH. reflexivity.
Qed.

Lemma filter_remove_split (l1 l2 : list CartItem) x :
  Forall (fun y => ci_id y <> ci_id x) l1 ->
  Forall (fun y => ci_id y <> ci_id x) l2 ->
  List.filter (fun ci => negb (ci_id ci =? ci_id x)) (l1 ++ x :: l2) = l1 ++ l2.
Proof.
  intros H1 H2. rewrite List.filter_app. simpl.
  rewrite !filter_remove_other by assumption. rewrite Z.eqb_refl. reflexivity.
Qed.

Lemma totalItemsOf_findMany_split cartId (l1 l2 : list CartItem) x :
  ci_cartId x = cartId ->
  totalItemsOf (List.filter (fun ci => ci_cartId ci =? cartId) (l1 ++ x :: l2))
  = totalItemsOf (List.filter (fun ci => ci_cartId ci =? cartId) (l1 ++ l2))
    + ci_quantity x.
Proof.
  intros Hc. rewrite !List.filter_app. simpl. apply Z.eqb_eq in Hc. rewrite Hc.
  rewrite !totalItemsOf_app, totalItemsOf_cons. lia.
Qed.

Lemma getCartCount_data user db :
  res_data (getCartCount user db)
  = Some (match cart_findFirst (user_id user) db with
          | Some cart => totalItemsOf (cartItem_findMany (cart_id cart) db)
          | None => 0
          end).
Proof. reflexivity. Qed.

Lemma cartItem_findMany_fresh db :
  db_ok db = true -> cartItem_findMany (nextCartId db) db = [].
Proof.
  intros Hok. unfold cartItem_findMany.
  pose proof (fresh_cart_no_rows db Hok) as Hf.
  induction Hf as [|y l Hy _ IH]; [reflexivity|]. simpl.
  apply Z.eqb_neq in Hy. rewrite Hy. exact IH.
Qed.

Lemma parseInt_plain n : plain_number n -> parseInt n = n.
Proof.
  unfold plain_number, parseInt. intros H.
  destruct (Z.ltb_spec (Z.abs n) (10 ^ 21)); [reflexivity|lia].
Qed.

Lemma parseInt_quantity quantity :
  plain_field quantity -> parseInt (default 1 quantity) = default 1 quantity.
Proof.
  intros H. destruct quantity as [q|]; [|reflexivity]. simpl.
  apply parseInt_plain, H. reflexivity.
Qed.

Lemma parseInt_field field n :
  plain_field field -> parseInt <$> field = Some n -> field = Some n.
Proof.
  intros H. destruct field as [m|]; [|discriminate]. simpl.
  rewrite (parseInt_plain m) by (apply H; reflexivity). done.
Qed.



(** A quantity of 10^21, which JavaScript writes "1e+21": [parseInt] reads
    1, the request passes the stock check, and one unit is added. *)
Example addToCart_exponent_notation :
  let body := mkAddToCartBody (Some 10) (Some (10 ^ 21)) None in
  let r := addToCart Scenario.alice body Shop.store0 in
  (res_status r.1,
   res_data (getCartCount Scenario.alice (store_db Shop.store0)),
   res_data (getCartCount Scenario.alice (store_db r.2)))
  = (200, Some 3, Some 4).
Proof. vm_compute. reflexivity. Qed.



(** The rows of a cart of the user are not rows of others. *)
Lemma own_row_not_of_others userId db cart (x : CartItem) :
  cart ∈ carts db -> cart_id cart = ci_cartId x -> cart_userId cart = userId ->
  negb (existsb (fun c => (cart_id c =? ci_cartId x) && (cart_userId c =? userId))
                (carts db)) = false.
Proof.
  intros Hin Hid Hu. apply negb_false_iff, existsb_elem.
  exists cart. split; [assumption|]. apply andb_true_iff. lia.
Qed.

Lemma untouched_update userId (h : CartItem -> CartItem) db x cart :
  distinctb (fun ci ci' => ci_id ci =? ci_id ci') (cartItems db) = true ->
  x ∈ cartItems db ->
  cart ∈ carts db -> cart_id cart = ci_cartId x -> cart_userId cart = userId ->
  ci_cartId (h x) = ci_cartId x ->
  untouched_for_others userId db
    (set_cartItems (List.map (fun ci => if ci_id ci =? ci_id x then h ci else ci)) db).
Proof.
  intros Hdis Hx Hc Hid Hu Hh. unfold untouched_for_others. simpl.
  repeat split. unfold rows_of_others. simpl.
  destruct (split_by_id _ _ Hdis Hx) as (l1 & l2 & -> & H1 & H2).
  rewrite map_update_split by assumption.
  rewrite !List.filter_app. simpl. rewrite Hh.
  rewrite (own_row_not_of_others userId db cart x) by assumption. reflexivity.
Qed.

Lemma untouched_remove userId db x cart :
  distinctb (fun ci ci' => ci_id ci =? ci_id ci') (cartItems db) = true ->
  x ∈ cartItems db ->
  cart ∈ carts db -> cart_id cart = ci_cartId x -> cart_userId cart = userId ->
  untouched_for_others userId db
    (set_cartItems (List.filter (fun ci => negb (ci_id ci =? ci_id x))) db).
Proof.
  intros Hdis Hx Hc Hid Hu. unfold untouched_for_others. simpl.
  repeat split. unfold rows_of_others. simpl.
  destruct (split_by_id _ _ Hdis Hx) as (l1 & l2 & -> & H1 & H2).
  rewrite filter_remove_split by assumption.
  rewrite !List.filter_app. simpl.
  rewrite (own_row_not_of_others userId db cart x) by assumption. reflexivity.
Qed.

Lemma untouched_getOrCreateCart userId st cart db1 :
  store_ok st = true ->
  getOrCreateCart userId (store_db st) = (cart, db1) ->
  untouched_for_others userId (store_db st) db1.
Proof.
  intros Hok Hcart. pose proof (store_ok_elim st Hok) as (Hdb & _).
  destruct (getOrCreateCart_ok _ _ _ _ Hok Hcart)
    as (_ & _ & Hitems & Hprod & Hoi & [(_ & ->)|(Hnone & Hcarts & Hc)]).
  { repeat split. }
  unfold getOrCreateCart in Hcart. rewrite Hnone in Hcart. unfold cart_create in Hcart.
  injection Hcart as _ <-. unfold untouched_for_others, carts_of_others, rows_of_others.
  simpl. repeat split.
  - rewrite List.filter_app. simpl. rewrite Z.eqb_refl. simpl. apply app_nil_r.
  - apply filter_ext_in. intros y Hy. f_equal.
    rewrite existsb_app. simpl. rewrite orb_false_r.
    pose proof (fresh_cart_no_rows _ Hdb) as Hf.
    rewrite List.Forall_forall in Hf. apply Hf in Hy.
    apply Z.eqb_neq in Hy. rewrite Z.eqb_sym in Hy. rewrite Hy. simpl. apply orb_false_r.
Qed.

Lemma untouched_trans userId db1 db2 db3 :
  untouched_for_others userId db1 db2 -> untouched_for_others userId db2 db3 ->
  untouched_for_others userId db1 db3.
Proof.
  unfold untouched_for_others.
  intros (A1 & A2 & A3 & A4 & A5 & A6 & A7) (B1 & B2 & B3 & B4 & B5 & B6 & B7).
  repeat split; congruence.
Qed.

Lemma untouched_refl userId db : untouched_for_others userId db db.
Proof. repeat split. Qed.

Lemma addToCart_untouched user body st :
  store_ok st = true ->
  untouched_for_others (user_id user) (store_db st) (store_db (addToCart user body st).2).
Proof.
  intros Hok. pose proof (store_ok_elim st Hok) as (Hdb & _ & _ & Hdis).
  destruct (addToCart_cases user body st Hdb)
    as [(_ & _ & ->)|(_ & _ & [[item product] total] & Hd)]; [apply untouched_refl|].
  destruct (addToCart_inv user body st item product total Hdb Hd)
    as (prodId & cart & db1 & Hpid & Hq & Hp & Hact & Hcart & Htot & Hcase).
  destruct (getOrCreateCart_ok _ _ _ _ Hok Hcart) as (Hok1 & Hfind1 & Hitems1 & _).
  apply cart_findFirst_some in Hfind1. destruct Hfind1 as (Hc1 & Hc2 & _).
  destruct Hcase as [(existing & Hfind & Hex & Hle & Hitem & ->)|(Hnone & Hle & Hitem & ->)].
  - simpl. apply cartItem_findUnique_pair_some in Hex. destruct Hex as (Hin & Hcid & _).
    apply cart_findFirst_some in Hfind. destruct Hfind as (Hc & Hu & _).
    apply (untouched_update _ _ _ existing cart); try assumption; try reflexivity.
    congruence.
  - simpl. eapply untouched_trans; [eapply untouched_getOrCreateCart; eassumption|].
    unfold untouched_for_others, carts_of_others, rows_of_others. simpl.
    repeat split. rewrite List.filter_app. simpl.
    rewrite (own_row_not_of_others (user_id user) db1 cart item); try assumption.
    + apply app_nil_r.
    + rewrite Hitem. reflexivity.
Qed.

Lemma updateCartItem_untouched user itemId body st :
  store_ok st = true ->
  untouched_for_others (user_id user) (store_db st)
    (store_db (updateCartItem user itemId body st).2).
Proof.
  intros Hok. pose proof (store_ok_elim st Hok) as (Hdb & _ & _ & Hdis).
  destruct (updateCartItem_cases user itemId body st) as [(_ & _ & ->)|(_ & _ & d & Hd)];
    [apply untouched_refl|].
  destruct (updateCartItem_inv _ _ _ _ _ Hd)
    as (id & item & cart & product & _ & Hfind & Hown & _ & _ & ->).
  apply cartItem_findUnique_some in Hfind.
  destruct Hfind as (_ & Hin & <- & Hc & Hcid & _). simpl.
  apply (untouched_update _ _ _ item cart); try assumption; reflexivity.
Qed.

Lemma removeFromCart_untouched user itemId st :
  store_ok st = true ->
  untouched_for_others (user_id user) (store_db st)
    (store_db (removeFromCart user itemId st).2).
Proof.
  intros Hok. pose proof (store_ok_elim st Hok) as (Hdb & _ & _ & Hdis).
  destruct (removeFromCart_cases user itemId st) as [(_ & _ & ->)|(_ & _ & d & Hd)];
    [apply untouched_refl|].
  destruct (removeFromCart_inv _ _ _ _ Hd)
    as (id & item & cart & product & _ & Hfind & Hown & -> & _).
  apply cartItem_findUnique_some in Hfind.
  destruct Hfind as (_ & Hin & <- & Hc & Hcid & _). simpl.
  apply (untouched_remove _ _ item cart); assumption.
Qed.

Lemma clearCart_untouched user st :
  untouched_for_others (user_id user) (store_db st) (store_db (clearCart user st).2).
Proof.
  unfold clearCart.
  destruct (cart_findFirst (user_id user) (store_db st)) as [cart|] eqn:Hfind;
    [|apply untouched_refl].
  apply cart_findFirst_some in Hfind. destruct Hfind as (Hc & Hu & _).
  unfold untouched_for_others, rows_of_others. simpl. repeat split.
  apply filter_filter_keep. rewrite List.Forall_forall. intros y _ Hq.
  destruct (ci_cartId y =? cart_id cart) eqn:Heq; [|reflexivity].
  rewrite (own_row_not_of_others (user_id user) (store_db st) cart y) in Hq;
    [discriminate|assumption|lia|assumption].
Qed.

Lemma quantities_ok_elim db :
  quantities_ok db = true <-> Forall (fun ci => 1 <= ci_quantity ci) (cartItems db).
Proof.
  unfold quantities_ok. rewrite forallb_Forall_iff.
  split; apply List.Forall_impl; intros ci; lia.
Qed.

Lemma addToCart_quantities user body st :
  store_ok st = true -> quantities_ok (store_db st) = true ->
  quantities_ok (store_db (addToCart user body st).2) = true.
Proof.
  intros Hok Hqs. pose proof (store_ok_elim st Hok) as (Hdb & _).
  destruct (addToCart_cases user body st Hdb)
    as [(_ & _ & ->)|(_ & _ & [[item product] total] & Hd)]; [exact Hqs|].
  destruct (addToCart_inv user body st item product total Hdb Hd)
    as (prodId & cart & db1 & Hpid & Hq & Hp & Hact & Hcart & Htot & Hcase).
  destruct (getOrCreateCart_ok _ _ _ _ Hok Hcart) as (_ & _ & Hitems1 & _).
  apply quantities_ok_elim in Hqs. apply quantities_ok_elim.
  destruct Hcase as [(existing & Hfind & Hex & Hle & Hitem & ->)|(Hnone & Hle & Hitem & ->)].
  - simpl. apply List.Forall_map.
    apply cartItem_findUnique_pair_some in Hex. destruct Hex as (Hin & _).
    pose proof (Forall_elem _ _ _ Hqs Hin) as Hex1. simpl in Hex1.
    eapply List.Forall_impl; [|exact Hqs]. intros ci Hci. simpl in Hci.
    destruct (ci_id ci =? ci_id existing); simpl; lia.
  - simpl. rewrite Hitems1. apply Forall_app. split; [exact Hqs|].
    constructor; [|constructor]. rewrite Hitem. simpl. lia.
Qed.

Lemma updateCartItem_quantities user itemId body st :
  quantities_ok (store_db st) = true ->
  quantities_ok (store_db (updateCartItem user itemId body st).2) = true.
Proof.
  intros Hqs.
  destruct (updateCartItem_cases user itemId body st) as [(_ & _ & ->)|(_ & _ & d & Hd)];
    [exact Hqs|].
  destruct (updateCartItem_inv _ _ _ _ _ Hd)
    as (id & item & cart & product & _ & _ & _ & Hrange & _ & ->).
  apply quantities_ok_elim in Hqs. apply quantities_ok_elim. simpl.
  apply List.Forall_map. eapply List.Forall_impl; [|exact Hqs].
  intros ci Hci. simpl in Hci.
  destruct (ci_id ci =? id); [|exact Hci]. simpl.
  destruct (upd_quantity body) as [q|]; [|exact Hci].
  specialize (Hrange q eq_refl). lia.
Qed.

Lemma removeFromCart_quantities user itemId st :
  quantities_ok (store_db st) = true ->
  quantities_ok (store_db (removeFromCart user itemId st).2) = true.
Proof.
  intros Hqs.
  destruct (removeFromCart_cases user itemId st) as [(_ & _ & ->)|(_ & _ & d & Hd)];
    [exact Hqs|].
  destruct (removeFromCart_inv _ _ _ _ Hd) as (id & item & cart & product & _ & _ & _ & -> & _).
  apply quantities_ok_elim in Hqs. apply quantities_ok_elim. simpl.
  apply Forall_filter_keep, Hqs.
Qed.

Lemma clearCart_quantities user st :
  quantities_ok (store_db st) = true ->
  quantities_ok (store_db (clearCart user st).2) = true.
Proof.
  intros Hqs. unfold clearCart.
  destruct (cart_findFirst _ _); [|exact Hqs].
  apply quantities_ok_elim in Hqs. apply quantities_ok_elim. simpl.
  apply Forall_filter_keep, Hqs.
Qed.

(** The rows of a cart, and the rows joined with their products. *)
Lemma cart_items_rows cartId db :
  db_ok db = true ->
  List.map fst (cart_items cartId db) = cartItem_findMany cartId db.
Proof.
  intros Hok. destruct (db_ok_elim db Hok) as (_ & _ & Hfk & _).
  unfold cart_items, cartItem_findMany.
  induction Hfk as [|ci l [_ [p Hp]] _ IH]; [reflexivity|]. simpl.
  destruct (ci_cartId ci =? cartId); [|exact IH].
  rewrite Hp. simpl. f_equal. exact IH.
Qed.

Lemma cartSummary_totalItems (lines : list (CartItem * Product)) :
  (cartSummary lines).1 = totalItemsOf (List.map fst lines).
Proof.
  unfold cartSummary.
  assert (H : forall acc s,
             (fold_left (fun '(totalItems, subtotal) '(item, product) =>
                let price := unitPriceOf product in
                (totalItems + ci_quantity item,
                 PrimFloat.add subtotal
                   (PrimFloat.mul (parseFloat price) (Number (ci_quantity item)))))
                lines (acc, s)).1
             = acc + totalItemsOf (List.map fst lines)).
  { induction lines as [|[item product] lines IH]; intros acc s; simpl.
    - unfold totalItemsOf. simpl. lia.
    - rewrite IH, totalItemsOf_cons. simpl. lia. }
  rewrite H. lia.
Qed.

Lemma filter_idem {A} (p : A -> bool) (l : list A) :
  List.filter p (List.filter p l) = List.filter p l.
Proof.
  apply filter_filter_keep. rewrite List.Forall_forall. auto.
Qed.

Lemma cart_items_set_cartItems_nil cartId db :
  cart_items cartId
    (set_cartItems (List.filter (fun ci => negb (ci_cartId ci =? cartId))) db) = [].
Proof. apply cart_items_nil. simpl. apply (Forall_filter_neq ci_cartId). Qed.

Lemma createOrder_empty clock user body db :
  truthy (shippingAddress body) = true ->
  truthy (shippingPhone body) = true ->
  match cart_findFirst (user_id user) db with
  | Some cart => cart_items (cart_id cart) db = []
  | None => True
  end ->
  createOrder clock user body db = (mkResponse 400 false "Your cart is empty" None None, db).
Proof.
  intros Ha Hp Hcart. unfold createOrder, createOrder_handler, createOrder_handler_at, prepareOrder_at.
  rewrite Ha, Hp. simpl negb. cbv iota. simpl orb. cbv iota.
  destruct (cart_findFirst (user_id user) db) as [cart|].
  - rewrite Hcart. reflexivity.
  - reflexivity.
Qed.

Lemma sum_cartLines (lines : list (CartItem * Product)) acc :
  fold_left (fun n l => n + cl_quantity l) (List.map cartLine_of lines) acc
  = acc + totalItemsOf (List.map fst lines).
Proof.
  revert acc. induction lines as [|[item product] lines IH]; intros acc; simpl.
  - unfold totalItemsOf. simpl. lia.
  - rewrite IH, totalItemsOf_cons. simpl. lia.
Qed.

(** ** The cart controller: statements *)

(** X1.  A cart request that is answered with an error writes nothing:
    addToCart, updateCartItem and removeFromCart leave the store as it was
    whenever the answer has [success: false]. *)
Theorem cart_request_rejected_unchanged user st :
  db_ok (store_db st) = true ->
  (forall body,
     res_success (addToCart user body st).1 = false -> (addToCart user body st).2 = st)
  /\ (forall itemId body,
        res_success (updateCartItem user itemId body st).1 = false ->
        (updateCartItem user itemId body st).2 = st)
  /\ (forall itemId,
        res_success (removeFromCart user itemId st).1 = false ->
        (removeFromCart user itemId st).2 = st).
Proof.
  intros Hok. split; [|split].
  - intros body H.
    destruct (addToCart_cases user body st Hok) as [(_ & _ & E)|(E & _)]; congruence.
  - intros itemId body H.
    destruct (updateCartItem_cases user itemId body st) as [(_ & _ & E)|(E & _)]; congruence.
  - intros itemId H.
    destruct (removeFromCart_cases user itemId st) as [(_ & _ & E)|(E & _)]; congruence.
Qed.

Lemma cart_request_rejected_unchanged_witness :
  (forall body,
     res_success (addToCart Scenario.alice body Shop.store0).1 = false ->
     (addToCart Scenario.alice body Shop.store0).2 = Shop.store0)
  /\ (forall itemId body,
        res_success (updateCartItem Scenario.alice itemId body Shop.store0).1 = false ->
        (updateCartItem Scenario.alice itemId body Shop.store0).2 = Shop.store0)
  /\ (forall itemId,
        res_success (removeFromCart Scenario.alice itemId Shop.store0).1 = false ->
        (removeFromCart Scenario.alice itemId Shop.store0).2 = Shop.store0).
Proof.
  apply (cart_request_rejected_unchanged Scenario.alice Shop.store0).
  vm_compute. reflexivity.
Defined.

(** X4.  The requests of the cart controller keep the constraints of the
    schema: distinct and bounded ids of carts and cart items, one cart per
    user and activity flag, one line per cart and product, and the foreign
    keys of the cart items. *)
Theorem cart_requests_keep_constraints user st :
  store_ok st = true ->
  (forall body, store_ok (addToCart user body st).2 = true)
  /\ (forall itemId body, store_ok (updateCartItem user itemId body st).2 = true)
  /\ (forall itemId, store_ok (removeFromCart user itemId st).2 = true)
  /\ store_ok (clearCart user st).2 = true.
Proof.
  intros Hok. repeat split; intros.
  - apply addToCart_store_ok, Hok.
  - apply updateCartItem_store_ok, Hok.
  - apply removeFromCart_store_ok, Hok.
  - apply clearCart_store_ok, Hok.
Qed.

Lemma cart_requests_keep_constraints_witness :
  (forall body, store_ok (addToCart Scenario.bob body Shop.store_two).2 = true)
  /\ (forall itemId body,
        store_ok (updateCartItem Scenario.bob itemId body Shop.store_two).2 = true)
  /\ (forall itemId, store_ok (removeFromCart Scenario.bob itemId Shop.store_two).2 = true)
  /\ store_ok (clearCart Scenario.bob Shop.store_two).2 = true.
Proof.
  apply (cart_requests_keep_constraints Scenario.bob Shop.store_two).
  vm_compute. reflexivity.
Defined.

(** X5.  A request of the cart controller touches only the carts of the
    user who sends it: the carts of the other users and their rows, the
    products, the orders and their items, events and deliveries are the
    same before and after. *)
Theorem cart_requests_leave_other_carts user st :
  store_ok st = true ->
  (forall body,
     untouched_for_others (user_id user) (store_db st)
       (store_db (addToCart user body st).2))
  /\ (forall itemId body,
        untouched_for_others (user_id user) (store_db st)
          (store_db (updateCartItem user itemId body st).2))
  /\ (forall itemId,
        untouched_for_others (user_id user) (store_db st)
          (store_db (removeFromCart user itemId st).2))
  /\ untouched_for_others (user_id user) (store_db st) (store_db (clearCart user st).2).
Proof.
  intros Hok. split; [|split; [|split]]; intros.
  - apply addToCart_untouched, Hok.
  - apply updateCartItem_untouched, Hok.
  - apply removeFromCart_untouched, Hok.
  - apply clearCart_untouched.
Qed.

Lemma cart_requests_leave_other_carts_witness :
  (forall body,
     untouched_for_others 8 Scenario.db_two
       (store_db (addToCart Scenario.bob body Shop.store_two).2))
  /\ (forall itemId body,
        untouched_for_others 8 Scenario.db_two
          (store_db (updateCartItem Scenario.bob itemId body Shop.store_two).2))
  /\ (forall itemId,
        untouched_for_others 8 Scenario.db_two
          (store_db (removeFromCart Scenario.bob itemId Shop.store_two).2))
  /\ untouched_for_others 8 Scenario.db_two
       (store_db (clearCart Scenario.bob Shop.store_two).2).
Proof.
  apply (cart_requests_leave_other_carts Scenario.bob Shop.store_two).
  vm_compute. reflexivity.
Defined.

(** X6.  When every line of every cart asks for at least one unit, it
    still does after any request of the cart controller. *)
Theorem cart_quantities_positive user st :
  store_ok st = true ->
  quantities_ok (store_db st) = true ->
  (forall body, quantities_ok (store_db (addToCart user body st).2) = true)
  /\ (forall itemId body,
        quantities_ok (store_db (updateCartItem user itemId body st).2) = true)
  /\ (forall itemId, quantities_ok (store_db (removeFromCart user itemId st).2) = true)
  /\ quantities_ok (store_db (clearCart user st).2) = true.
Proof.
  intros Hok Hqs. repeat split; intros.
  - apply addToCart_quantities; assumption.
  - apply updateCartItem_quantities; assumption.
  - apply removeFromCart_quantities; assumption.
  - apply clearCart_quantities; assumption.
Qed.

Lemma cart_quantities_positive_witness :
  (forall body, quantities_ok (store_db (addToCart Scenario.alice body Shop.store0).2) = true)
  /\ (forall itemId body,
        quantities_ok (store_db (updateCartItem Scenario.alice itemId body Shop.store0).2)
        = true)
  /\ (forall itemId,
        quantities_ok (store_db (removeFromCart Scenario.alice itemId Shop.store0).2) = true)
  /\ quantities_ok (store_db (clearCart Scenario.alice Shop.store0).2) = true.
Proof.
  apply (cart_quantities_positive Scenario.alice Shop.store0); vm_compute; reflexivity.
Defined.



(** X8.  A successful removeFromCart has deleted a line of a cart of the
    user: the line is no longer found, so that the same request again is
    answered 404 and writes nothing; the [totalItems] of the answer is the
    number of units the cart held minus the quantity of the line, and is
    the number of units the cart holds now. *)
Theorem removeFromCart_removes user itemId st totalItems subtotal :
  store_ok st = true ->
  res_data (removeFromCart user itemId st).1 = Some (totalItems, subtotal) ->
  exists id item cart product,
    itemId = Some id
    /\ cartItem_findUnique id (store_db st) = Some (item, cart, product)
    /\ cart_userId cart = user_id user
    /\ cartItem_findUnique id (store_db (removeFromCart user itemId st).2) = None
    /\ removeFromCart user itemId (removeFromCart user itemId st).2
       = (mkResponse 404 false "Cart item not found" None None,
          (removeFromCart user itemId st).2)
    /\ totalItems
       = totalItemsOf (cartItem_findMany (cart_id cart) (store_db st)) - ci_quantity item
    /\ totalItems
       = totalItemsOf (cartItem_findMany (cart_id cart)
                         (store_db (removeFromCart user itemId st).2)).
Proof.
  intros Hok Hd.
  pose proof (removeFromCart_store_ok user itemId st Hok) as Hok'.
  pose proof (store_ok_elim st Hok) as (_ & _ & _ & Hdis).
  destruct (removeFromCart_inv _ _ _ _ Hd)
    as (id & item & cart & product & Hid & Hfind & Hown & Hst & Hdd).
  exists id, item, cart, product.
  split; [assumption|]. split; [assumption|]. split; [assumption|].
  assert (Hgone : cartItem_findUnique id (store_db (removeFromCart user itemId st).2) = None).
  { rewrite Hst. unfold cartItem_findUnique. simpl.
    rewrite (find_none_intro (fun ci => ci_id ci =? id)); [reflexivity|].
    eapply List.Forall_impl; [|apply (Forall_filter_neq ci_id id)].
    intros ci Hci. apply Z.eqb_neq. exact Hci. }
  split; [exact Hgone|]. split.
  { rewrite Hid. unfold removeFromCart at 1, removeFromCart_handler.
    rewrite Hid in Hgone. rewrite Hgone. reflexivity. }
  assert (Hnow : totalItems
                 = totalItemsOf (cartItem_findMany (cart_id cart)
                                   (store_db (removeFromCart user itemId st).2))).
  { apply (f_equal fst) in Hdd. simpl in Hdd. rewrite Hdd.
    rewrite cartSummary_totalItems, cart_items_rows; [reflexivity|].
    apply store_ok_elim in Hok'. apply Hok'. }
  split; [|exact Hnow].
  rewrite Hnow, Hst. simpl.
  apply cartItem_findUnique_some in Hfind. destruct Hfind as (_ & Hin & <- & _ & Hcid & _).
  destruct (split_by_id _ _ Hdis Hin) as (l1 & l2 & Hl & H1 & H2).
  unfold cartItem_findMany. simpl. rewrite Hl.
  rewrite filter_remove_split by assumption.
  rewrite totalItemsOf_findMany_split by (symmetry; exact Hcid). lia.
Qed.

Lemma removeFromCart_removes_witness :
  exists id item cart product,
    Some 2 = Some id
    /\ cartItem_findUnique id (store_db Shop.store0) = Some (item, cart, product)
    /\ cart_userId cart = 7
    /\ cartItem_findUnique id
         (store_db (removeFromCart Scenario.alice (Some 2) Shop.store0).2) = None
    /\ removeFromCart Scenario.alice (Some 2)
         (removeFromCart Scenario.alice (Some 2) Shop.store0).2
       = (mkResponse 404 false "Cart item not found" None None,
          (removeFromCart Scenario.alice (Some 2) Shop.store0).2)
    /\ 2 = totalItemsOf (cartItem_findMany (cart_id cart) (store_db Shop.store0))
           - ci_quantity item
    /\ 2 = totalItemsOf (cartItem_findMany (cart_id cart)
                           (store_db (removeFromCart Scenario.alice (Some 2) Shop.store0).2)).
Proof.
  refine (removeFromCart_removes Scenario.alice (Some 2) Shop.store0 2 200%float _ _).
  - vm_compute. reflexivity.
  - vm_compute. reflexivity.
Defined.

(** X9.  clearCart always answers 200 and keeps the cart itself; after it
    the user's cart holds no unit and shows no line, a second clearCart
    changes nothing, and a checkout is answered 400 with "Your cart is
    empty" and writes nothing. *)
Theorem clearCart_empties user st :
  db_ok (store_db st) = true ->
  res_status (clearCart user st).1 = 200
  /\ carts (store_db (clearCart user st).2) = carts (store_db st)
  /\ res_data (getCartCount user (store_db (clearCart user st).2)) = Some 0
  /\ (getCart user (store_db (clearCart user st).2)).1.1.2 = []
  /\ (clearCart user (clearCart user st).2).2 = (clearCart user st).2
  /\ (forall clock body,
        truthy (shippingAddress body) = true ->
        truthy (shippingPhone body) = true ->
        createOrder clock user body (store_db (clearCart user st).2)
        = (mkResponse 400 false "Your cart is empty" None None,
           store_db (clearCart user st).2)).
Proof.
  intros Hok.
  destruct (cart_findFirst (user_id user) (store_db st)) as [cart|] eqn:Hfind.
  - assert (Hst : (clearCart user st).2
                  = mkStore (set_cartItems
                               (List.filter (fun ci => negb (ci_cartId ci =? cart_id cart)))
                               (store_db st)) (nextCartItemId st))
      by (unfold clearCart; rewrite Hfind; reflexivity).
    assert (Hfind' : cart_findFirst (user_id user) (store_db (clearCart user st).2)
                     = Some cart) by (rewrite Hst; exact Hfind).
    assert (Hnil : cart_items (cart_id cart) (store_db (clearCart user st).2) = [])
      by (rewrite Hst; apply cart_items_set_cartItems_nil).
    split; [unfold clearCart; rewrite Hfind; reflexivity|].
    split; [rewrite Hst; reflexivity|].
    split; [|split; [|split]].
    + rewrite getCartCount_data, Hfind'. f_equal. rewrite Hst.
      unfold cartItem_findMany. simpl.
      rewrite filter_nil_intro; [reflexivity|].
      eapply List.Forall_impl; [|apply (Forall_filter_neq ci_cartId (cart_id cart))].
      intros ci Hci. apply Z.eqb_neq. exact Hci.
    + unfold getCart, getOrCreateCart. rewrite Hfind', Hnil. reflexivity.
    + unfold clearCart at 1. rewrite Hfind'. rewrite Hst. simpl.
      unfold set_cartItems. simpl. rewrite filter_idem. reflexivity.
    + intros clock body Ha Hp. apply createOrder_empty; try assumption.
      rewrite Hfind'. exact Hnil.
  - assert (Hst : (clearCart user st).2 = st)
      by (unfold clearCart; rewrite Hfind; reflexivity).
    split; [unfold clearCart; rewrite Hfind; reflexivity|].
    rewrite !Hst. split; [reflexivity|]. split; [|split; [|split]].
    + rewrite getCartCount_data, Hfind. reflexivity.
    + unfold getCart, getOrCreateCart. rewrite Hfind. unfold cart_create. simpl.
      rewrite cart_items_nil; [reflexivity|]. simpl. apply fresh_cart_no_rows, Hok.
    + reflexivity.
    + intros clock body Ha Hp. apply createOrder_empty; try assumption.
      rewrite Hfind. exact I.
Qed.

Lemma clearCart_empties_witness :
  res_status (clearCart Scenario.alice Shop.store0).1 = 200
  /\ carts (store_db (clearCart Scenario.alice Shop.store0).2) = carts (store_db Shop.store0)
  /\ res_data (getCartCount Scenario.alice (store_db (clearCart Scenario.alice Shop.store0).2))
     = Some 0
  /\ (getCart Scenario.alice (store_db (clearCart Scenario.alice Shop.store0).2)).1.1.2 = []
  /\ (clearCart Scenario.alice (clearCart Scenario.alice Shop.store0).2).2
     = (clearCart Scenario.alice Shop.store0).2
  /\ (forall clock body,
        truthy (shippingAddress body) = true ->
        truthy (shippingPhone body) = true ->
        createOrder clock Scenario.alice body
          (store_db (clearCart Scenario.alice Shop.store0).2)
        = (mkResponse 400 false "Your cart is empty" None None,
           store_db (clearCart Scenario.alice Shop.store0).2)).
Proof.
  apply (clearCart_empties Scenario.alice Shop.store0). vm_compute. reflexivity.
Defined.

(** X10.  The count of getCartCount is the sum of the quantities of the
    lines getCart shows to the same user. *)
Theorem getCartCount_getCart user db :
  db_ok db = true ->
  res_data (getCartCount user db)
  = Some (fold_left (fun n l => n + cl_quantity l) (getCart user db).1.1.2 0).
Proof.
  intros Hok. rewrite getCartCount_data. f_equal.
  unfold getCart, getOrCreateCart.
  destruct (cart_findFirst (user_id user) db) as [cart|] eqn:Hfind.
  - simpl. rewrite sum_cartLines, cart_items_rows by assumption. lia.
  - unfold cart_create. simpl.
    rewrite cart_items_nil; [reflexivity|]. simpl. apply fresh_cart_no_rows, Hok.
Qed.

Lemma getCartCount_getCart_witness :
  res_data (getCartCount Scenario.alice Scenario.db0)
  = Some (fold_left (fun n l => n + cl_quantity l)
                    (getCart Scenario.alice Scenario.db0).1.1.2 0).
Proof. apply (getCartCount_getCart Scenario.alice Scenario.db0). vm_compute. reflexivity. Defined.

(** A quantity of 3 x 10^21, which JavaScript writes "3e+21": [parseInt]
    reads 3, and the line is set to three units. *)
Example updateCartItem_exponent_notation :
  let body := mkUpdateItemBody (Some (3 * 10 ^ 21)) None in
  let r := updateCartItem Scenario.alice (Some 1) body Shop.store0 in
  (res_status r.1, ci_quantity <$> res_data r.1) = (200, Some 3).
Proof. vm_compute. reflexivity. Qed.

(** ** The order controller: the database a request leaves *)

Lemma cart_items_products cartId db :
  Forall (fun line : CartItem * Product => is_Some (products db !! ci_productId line.1))
         (cart_items cartId db).
Proof.
  rewrite List.Forall_forall. intros line Hl.
  apply list_elem_of_In, elem_of_cart_items in Hl. destruct Hl as (_ & _ & Hl).
  rewrite Hl. eexists. reflexivity.
Qed.

(** The two outcomes of a checkout, whatever other requests committed
    while it ran: it is rejected and writes nothing, or it commits what
    the handler computed from its reads. *)
Lemma createOrder_at_cases clock user body db_cart db_count db :
  (res_data (createOrder_at clock user body db_cart db_count db).1 = None
   /\ res_success (createOrder_at clock user body db_cart db_count db).1 = false
   /\ (createOrder_at clock user body db_cart db_count db).2 = db)
  \/ (exists cart,
        truthy (shippingAddress body) = true
        /\ truthy (shippingPhone body) = true
        /\ cart_findFirst (user_id user) db_cart = Some cart
        /\ cart_items (cart_id cart) db_cart <> []
        /\ Forall line_ok (cart_items (cart_id cart) db_cart)
        /\ number_free (generateOrderNumber clock db_count) db = true
        /\ createOrder_at clock user body db_cart db_count db
           = (mkResponse 201 true orderPlacedMessage
                (Some (placed_order clock
                         (checkout_data clock user body db_count
                            (cart_items (cart_id cart) db_cart)) db,
                       placed_items
                         (checkout_data clock user body db_count
                            (cart_items (cart_id cart) db_cart)) db))
                None,
              checkout_db clock
                (mkCheckout cart (cart_items (cart_id cart) db_cart)
                   (checkout_data clock user body db_count
                      (cart_items (cart_id cart) db_cart)))
                db)).
Proof.
  unfold createOrder_at, createOrder_handler_at.
  destruct (prepareOrder_at clock user body db_cart db_count) as [err|co] eqn:Hprep.
  - left. simpl. rewrite ?errorHandler_data, ?errorHandler_success. repeat split.
  - apply prepareOrder_at_inr in Hprep.
    destruct Hprep as (Ha & Hp & cart & Hc & Hne & Hall & ->).
    unfold transaction.
    destruct (createOrderTx _ _ db) as [err|[result db']] eqn:Htx.
    + left. simpl. rewrite ?errorHandler_data, ?errorHandler_success. repeat split.
    + apply createOrderTx_inr in Htx. destruct Htx as (-> & -> & Hfree).
      right. exists cart. repeat split; assumption.
Qed.

(** The two outcomes of a checkout that runs alone. *)
Lemma createOrder_cases clock user body db :
  (res_data (createOrder clock user body db).1 = None
   /\ res_success (createOrder clock user body db).1 = false
   /\ (createOrder clock user body db).2 = db)
  \/ (exists cart,
        truthy (shippingAddress body) = true
        /\ truthy (shippingPhone body) = true
        /\ cart_findFirst (user_id user) db = Some cart
        /\ cart_items (cart_id cart) db <> []
        /\ Forall line_ok (cart_items (cart_id cart) db)
        /\ number_free (generateOrderNumber clock db) db = true
        /\ createOrder clock user body db
           = (mkResponse 201 true orderPlacedMessage
                (Some (placed_order clock
                         (checkout_data clock user body db (cart_items (cart_id cart) db)) db,
                       placed_items
                         (checkout_data clock user body db (cart_items (cart_id cart) db)) db))
                None,
              checkout_db clock
                (mkCheckout cart (cart_items (cart_id cart) db)
                   (checkout_data clock user body db (cart_items (cart_id cart) db)))
                db)).
Proof. apply createOrder_at_cases. Qed.

Lemma orders_ok_elim db :
  orders_ok db = true ->
  Forall (fun o => o_id o < nextOrderId db) (orders db)
  /\ distinctb (fun o o' => o_id o =? o_id o') (orders db) = true
  /\ distinctb (fun o o' => String.eqb (o_orderNumber o) (o_orderNumber o')) (orders db) = true
  /\ Forall (fun oi => exists o, o ∈ orders db /\ o_id o = oi_orderId oi) (orderItems db)
  /\ Forall (fun e => exists o, o ∈ orders db /\ o_id o = ot_orderId e) (orderTracking db)
  /\ Forall (fun d => exists o, o ∈ orders db /\ o_id o = d_orderId d) (deliveries db).
Proof.
  unfold orders_ok. rewrite !andb_true_iff, !forallb_Forall_iff.
  intros [[[[[H1 H2] H3] H4] H5] H6]. repeat split; try assumption.
  - eapply List.Forall_impl; [|exact H1]. intros o Ho. simpl in Ho. lia.
  - eapply List.Forall_impl; [|exact H4]. intros oi Hoi.
    apply existsb_elem in Hoi. destruct Hoi as (o & Ho & Hid). exists o. split; [assumption|lia].
  - eapply List.Forall_impl; [|exact H5]. intros e He.
    apply existsb_elem in He. destruct He as (o & Ho & Hid). exists o. split; [assumption|lia].
  - eapply List.Forall_impl; [|exact H6]. intros d Hd.
    apply existsb_elem in Hd. destruct Hd as (o & Ho & Hid). exists o. split; [assumption|lia].
Qed.

Lemma orders_ok_intro db :
  Forall (fun o => o_id o < nextOrderId db) (orders db) ->
  distinctb (fun o o' => o_id o =? o_id o') (orders db) = true ->
  distinctb (fun o o' => String.eqb (o_orderNumber o) (o_orderNumber o')) (orders db) = true ->
  Forall (fun oi => exists o, o ∈ orders db /\ o_id o = oi_orderId oi) (orderItems db) ->
  Forall (fun e => exists o, o ∈ orders db /\ o_id o = ot_orderId e) (orderTracking db) ->
  Forall (fun d => exists o, o ∈ orders db /\ o_id o = d_orderId d) (deliveries db) ->
  orders_ok db = true.
Proof.
  intros H1 H2 H3 H4 H5 H6. unfold orders_ok.
  rewrite !andb_true_iff, !forallb_Forall_iff. repeat split; try assumption.
  - eapply List.Forall_impl; [|exact H1]. intros o Ho. simpl in Ho. lia.
  - eapply List.Forall_impl; [|exact H4]. intros oi (o & Ho & Hid).
    apply existsb_elem. exists o. split; [assumption|lia].
  - eapply List.Forall_impl; [|exact H5]. intros e (o & Ho & Hid).
    apply existsb_elem. exists o. split; [assumption|lia].
  - eapply List.Forall_impl; [|exact H6]. intros d (o & Ho & Hid).
    apply existsb_elem. exists o. split; [assumption|lia].
Qed.

Lemma apply_moves_is_Some moves (m : gmap Z Product) k :
  is_Some (apply_moves moves m !! k) <-> is_Some (m !! k).
Proof.
  rewrite lookup_apply_moves. destruct (m !! k); simpl; split; intros [x H];
    try discriminate; eexists; reflexivity.
Qed.

Lemma db_ok_checkout_db clock co db :
  db_ok db = true ->
  Forall (fun line : CartItem * Product => is_Some (products db !! ci_productId line.1))
         (co_items co) ->
  od_items (co_data co) = List.map orderItemData_of (co_items co) ->
  db_ok (checkout_db clock co db) = true.
Proof.
  intros Hok Hlines Hdata.
  destruct (db_ok_elim db Hok) as (Hlt & Hua & Hfk & Hpair & Hoi).
  apply db_ok_intro; simpl.
  - apply Forall_filter_keep, Hlt.
  - apply distinctb_filter, Hua.
  - rewrite List.Forall_forall in Hfk |- *. intros ci Hci.
    apply filter_In in Hci. destruct Hci as [Hci Hne].
    destruct (Hfk ci Hci) as [(c & Hc & Hid) Hp]. split.
    + exists c. split; [|exact Hid].
      apply list_elem_of_In, filter_In. split; [apply list_elem_of_In, Hc|].
      rewrite Hid. exact Hne.
    + apply apply_moves_is_Some, Hp.
  - apply distinctb_filter, Hpair.
  - apply Forall_app. split.
    + eapply List.Forall_impl; [|exact Hoi]. intros oi Hp. apply apply_moves_is_Some, Hp.
    + unfold placed_items. rewrite Hdata, !List.Forall_map.
      eapply List.Forall_impl; [|exact Hlines]. intros line Hp. simpl.
      apply apply_moves_is_Some, Hp.
Qed.

Lemma orders_ok_checkout_db clock co db :
  orders_ok db = true ->
  number_free (od_orderNumber (co_data co)) db = true ->
  orders_ok (checkout_db clock co db) = true.
Proof.
  intros Hok Hfree.
  destruct (orders_ok_elim db Hok) as (Hlt & Hid & Hnum & Hoi & Het & Hd).
  assert (Hgrow : forall (k : Z),
             (exists o, o ∈ orders db /\ o_id o = k) ->
             exists o, o ∈ orders db ++ [placed_order clock (co_data co) db] /\ o_id o = k).
  { intros k (o & Ho & Hk). exists o. split; [|exact Hk]. apply elem_of_app. left. exact Ho. }
  apply orders_ok_intro; simpl.
  - apply Forall_app. split.
    + eapply List.Forall_impl; [|exact Hlt]. intros o Ho. simpl in Ho. lia.
    + constructor; [simpl; lia|constructor].
  - apply distinctb_snoc; [assumption|].
    eapply List.Forall_impl; [|exact Hlt]. intros o Ho. simpl in *. apply Z.eqb_neq. lia.
  - apply distinctb_snoc; [assumption|].
    unfold number_free in Hfree. apply negb_true_iff, existsb_false_Forall in Hfree.
    exact Hfree.
  - apply Forall_app. split.
    + eapply List.Forall_impl; [|exact Hoi]. intros oi. apply Hgrow.
    + unfold placed_items. rewrite List.Forall_map.
      rewrite List.Forall_forall. intros d _. simpl.
      exists (placed_order clock (co_data co) db). split; [|reflexivity].
      apply elem_of_app. right. apply list_elem_of_singleton. reflexivity.
  - apply Forall_app. split.
    + eapply List.Forall_impl; [|exact Het]. intros e. apply Hgrow.
    + constructor; [|constructor]. simpl.
      exists (placed_order clock (co_data co) db). split; [|reflexivity].
      apply elem_of_app. right. apply list_elem_of_singleton. reflexivity.
  - eapply List.Forall_impl; [|exact Hd]. intros d. apply Hgrow.
Qed.

(** X11.  createOrder keeps the constraints of the schema, whether it
    commits or not: the keys and foreign keys of carts and cart items, and
    those of orders, order items, tracking events and deliveries. *)
Theorem createOrder_keeps_constraints clock user body db :
  db_ok db = true ->
  orders_ok db = true ->
  db_ok (createOrder clock user body db).2 = true
  /\ orders_ok (createOrder clock user body db).2 = true.
Proof.
  intros Hdb Hord.
  destruct (createOrder_cases clock user body db)
    as [(_ & _ & ->)|(cart & _ & _ & Hc & _ & _ & Hfree & ->)]; [split; assumption|].
  simpl. split.
  - apply db_ok_checkout_db; [assumption| |reflexivity]. apply cart_items_products.
  - apply orders_ok_checkout_db; assumption.
Qed.

Lemma createOrder_keeps_constraints_witness :
  db_ok (createOrder Scenario.clock0 Scenario.alice Scenario.body0 Scenario.db0).2 = true
  /\ orders_ok (createOrder Scenario.clock0 Scenario.alice Scenario.body0 Scenario.db0).2
     = true.
Proof.
  apply (createOrder_keeps_constraints Scenario.clock0 Scenario.alice Scenario.body0
           Scenario.db0); vm_compute; reflexivity.
Defined.

(** X12.  createOrder checks the stock it has read with the cart, and its
    transaction lowers the stock without checking it again.  No stock goes
    below zero when, as the transaction starts, no product of the cart has
    less stock than the handler has read.  When another checkout of the last
    unit commits after the handler has read the cart, both checkouts are
    answered 201 and the stock of the product is -1. *)
Theorem createOrder_checks_stock_read clock user body :
  (forall db_cart db_count db,
     db_ok db_cart = true ->
     stock_ok db ->
     (forall cart item product p,
        cart_findFirst (user_id user) db_cart = Some cart ->
        (item, product) ∈ cart_items (cart_id cart) db_cart ->
        products db !! ci_productId item = Some p ->
        p_stock product <= p_stock p) ->
     stock_ok (createOrder_at clock user body db_cart db_count db).2)
  /\ (let r := createOrder_at Scenario.clock0 Scenario.alice Scenario.body0
                 Shop.db_last_unit Shop.db_unit_sold Shop.db_unit_sold in
      res_status (createOrder Scenario.clock0 Scenario.bob Scenario.body0
                    Shop.db_last_unit).1 = 201
      /\ res_status r.1 = 201
      /\ p_stock <$> products Shop.db_last_unit !! 20 = Some 1
      /\ p_stock <$> products r.2 !! 20 = Some (-1)).
Proof.
  assert (Hgen : forall db_cart db_count db,
     db_ok db_cart = true ->
     stock_ok db ->
     (forall cart item product p,
        cart_findFirst (user_id user) db_cart = Some cart ->
        (item, product) ∈ cart_items (cart_id cart) db_cart ->
        products db !! ci_productId item = Some p ->
        p_stock product <= p_stock p) ->
     stock_ok (createOrder_at clock user body db_cart db_count db).2).
  { intros db_cart db_count db Hdb Hstock Hread.
    destruct (createOrder_at_cases clock user body db_cart db_count db)
      as [(_ & _ & ->)|(cart & _ & _ & Hc & _ & Hall & _ & ->)]; [assumption|].
    simpl. intros pid p'. simpl. rewrite lookup_apply_moves.
    destruct (products db !! pid) as [p|] eqn:Hp; [|discriminate].
    simpl. intros [= <-]. simpl.
    pose proof (Hstock pid p Hp) as Hnonneg.
    set (lines := cart_items (cart_id cart) db_cart) in *.
    destruct (existsb (fun line : CartItem * Product => ci_productId line.1 =? pid) lines)
      eqn:Hex.
    - apply existsb_elem in Hex. destruct Hex as ([item product] & Hl & Hid). simpl in Hid.
      apply Z.eqb_eq in Hid.
      pose proof (Forall_elem _ _ _ Hall Hl) as [_ Hle]. simpl in Hle.
      assert (Hge : p_stock product <= p_stock p).
      { apply (Hread cart item product p Hc Hl). rewrite Hid. exact Hp. }
      rewrite (quantity_of_nodup pid (- ci_quantity item)); [lia| |].
      + unfold checkout_moves. rewrite List.map_map. simpl.
        apply cart_items_distinct_products.
        apply db_ok_elim in Hdb. apply Hdb.
      + unfold checkout_moves. apply list_elem_of_In, in_map_iff.
        exists (item, product). simpl. split; [congruence|apply list_elem_of_In, Hl].
    - rewrite quantity_of_notin; [lia|].
      intros m Hm. unfold checkout_moves in Hm.
      apply list_elem_of_In, in_map_iff in Hm. destruct Hm as (line & <- & Hl). simpl.
      apply existsb_false_Forall in Hex.
      rewrite List.Forall_forall in Hex. apply Hex in Hl. apply Z.eqb_neq. exact Hl. }
  split; [exact Hgen|].
  cbv zeta. split; [vm_compute; reflexivity|]. split; [vm_compute; reflexivity|].
  split; vm_compute; reflexivity.
Qed.

(** The two outcomes of a cancellation. *)
Lemma cancelOrder_cases clock user id body db :
  db_ok db = true ->
  (res_success (cancelOrder clock user id body db).1 = false
   /\ (cancelOrder clock user id body db).2 = db)
  \/ (exists orderId order,
        id = Some orderId
        /\ order_findUnique orderId db = Some order
        /\ cancelOrder clock user id body db
           = (mkResponse 200 true orderCancelledMessage None None,
              cancel_db clock user orderId (order_items orderId db) (reason body) db)).
Proof.
  intros Hok. unfold cancelOrder, cancelOrder_handler.
  destruct id as [orderId|]; [|left; split; reflexivity].
  destruct (order_findUnique orderId db) as [order|] eqn:Hfind; [|left; split; reflexivity].
  destruct (negb _ && negb _); [left; split; reflexivity|].
  destruct (negb _ && negb _); [left; split; reflexivity|].
  destruct (_ && negb _ && negb _); [left; split; reflexivity|].
  unfold transaction.
  destruct (cancelOrderTx _ _ _ _ _ db) as [err|[[] db']] eqn:Htx.
  - left. simpl. rewrite ?errorHandler_success. split; reflexivity.
  - right. exists orderId, order. split; [reflexivity|]. split; [exact Hfind|].
    apply cancelOrderTx_inr in Htx. injection Htx as ->. reflexivity.
Qed.

(** What the transaction of updateOrderStatus writes when it commits. *)
Lemma updateOrderStatusTx_frame clock user orderId order body newStatus ud db db' :
  updateOrderStatusTx clock user orderId order body newStatus ud db = inr (tt, db') ->
  exists st,
    OrderStatus_of_string (ud_status ud) = Some st
    /\ existsb (fun o => o_id o =? orderId) (orders db) = true
    /\ products db' = products db
    /\ carts db' = carts db
    /\ cartItems db' = cartItems db
    /\ orderItems db' = orderItems db
    /\ nextCartId db' = nextCartId db
    /\ nextOrderId db' = nextOrderId db
    /\ orders db'
       = List.map (fun o => if o_id o =? orderId then apply_update st ud o else o) (orders db)
    /\ orderTracking db'
       = orderTracking db
         ++ [mkOrderTracking orderId newStatus
               (or (description body) ("Order status updated to " +:+ newStatus))
               (Some (user_id user)) (now clock)]
    /\ Forall (fun d' => d_orderId d' = orderId
                         \/ exists d, d ∈ deliveries db /\ d_orderId d = d_orderId d')
              (deliveries db').
Proof.
  unfold updateOrderStatusTx, order_update_data.
  destruct (OrderStatus_of_string (ud_status ud)) as [st|] eqn:Hst; [|discriminate].
  intros H. exists st. split; [reflexivity|].
  unfold mbind, Tx_bind, bind, order_update in H.
  destruct (existsb (fun o => o_id o =? orderId) (orders db)) eqn:Hex; [|discriminate].
  split; [reflexivity|].
  unfold orderTracking_create in H. cbv beta iota in H.
  destruct (varchar 50 _ && text _); [|discriminate].
  assert (Hkeep : Forall (fun d' => d_orderId d' = orderId
                            \/ exists d, d ∈ deliveries db /\ d_orderId d = d_orderId d')
                         (deliveries db)).
  { rewrite List.Forall_forall. intros d Hd. right. exists d.
    split; [apply list_elem_of_In, Hd|reflexivity]. }
  destruct (_ || _ || _).
  - unfold delivery_upsert in H.
    destruct (negb _); [discriminate|].
    destruct (match or_null (trackingNumber body) with
              | Some t => tracking_taken orderId t _
              | None => false
              end); [discriminate|].
    injection H as <-. simpl. repeat split.
    destruct (existsb (fun d => d_orderId d =? orderId) (deliveries db)).
    + apply List.Forall_map. eapply List.Forall_impl; [|exact Hkeep].
      intros d Hd. destruct (d_orderId d =? orderId) eqn:E; [|exact Hd].
      left. simpl. lia.
    + apply Forall_app. split; [exact Hkeep|]. constructor; [|constructor]. left. reflexivity.
  - unfold mret, Tx_ret, ret in H. injection H as <-. simpl. repeat split. exact Hkeep.
Qed.

(** The two outcomes of a status update. *)
Lemma updateOrderStatus_cases clock user id body db :
  (res_success (updateOrderStatus clock user id body db).1 = false
   /\ (updateOrderStatus clock user id body db).2 = db)
  \/ (exists orderId order st ud,
        id = Some orderId
        /\ order_findUnique orderId db = Some order
        /\ status body ≫= (fun s => OrderStatus_of_string (toUpperCase s)) = Some st
        /\ res_status (updateOrderStatus clock user id body db).1 = 200
        /\ updateOrderStatusTx clock user orderId order body (string_of_OrderStatus st) ud db
           = inr (tt, (updateOrderStatus clock user id body db).2)
        /\ OrderStatus_of_string (ud_status ud) = Some st).
Proof.
  unfold updateOrderStatus, updateOrderStatus_handler.
  destruct id as [orderId|]; [|left; split; reflexivity].
  destruct (negb (truthy (status body))
            || negb (includes validStatuses (toUpperCase (default "" (status body)))))
    eqn:Hvalid; [left; split; reflexivity|].
  destruct (order_findUnique orderId db) as [order|] eqn:Hfind; [|left; split; reflexivity].
  apply orb_false_iff in Hvalid. destruct Hvalid as [Htruthy Hincl].
  destruct (status body) as [s|] eqn:Hs; [|discriminate]. simpl default in *.
  apply negb_false_iff in Hincl.
  destruct (OrderStatus_of_string (toUpperCase s)) as [st|] eqn:Hst;
    [|apply OrderStatus_of_string_none in Hst; congruence].
  pose proof (OrderStatus_of_string_some _ _ Hst) as Hup.
  unfold transaction.
  match goal with
  | |- context [updateOrderStatusTx _ _ _ _ _ _ ?ud db] =>
      destruct (updateOrderStatusTx clock user orderId order body (toUpperCase s) ud db)
        as [err|[[] db']] eqn:Htx
  end.
  - left. simpl. rewrite ?errorHandler_success. split; reflexivity.
  - right. eexists orderId, order, st, _. split; [reflexivity|]. split; [exact Hfind|].
    split; [simpl; exact Hst|]. split; [reflexivity|]. simpl.
    split; [rewrite <- Hup; exact Htx|]. simpl. exact Hst.
Qed.

Lemma exists_order_map (h : Order -> Order) (l : list Order) k :
  (forall o, o_id (h o) = o_id o) ->
  (exists o, o ∈ l /\ o_id o = k) -> exists o, o ∈ List.map h l /\ o_id o = k.
Proof.
  intros Hh (o & Ho & Hk). exists (h o). split; [|rewrite Hh; exact Hk].
  apply list_elem_of_In, in_map, list_elem_of_In, Ho.
Qed.

(** The constraints on orders survive an update of the rows that keeps
    their ids and numbers, with one more event and deliveries of existing
    orders. *)
Lemma orders_ok_update db db' (h : Order -> Order) e :
  orders_ok db = true ->
  (forall o, o_id (h o) = o_id o /\ o_orderNumber (h o) = o_orderNumber o) ->
  orders db' = List.map h (orders db) ->
  orderItems db' = orderItems db ->
  orderTracking db' = orderTracking db ++ [e] ->
  (exists o, o ∈ orders db /\ o_id o = ot_orderId e) ->
  Forall (fun d' => exists o, o ∈ orders db /\ o_id o = d_orderId d') (deliveries db') ->
  nextOrderId db' = nextOrderId db ->
  orders_ok db' = true.
Proof.
  intros Hok Hh Ho Hoi Het He Hd Hnext.
  destruct (orders_ok_elim db Hok) as (Hlt & Hid & Hnum & Hfk1 & Hfk2 & Hfk3).
  assert (Hid' : forall o, o_id (h o) = o_id o) by (intros o; apply Hh).
  apply orders_ok_intro; rewrite ?Ho, ?Hoi, ?Het, ?Hnext.
  - apply List.Forall_map. eapply List.Forall_impl; [|exact Hlt].
    intros o. rewrite Hid'. tauto.
  - rewrite distinctb_map; [assumption|]. intros a b. rewrite !Hid'. reflexivity.
  - rewrite distinctb_map; [assumption|]. intros a b.
    destruct (Hh a) as [_ ->], (Hh b) as [_ ->]. reflexivity.
  - eapply List.Forall_impl; [|exact Hfk1]. intros oi. apply exists_order_map, Hid'.
  - apply Forall_app. split.
    + eapply List.Forall_impl; [|exact Hfk2]. intros x. apply exists_order_map, Hid'.
    + constructor; [|constructor]. apply exists_order_map; assumption.
  - eapply List.Forall_impl; [|exact Hd]. intros d. apply exists_order_map, Hid'.
Qed.

Lemma order_exists_elem orderId db :
  existsb (fun o => o_id o =? orderId) (orders db) = true ->
  exists o, o ∈ orders db /\ o_id o = orderId.
Proof.
  intros H. apply existsb_elem in H. destruct H as (o & Ho & Hk).
  exists o. split; [assumption|lia].
Qed.

Lemma cancelOrder_constraints clock user id body db :
  db_ok db = true -> orders_ok db = true ->
  db_ok (cancelOrder clock user id body db).2 = true
  /\ orders_ok (cancelOrder clock user id body db).2 = true.
Proof.
  intros Hdb Hord.
  destruct (cancelOrder_cases clock user id body db Hdb)
    as [(_ & ->)|(orderId & order & _ & Hfind & ->)]; [split; assumption|].
  simpl. split; [rewrite db_ok_cancel_db; assumption|].
  eapply (orders_ok_update db _
            (fun o => if o_id o =? orderId
                      then with_cancelled o (now clock) (or (reason body) "Cancelled by customer")
                      else o));
    try reflexivity; try assumption.
  - intros o. destruct (o_id o =? orderId); split; reflexivity.
  - simpl. apply order_findUnique_some in Hfind. destruct Hfind as [Hin Hid].
    exists order. split; assumption.
  - simpl. apply orders_ok_elim in Hord. apply Hord.
Qed.

Lemma updateOrderStatus_constraints clock user id body db :
  db_ok db = true -> orders_ok db = true ->
  db_ok (updateOrderStatus clock user id body db).2 = true
  /\ orders_ok (updateOrderStatus clock user id body db).2 = true.
Proof.
  intros Hdb Hord.
  destruct (updateOrderStatus_cases clock user id body db)
    as [(_ & ->)|(orderId & order & st & ud & _ & Hfind & _ & _ & Htx & _)];
    [split; assumption|].
  apply updateOrderStatusTx_frame in Htx.
  destruct Htx as (st' & Hst & Hex & Hp & Hc & Hci & Hoi & Hnc & Hno & Ho & Het & Hd).
  split.
  - unfold db_ok, product_exists in Hdb |- *. rewrite Hp, Hc, Hci, Hoi, Hnc. exact Hdb.
  - eapply (orders_ok_update db _
              (fun o => if o_id o =? orderId then apply_update st' ud o else o));
      try eassumption.
    + intros o. destruct (o_id o =? orderId); split; reflexivity.
    + simpl. apply order_exists_elem, Hex.
    + destruct (orders_ok_elim db Hord) as (_ & _ & _ & _ & _ & Hfk).
      eapply List.Forall_impl; [|exact Hd]. intros d' [Hd'|(d & Hin & Hd')].
      * rewrite Hd'. apply order_exists_elem, Hex.
      * rewrite <- Hd'. exact (Forall_elem _ _ _ Hfk Hin).
Qed.

(** X13.  cancelOrder and updateOrderStatus keep the constraints of the
    schema, whether they commit or not. *)
Theorem order_updates_keep_constraints clock user id db :
  db_ok db = true ->
  orders_ok db = true ->
  (forall body,
     db_ok (cancelOrder clock user id body db).2 = true
     /\ orders_ok (cancelOrder clock user id body db).2 = true)
  /\ (forall body,
        db_ok (updateOrderStatus clock user id body db).2 = true
        /\ orders_ok (updateOrderStatus clock user id body db).2 = true).
Proof.
  intros Hdb Hord. split; intros body.
  - apply cancelOrder_constraints; assumption.
  - apply updateOrderStatus_constraints; assumption.
Qed.

Lemma order_updates_keep_constraints_witness :
  (forall body,
     db_ok (cancelOrder Scenario.clock0 Scenario.admin (Some 1) body
              (Scenario.db_ordered 7 PENDING)).2 = true
     /\ orders_ok (cancelOrder Scenario.clock0 Scenario.admin (Some 1) body
                     (Scenario.db_ordered 7 PENDING)).2 = true)
  /\ (forall body,
        db_ok (updateOrderStatus Scenario.clock0 Scenario.admin (Some 1) body
                 (Scenario.db_ordered 7 PENDING)).2 = true
        /\ orders_ok (updateOrderStatus Scenario.clock0 Scenario.admin (Some 1) body
                        (Scenario.db_ordered 7 PENDING)).2 = true).
Proof.
  apply (order_updates_keep_constraints Scenario.clock0 Scenario.admin (Some 1)
           (Scenario.db_ordered 7 PENDING)); vm_compute; reflexivity.
Defined.

(** X14.  updateOrderStatus writes the status and the milestone times of
    the order, a tracking event and the delivery, and nothing else: the
    products (it returns no stock, even when it sets CANCELLED), the carts,
    the cart items and the order items are as before, and every order keeps
    its id, number, owner, amounts, creation time, cancellation time and
    cancellation reason. *)
Theorem updateOrderStatus_writes_status_only clock user id body db :
  products (updateOrderStatus clock user id body db).2 = products db
  /\ carts (updateOrderStatus clock user id body db).2 = carts db
  /\ cartItems (updateOrderStatus clock user id body db).2 = cartItems db
  /\ orderItems (updateOrderStatus clock user id body db).2 = orderItems db
  /\ Forall2 (fun o o' =>
                o_id o' = o_id o /\ o_orderNumber o' = o_orderNumber o
                /\ o_userId o' = o_userId o
                /\ o_subtotal o' = o_subtotal o /\ o_shippingCost o' = o_shippingCost o
                /\ o_totalAmount o' = o_totalAmount o
                /\ o_createdAt o' = o_createdAt o
                /\ o_cancelledAt o' = o_cancelledAt o
                /\ o_cancelReason o' = o_cancelReason o)
             (orders db) (orders (updateOrderStatus clock user id body db).2).
Proof.
  assert (Hsame : Forall2 (fun o o' =>
                o_id o' = o_id o /\ o_orderNumber o' = o_orderNumber o
                /\ o_userId o' = o_userId o
                /\ o_subtotal o' = o_subtotal o /\ o_shippingCost o' = o_shippingCost o
                /\ o_totalAmount o' = o_totalAmount o
                /\ o_createdAt o' = o_createdAt o
                /\ o_cancelledAt o' = o_cancelledAt o
                /\ o_cancelReason o' = o_cancelReason o) (orders db) (orders db)).
  { induction (orders db); constructor; [repeat split|assumption]. }
  destruct (updateOrderStatus_cases clock user id body db)
    as [(_ & ->)|(orderId & order & st & ud & _ & Hfind & _ & _ & Htx & _)];
    [repeat split; exact Hsame|].
  apply updateOrderStatusTx_frame in Htx.
  destruct Htx as (st' & Hst & Hex & Hp & Hc & Hci & Hoi & Hnc & Hno & Ho & Het & Hd).
  split; [assumption|]. split; [assumption|]. split; [assumption|]. split; [assumption|].
  rewrite Ho. clear. induction (orders db) as [|o l IH]; simpl; constructor; [|exact IH].
  destruct (o_id o =? orderId); repeat split.
Qed.

(** ** The order controller: a checkout and what follows it *)

Lemma find_order_fresh db (o : Order) :
  Forall (fun o' => o_id o' < o_id o) (orders db) ->
  List.find (fun o' => o_id o' =? o_id o) (orders db ++ [o]) = Some o.
Proof.
  intros Hlt. rewrite find_snoc, find_none_intro.
  - rewrite Z.eqb_refl. reflexivity.
  - eapply List.Forall_impl; [|exact Hlt]. intros o' Ho. simpl in Ho. apply Z.eqb_neq. lia.
Qed.

(** The items of the order a checkout has just placed are the ones it
    created. *)
Lemma order_items_checkout_db clock co db :
  orders_ok db = true ->
  order_items (nextOrderId db) (checkout_db clock co db) = placed_items (co_data co) db.
Proof.
  intros Hok. destruct (orders_ok_elim db Hok) as (Hlt & _ & _ & Hfk & _).
  unfold order_items. simpl. rewrite List.filter_app.
  rewrite filter_nil_intro; cycle 1.
  { eapply List.Forall_impl; [|exact Hfk]. intros oi (o & Ho & Hid). simpl.
    pose proof (Forall_elem _ _ _ Hlt Ho) as Hl. simpl in Hl. apply Z.eqb_neq. lia. }
  simpl. unfold placed_items.
  induction (od_items (co_data co)) as [|d l IH]; [reflexivity|].
  simpl. rewrite Z.eqb_refl. f_equal. exact IH.
Qed.

Lemma quantity_of_cancel_checkout pid orderId (lines : list (CartItem * Product)) :
  quantity_of pid
    (cancel_moves (List.map (orderItem_of orderId) (List.map orderItemData_of lines)))
  = - quantity_of pid (checkout_moves lines).
Proof.
  induction lines as [|[item product] lines IH]; [reflexivity|].
  simpl. rewrite IH. destruct (ci_productId item =? pid); lia.
Qed.

Lemma with_stock_twice p a b : with_stock (with_stock p a) b = with_stock p b.
Proof. reflexivity. Qed.

(** The stock moves of the cancellation of the order a checkout has just
    placed keep the stocks within an INT, when they were within one before
    the checkout. *)
Lemma cancel_checkout_moves_fit cartId db :
  db_ok db = true ->
  (forall pid p, products db !! pid = Some p -> int_column (p_stock p) = true) ->
  moves_fit
    (cancel_moves (List.map (orderItem_of (nextOrderId db))
                     (List.map orderItemData_of (cart_items cartId db))))
    (apply_moves (checkout_moves (cart_items cartId db)) (products db)).
Proof.
  intros Hok Hint. destruct (db_ok_elim _ Hok) as (_ & _ & _ & Hlines & _).
  pose proof (cart_items_distinct_products cartId db Hlines) as Hnd.
  apply moves_fit_distinct.
  - unfold cancel_moves. rewrite !map_map. simpl. exact Hnd.
  - apply Forall_forall. intros mv Hmv p1 Hp1.
    unfold cancel_moves in Hmv. rewrite !map_map in Hmv. simpl in Hmv.
    apply list_elem_of_In, in_map_iff in Hmv as ([item product] & <- & Hl).
    simpl in *. apply list_elem_of_In in Hl.
    pose proof Hl as Hl'. apply elem_of_cart_items in Hl' as (_ & _ & Hp). simpl in Hp.
    rewrite lookup_apply_moves, Hp in Hp1. simpl in Hp1. injection Hp1 as <-.
    rewrite (quantity_of_nodup _ (- ci_quantity item)).
    + simpl. replace (p_stock product + - ci_quantity item + ci_quantity item)
        with (p_stock product) by lia.
      by eapply Hint.
    + unfold checkout_moves. rewrite map_map. simpl. exact Hnd.
    + unfold checkout_moves. apply list_elem_of_In, in_map_iff.
      exists (item, product). split; [done|by apply list_elem_of_In].
Qed.

(** X15.  A checkout followed by its cancellation returns every unit.
    When the stocks fit their INT column, the user who has just placed an
    order cancels it, and the reason of the cancellation fits its
    VARCHAR(255) column (none, or at most 255 characters): cancelOrder
    answers 200 and the stock of every product is what it was before the
    checkout.  The cart is not restored: the user has no active cart
    afterwards. *)
Theorem checkout_then_cancel_restores_stock clock user body db order items clock' body' :
  db_ok db = true ->
  orders_ok db = true ->
  (forall pid p, products db !! pid = Some p -> int_column (p_stock p) = true) ->
  res_data (createOrder clock user body db).1 = Some (order, items) ->
  varchar 255 (given_or (reason body') "Cancelled by customer") = true ->
  res_status (cancelOrder clock' user (Some (o_id order)) body'
                (createOrder clock user body db).2).1 = 200
  /\ products (cancelOrder clock' user (Some (o_id order)) body'
                 (createOrder clock user body db).2).2 = products db
  /\ (o_status <$> order_findUnique (o_id order)
                     (cancelOrder clock' user (Some (o_id order)) body'
                        (createOrder clock user body db).2).2) = Some CANCELLED
  /\ cart_findFirst (user_id user)
       (cancelOrder clock' user (Some (o_id order)) body'
          (createOrder clock user body db).2).2 = None.
Proof.
  intros Hdb Hord Hint Hd Hwhy.
  destruct (createOrder_cases clock user body db)
    as [(Hnone & _)|(cart & _ & _ & Hc & _ & Hall & Hfree & Hrun)]; [congruence|].
  set (lines := cart_items (cart_id cart) db) in *.
  set (data := checkout_data clock user body db lines) in *.
  rewrite Hrun in Hd |- *. simpl in Hd. injection Hd as <- <-. simpl.
  set (db1 := checkout_db clock (mkCheckout cart lines data) db).
  assert (Hdb1 : db_ok db1 = true).
  { apply db_ok_checkout_db; [assumption| |reflexivity]. apply cart_items_products. }
  destruct (orders_ok_elim db Hord) as (Hlt & _).
  assert (Hfind : order_findUnique (nextOrderId db) db1 = Some (placed_order clock data db)).
  { unfold order_findUnique. simpl.
    apply (find_order_fresh db (placed_order clock data db)). exact Hlt. }
  assert (Hrun3 : cancelOrder clock' user (Some (nextOrderId db)) body' db1
                  = (mkResponse 200 true orderCancelledMessage None None,
                     cancel_db clock' user (nextOrderId db)
                       (order_items (nextOrderId db) db1) (reason body') db1)).
  { rewrite (cancelOrder_run _ _ _ _ _ _ Hfind).
    - erewrite cancelOrderTx_ok;
        [reflexivity|exact Hfind|apply order_items_products, Hdb1
        |rewrite or_given; exact Hwhy|].
      unfold db1 at 1. rewrite order_items_checkout_db by assumption.
      apply cancel_checkout_moves_fit; assumption.
    - right. split; [reflexivity|]. left. reflexivity.
    - intros _. left. reflexivity. }
  split; [rewrite Hrun3; reflexivity|]. split; [|split].
  - rewrite Hrun3. simpl. unfold db1.
    rewrite order_items_checkout_db by assumption. simpl.
    apply map_eq. intros pid. rewrite !lookup_apply_moves.
    unfold placed_items, data. simpl.
    rewrite quantity_of_cancel_checkout.
    destruct (products db !! pid) as [p|]; [|reflexivity]. simpl.
    rewrite with_stock_twice. f_equal.
    replace (p_stock p + quantity_of pid (checkout_moves lines)
             + - quantity_of pid (checkout_moves lines)) with (p_stock p) by lia.
    apply with_stock_same.
  - rewrite Hrun3. unfold order_findUnique in Hfind |- *. cbn [snd orders cancel_db].
    rewrite find_update by reflexivity. rewrite Hfind. reflexivity.
  - rewrite Hrun3. unfold cart_findFirst. simpl.
    eapply cart_findFirst_after_delete; [|exact Hc|reflexivity].
    apply db_ok_elim in Hdb. apply Hdb.
Qed.

Lemma checkout_then_cancel_restores_stock_witness :
  res_status (cancelOrder Scenario.clock0 Scenario.alice (Some 1) Scenario.noReason
                (createOrder Scenario.clock0 Scenario.alice Scenario.body0 Scenario.db0).2).1
  = 200
  /\ products (cancelOrder Scenario.clock0 Scenario.alice (Some 1) Scenario.noReason
                 (createOrder Scenario.clock0 Scenario.alice Scenario.body0 Scenario.db0).2).2
     = products Scenario.db0
  /\ (o_status <$> order_findUnique 1
                     (cancelOrder Scenario.clock0 Scenario.alice (Some 1) Scenario.noReason
                        (createOrder Scenario.clock0 Scenario.alice Scenario.body0
                           Scenario.db0).2).2) = Some CANCELLED
  /\ cart_findFirst 7
       (cancelOrder Scenario.clock0 Scenario.alice (Some 1) Scenario.noReason
          (createOrder Scenario.clock0 Scenario.alice Scenario.body0 Scenario.db0).2).2
     = None.
Proof.
  refine (checkout_then_cancel_restores_stock Scenario.clock0 Scenario.alice Scenario.body0
            Scenario.db0
            (placed_order Scenario.clock0
               (checkout_data Scenario.clock0 Scenario.alice Scenario.body0 Scenario.db0
                  (cart_items 3 Scenario.db0)) Scenario.db0)
            _ Scenario.clock0 Scenario.noReason _ _ _ _ _).
  - vm_compute. reflexivity.
  - vm_compute. reflexivity.
  - intros pid p Hp. unfold Scenario.db0 in Hp. cbn [products] in Hp.
    apply lookup_insert_Some in Hp as [[_ <-]|[_ Hp]]; [reflexivity|].
    apply lookup_singleton_Some in Hp as [_ <-]. reflexivity.
  - vm_compute. reflexivity.
  - vm_compute. reflexivity.
Defined.

(** X16.  Once an administrator has moved an order to a status other than
    PENDING and CONFIRMED, its owner (who is no administrator) can no
    longer cancel it: cancelOrder answers 400 and writes nothing. *)
Theorem processed_order_not_cancellable clock admin orderId body db order st
    clock' user body' :
  order_findUnique orderId db = Some order ->
  res_success (updateOrderStatus clock admin (Some orderId) body db).1 = true ->
  status body ≫= (fun s => OrderStatus_of_string (toUpperCase s)) = Some st ->
  st <> PENDING -> st <> CONFIRMED ->
  user_role user = USER ->
  o_userId order = user_id user ->
  cancelOrder clock' user (Some orderId) body'
    (updateOrderStatus clock admin (Some orderId) body db).2
  = (mkResponse 400 false notCancellableMessage None None,
     (updateOrderStatus clock admin (Some orderId) body db).2).
Proof.
  intros Hfind Hsucc Hst Hp Hc Hrole Hown.
  destruct (updateOrderStatus_cases clock admin (Some orderId) body db)
    as [(Hrej & _)|(orderId' & order' & st' & ud & Hid & Hfind' & Hst' & _ & Htx & Hud)];
    [congruence|].
  injection Hid as <-. rewrite Hfind in Hfind'. injection Hfind' as <-.
  rewrite Hst in Hst'. injection Hst' as <-.
  apply updateOrderStatusTx_frame in Htx.
  destruct Htx as (st' & Hst' & _ & _ & _ & _ & _ & _ & _ & Ho & _).
  rewrite Hud in Hst'. injection Hst' as <-.
  apply (cancelOrder_owner_rejected clock' user orderId body' _ (apply_update st ud order));
    try assumption.
  unfold order_findUnique in Hfind |- *. rewrite Ho, find_update by reflexivity.
  rewrite Hfind. reflexivity.
Qed.

Lemma processed_order_not_cancellable_witness :
  cancelOrder Scenario.clock0 Scenario.alice (Some 1) Scenario.noReason
    (updateOrderStatus Scenario.clock0 Scenario.admin (Some 1) Scenario.body_shipped
       (Scenario.db_ordered 7 PENDING)).2
  = (mkResponse 400 false notCancellableMessage None None,
     (updateOrderStatus Scenario.clock0 Scenario.admin (Some 1) Scenario.body_shipped
        (Scenario.db_ordered 7 PENDING)).2).
Proof.
  refine (processed_order_not_cancellable Scenario.clock0 Scenario.admin 1
            Scenario.body_shipped (Scenario.db_ordered 7 PENDING)
            (Scenario.order_of 7 PENDING) SHIPPED
            Scenario.clock0 Scenario.alice Scenario.noReason _ _ _ _ _ _ _).
  - vm_compute. reflexivity.
  - vm_compute. reflexivity.
  - vm_compute. reflexivity.
  - discriminate.
  - discriminate.
  - reflexivity.
  - reflexivity.
Defined.

(** ** The order controller: order numbers from one checkout to the next *)

Lemma append_inv_head (s x y : string) : s +:+ x = s +:+ y -> x = y.
Proof.
  induction s as [|c s IH]; simpl; [auto|]. intros [= H]. apply IH, H.
Qed.

Lemma orderNumber_of_inj year k1 k2 :
  0 < k1 -> 0 < k2 -> orderNumber_of year k1 = orderNumber_of year k2 -> k1 = k2.
Proof.
  intros H1 H2 H. unfold orderNumber_of in H.
  apply append_inv_head, append_inv_head, append_inv_head in H.
  destruct (padStart_counter k1 H1) as (P1 & _), (padStart_counter k2 H2) as (P2 & _).
  rewrite H in P1. congruence.
Qed.

Lemma generateOrderNumber_of clock db :
  generateOrderNumber clock db
  = orderNumber_of (getFullYear clock)
      (order_count_gte (startOfYear (getFullYear clock)) db + 1).
Proof. reflexivity. Qed.

Lemma order_count_gte_nonneg t db : 0 <= order_count_gte t db.
Proof. unfold order_count_gte. lia. Qed.

Lemma order_count_checkout_db t clock co db :
  order_count_gte t (checkout_db clock co db)
  = order_count_gte t db + (if t <=? now clock then 1 else 0).
Proof.
  unfold order_count_gte. simpl. rewrite List.filter_app, length_app. simpl.
  destruct (t <=? now clock); simpl; lia.
Qed.

(** X17.  Order numbers from one checkout to the next.  When the numbers
    of the current year in use have counters up to the number of orders
    dated from the start of the year (as in a store without orders), the
    number createOrder generates is free; and a checkout at a time that is
    not before that start, committed or not, keeps it so. *)
Theorem sequential_order_numbers_free clock user body db :
  numbers_below (getFullYear clock) db ->
  number_free (generateOrderNumber clock db) db = true
  /\ (startOfYear (getFullYear clock) <= now clock ->
      numbers_below (getFullYear clock) (createOrder clock user body db).2).
Proof.
  intros Hbelow.
  assert (Hfree : number_free (generateOrderNumber clock db) db = true).
  { unfold number_free. apply negb_true_iff.
    destruct (existsb _ (orders db)) eqn:Hex; [|reflexivity]. exfalso.
    apply existsb_elem in Hex. destruct Hex as (o & Ho & Hnum).
    apply String.eqb_eq in Hnum. rewrite generateOrderNumber_of in Hnum.
    pose proof (order_count_gte_nonneg (startOfYear (getFullYear clock)) db) as Hnn.
    assert (Hpos : 0 < order_count_gte (startOfYear (getFullYear clock)) db + 1) by lia.
    pose proof (Hbelow o _ Ho Hpos Hnum). lia. }
  split; [exact Hfree|]. intros Hstart.
  destruct (createOrder_cases clock user body db)
    as [(_ & _ & ->)|(cart & _ & _ & _ & _ & _ & _ & ->)]; [exact Hbelow|].
  simpl. intros o k Ho Hk Hnum. rewrite order_count_checkout_db.
  apply Z.leb_le in Hstart. rewrite Hstart.
  simpl in Ho. apply elem_of_app in Ho. destruct Ho as [Ho|Ho].
  - pose proof (Hbelow o k Ho Hk Hnum). lia.
  - apply list_elem_of_singleton in Ho. subst o. simpl in Hnum.
    rewrite generateOrderNumber_of in Hnum.
    pose proof (order_count_gte_nonneg (startOfYear (getFullYear clock)) db) as Hnn.
    apply orderNumber_of_inj in Hnum; lia.
Qed.

Lemma sequential_order_numbers_free_witness :
  number_free (generateOrderNumber Scenario.clock0 Scenario.db0) Scenario.db0 = true
  /\ (startOfYear (getFullYear Scenario.clock0) <= now Scenario.clock0 ->
      numbers_below (getFullYear Scenario.clock0)
        (createOrder Scenario.clock0 Scenario.alice Scenario.body0 Scenario.db0).2).
Proof.
  apply (sequential_order_numbers_free Scenario.clock0 Scenario.alice Scenario.body0
           Scenario.db0).
  intros o k Ho. simpl in Ho. apply elem_of_nil in Ho. destruct Ho.
Defined.

Lemma order_count_none t db :
  Forall (fun o => o_createdAt o < t) (orders db) -> order_count_gte t db = 0.
Proof.
  intros H. unfold order_count_gte. rewrite filter_nil_intro; [reflexivity|].
  eapply List.Forall_impl; [|exact H]. intros o Ho. simpl in Ho. lia.
Qed.

(** X18.  Between the new year of the server's zone and the new year of
    UTC (a server east of UTC, in the first hours of its year), the count
    of the year's orders stays 0.  So the first order placed in that time
    gets the counter 000001, and after it every checkout, of any user, is
    rejected and writes nothing; one that passes all the checks of the
    cart, with an order row that fits its columns (the address and the
    notes a TEXT, the phone a VARCHAR(15), the amounts a DECIMAL(10,2)),
    fails on the unique order number, with status 400 and the code
    P2002. *)
Theorem new_year_order_number_collides clock user body db order items :
  now clock < startOfYear (getFullYear clock) ->
  Forall (fun o => o_createdAt o < startOfYear (getFullYear clock)) (orders db) ->
  res_data (createOrder clock user body db).1 = Some (order, items) ->
  o_orderNumber order = "RA-" +:+ String_of_Z (getFullYear clock) +:+ "-000001"
  /\ forall clock' user' body',
       getFullYear clock' = getFullYear clock ->
       now clock' < startOfYear (getFullYear clock) ->
       res_success (createOrder clock' user' body' (createOrder clock user body db).2).1
       = false
       /\ (createOrder clock' user' body' (createOrder clock user body db).2).2
          = (createOrder clock user body db).2
       /\ forall cart,
            truthy (shippingAddress body') = true ->
            truthy (shippingPhone body') = true ->
            cart_findFirst (user_id user') (createOrder clock user body db).2 = Some cart ->
            cart_items (cart_id cart) (createOrder clock user body db).2 <> [] ->
            Forall line_ok (cart_items (cart_id cart) (createOrder clock user body db).2) ->
            order_fits body' (cart_items (cart_id cart) (createOrder clock user body db).2) ->
            res_status
              (createOrder clock' user' body' (createOrder clock user body db).2).1 = 400
            /\ res_code
                 (createOrder clock' user' body' (createOrder clock user body db).2).1
               = Some "P2002".
Proof.
  intros Hwindow Hold Hd.
  destruct (createOrder_cases clock user body db)
    as [(Hnone & _)|(cart & _ & _ & Hc & _ & _ & _ & Hrun)]; [congruence|].
  rewrite Hrun in Hd |- *. simpl in Hd. injection Hd as <- <-. simpl.
  set (lines := cart_items (cart_id cart) db) in *.
  set (data := checkout_data clock user body db lines) in *.
  set (db1 := checkout_db clock (mkCheckout cart lines data) db).
  assert (Hnum : generateOrderNumber clock db
                 = "RA-" +:+ String_of_Z (getFullYear clock) +:+ "-000001").
  { rewrite generateOrderNumber_of, order_count_none by assumption. reflexivity. }
  split; [exact Hnum|].
  intros clock' user' body' Hyear Hwindow'.
  assert (Htaken : number_free (generateOrderNumber clock' db1) db1 = false).
  { rewrite generateOrderNumber_of, Hyear. unfold db1 at 1.
    rewrite order_count_checkout_db, order_count_none by assumption.
    replace (startOfYear (getFullYear clock) <=? now clock) with false
      by (symmetry; apply Z.leb_gt; lia).
    unfold number_free. apply negb_false_iff, existsb_elem.
    exists (placed_order clock data db). split.
    - unfold db1. simpl. apply elem_of_app. right. apply list_elem_of_singleton. reflexivity.
    - apply String.eqb_eq. simpl. rewrite Hnum. reflexivity. }
  destruct (createOrder_cases clock' user' body' db1)
    as [(_ & Hrej & Hsame)|(cart' & _ & _ & _ & _ & _ & Hfree & _)]; [|congruence].
  split; [exact Hrej|]. split; [exact Hsame|].
  intros cart' Ha Hp Hc' Hne Hall Hfits.
  rewrite (createOrder_collision _ _ _ _ _ Ha Hp Hc' Hne Hall Hfits Htaken).
  split; reflexivity.
Qed.

Lemma new_year_order_number_collides_witness :
  o_orderNumber
    (placed_order Shop.clock_east
       (checkout_data Shop.clock_east Scenario.alice Scenario.body0 Scenario.db_two
          (cart_items 3 Scenario.db_two)) Scenario.db_two)
  = "RA-" +:+ String_of_Z (getFullYear Shop.clock_east) +:+ "-000001"
  /\ forall clock' user' body',
       getFullYear clock' = getFullYear Shop.clock_east ->
       now clock' < startOfYear (getFullYear Shop.clock_east) ->
       res_success
         (createOrder clock' user' body'
            (createOrder Shop.clock_east Scenario.alice Scenario.body0 Scenario.db_two).2).1
       = false
       /\ (createOrder clock' user' body'
             (createOrder Shop.clock_east Scenario.alice Scenario.body0 Scenario.db_two).2).2
          = (createOrder Shop.clock_east Scenario.alice Scenario.body0 Scenario.db_two).2
       /\ forall cart,
            truthy (shippingAddress body') = true ->
            truthy (shippingPhone body') = true ->
            cart_findFirst (user_id user')
              (createOrder Shop.clock_east Scenario.alice Scenario.body0 Scenario.db_two).2
            = Some cart ->
            cart_items (cart_id cart)
              (createOrder Shop.clock_east Scenario.alice Scenario.body0 Scenario.db_two).2
            <> [] ->
            Forall line_ok
              (cart_items (cart_id cart)
                 (createOrder Shop.clock_east Scenario.alice Scenario.body0
                    Scenario.db_two).2) ->
            order_fits body'
              (cart_items (cart_id cart)
                 (createOrder Shop.clock_east Scenario.alice Scenario.body0
                    Scenario.db_two).2) ->
            res_status
              (createOrder clock' user' body'
                 (createOrder Shop.clock_east Scenario.alice Scenario.body0
                    Scenario.db_two).2).1 = 400
            /\ res_code
                 (createOrder clock' user' body'
                    (createOrder Shop.clock_east Scenario.alice Scenario.body0
                       Scenario.db_two).2).1
               = Some "P2002".
Proof.
  refine (new_year_order_number_collides Shop.clock_east Scenario.alice Scenario.body0
            Scenario.db_two _ _ _ _ _).
  - vm_compute. reflexivity.
  - constructor.
  - vm_compute. reflexivity.
Defined.

(** The second customer of the night: an hour after the first order of
    the local year 2027, a checkout that passes every check is refused. *)
Example new_year_second_checkout :
  let db1 := (createOrder Shop.clock_east Scenario.alice Scenario.body0 Scenario.db_two).2 in
  let r := createOrder (mkClock (now Shop.clock_east + 3600000) 300) Scenario.bob
             Scenario.body0 db1 in
  (getFullYear Shop.clock_east, res_status r.1, res_code r.1, r.2)
  = (2027, 400, Some "P2002", db1).
Proof. vm_compute. reflexivity. Qed.

(** ** The order controller: the views of an order *)

Lemma owner_or_admin user (order : Order) :
  negb (o_userId order =? user_id user) && negb (is_admin user) = false
  <-> o_userId order = user_id user \/ user_role user = ADMIN.
Proof.
  unfold is_admin. destruct (user_role user), (o_userId order =? user_id user) eqn:E; simpl;
    split; try tauto; try discriminate; try (intros _; left; lia); try (intros _; right; reflexivity).
  intros [H|H]; [lia|discriminate].
Qed.

(** X19.  getOrder and getOrderTracking show an order to its owner and to
    administrators only.  Either answers with data exactly when the id
    names an order that belongs to the user or the user is an administrator
    (the data being that order's); for an order of someone else, a user who
    is no administrator is answered 403. *)
Theorem order_views_owner_or_admin {A} (included : DB -> Order -> A) user id db :
  (forall d,
     res_data (getOrder included user id db) = Some d
     <-> exists order,
           id = Some (o_id order)
           /\ order_findUnique (o_id order) db = Some order
           /\ (o_userId order = user_id user \/ user_role user = ADMIN)
           /\ d = (order, included db order))
  /\ (forall v,
        res_data (getOrderTracking user id db) = Some v
        <-> exists order,
              id = Some (o_id order)
              /\ order_findUnique (o_id order) db = Some order
              /\ (o_userId order = user_id user \/ user_role user = ADMIN)
              /\ v = mkTrackingView (o_orderNumber order) (o_status order)
                       (delivery_findUnique (o_id order) db)
                       (orderTracking_findMany (o_id order) db))
  /\ (forall order,
        id = Some (o_id order) ->
        order_findUnique (o_id order) db = Some order ->
        o_userId order <> user_id user ->
        user_role user = USER ->
        getOrder included user id db
        = mkResponse 403 false "Not authorized to view this order" None None
        /\ getOrderTracking user id db = mkResponse 403 false "Not authorized" None None).
Proof.
  split; [|split].
  - intros d. unfold getOrder, getOrder_handler. split.
    + destruct id as [orderId|]; [|simpl; discriminate].
      destruct (order_findUnique orderId db) as [order|] eqn:Hfind; [|simpl; discriminate].
      destruct (negb _ && negb _) eqn:Hauth; [simpl; discriminate|].
      simpl. intros [= <-]. exists order.
      pose proof (order_findUnique_some _ _ _ Hfind) as [_ <-].
      split; [reflexivity|]. split; [exact Hfind|]. split; [|reflexivity].
      apply owner_or_admin, Hauth.
    + intros (order & -> & Hfind & Hauth & ->). rewrite Hfind.
      apply owner_or_admin in Hauth. rewrite Hauth. reflexivity.
  - intros v. unfold getOrderTracking, getOrderTracking_handler. split.
    + destruct id as [orderId|]; [|simpl; discriminate].
      destruct (order_findUnique orderId db) as [order|] eqn:Hfind; [|simpl; discriminate].
      destruct (negb _ && negb _) eqn:Hauth; [simpl; discriminate|].
      simpl. intros [= <-]. exists order.
      pose proof (order_findUnique_some _ _ _ Hfind) as [_ <-].
      split; [reflexivity|]. split; [exact Hfind|]. split; [|reflexivity].
      apply owner_or_admin, Hauth.
    + intros (order & -> & Hfind & Hauth & ->). rewrite Hfind.
      apply owner_or_admin in Hauth. rewrite Hauth. reflexivity.
  - intros order -> Hfind Hother Hrole.
    unfold getOrder, getOrder_handler, getOrderTracking, getOrderTracking_handler.
    rewrite Hfind. unfold is_admin. rewrite Hrole.
    apply Z.eqb_neq in Hother. rewrite Hother. split; reflexivity.
Qed.

Lemma insertNewestFirst_perm e l : insertNewestFirst e l ≡ₚ e :: l.
Proof.
  induction l as [|x l IH]; [reflexivity|]. simpl.
  destruct (ot_timestamp x <=? ot_timestamp e); [reflexivity|].
  rewrite IH. apply perm_swap.
Qed.

Lemma newestFirst_perm l : newestFirst l ≡ₚ l.
Proof.
  induction l as [|e l IH]; [reflexivity|]. simpl.
  rewrite insertNewestFirst_perm, IH. reflexivity.
Qed.

Lemma insertNewestFirst_descending e l :
  descending l -> descending (insertNewestFirst e l).
Proof.
  induction l as [|x l IH]; [simpl; intros _; split; [constructor|exact I]|].
  simpl. intros [Hx Hl]. destruct (ot_timestamp x <=? ot_timestamp e) eqn:E.
  - simpl. split; [|split; assumption].
    constructor; [lia|]. eapply List.Forall_impl; [|exact Hx]. intros y Hy. simpl in Hy. lia.
  - simpl. split; [|apply IH, Hl].
    rewrite insertNewestFirst_perm. constructor; [lia|exact Hx].
Qed.

Lemma newestFirst_descending l : descending (newestFirst l).
Proof.
  induction l as [|e l IH]; [exact I|]. simpl. apply insertNewestFirst_descending, IH.
Qed.

(** X20.  The history getOrderTracking shows holds exactly the tracking
    events of the order, each once, from the newest to the oldest. *)
Theorem tracking_history_newest_first user orderId db v :
  res_data (getOrderTracking user (Some orderId) db) = Some v ->
  tv_trackingHistory v
  ≡ₚ List.filter (fun e => ot_orderId e =? orderId) (orderTracking db)
  /\ descending (tv_trackingHistory v)
  /\ (forall e, e ∈ tv_trackingHistory v <-> e ∈ orderTracking db /\ ot_orderId e = orderId).
Proof.
  unfold getOrderTracking, getOrderTracking_handler.
  destruct (order_findUnique orderId db) as [order|]; [|simpl; discriminate].
  destruct (negb _ && negb _); [simpl; discriminate|].
  simpl. intros [= <-]. simpl. unfold orderTracking_findMany.
  split; [apply newestFirst_perm|]. split; [apply newestFirst_descending|].
  intros e. rewrite newestFirst_perm.
  rewrite list_elem_of_In, filter_In, <- list_elem_of_In. rewrite Z.eqb_eq. reflexivity.
Qed.

Lemma tracking_history_newest_first_witness :
  [order_placed_event Scenario.clock0 1]
  ≡ₚ List.filter (fun e => ot_orderId e =? 1) (orderTracking (Scenario.db_ordered 7 PENDING))
  /\ descending [order_placed_event Scenario.clock0 1]
  /\ (forall e, e ∈ [order_placed_event Scenario.clock0 1]
                <-> e ∈ orderTracking (Scenario.db_ordered 7 PENDING) /\ ot_orderId e = 1).
Proof.
  refine (tracking_history_newest_first Scenario.alice 1 (Scenario.db_ordered 7 PENDING)
            (mkTrackingView "RA-2026-000001" PENDING None
               [order_placed_event Scenario.clock0 1]) _).
  vm_compute. reflexivity.
Defined.

(** X21.  The order a checkout has placed can be read back at once: to the
    user who placed it, getOrder shows the order of the 201 answer,
    getOrderTracking shows its number, the status PENDING, no delivery and
    the single event 'Order Placed', and the order's items are those of the
    answer. *)
Theorem placed_order_read_back {A} (included : DB -> Order -> A) clock user body db
    order items :
  orders_ok db = true ->
  res_data (createOrder clock user body db).1 = Some (order, items) ->
  res_data (getOrder included user (Some (o_id order)) (createOrder clock user body db).2)
  = Some (order, included (createOrder clock user body db).2 order)
  /\ order_items (o_id order) (createOrder clock user body db).2 = items
  /\ res_data (getOrderTracking user (Some (o_id order)) (createOrder clock user body db).2)
     = Some (mkTrackingView (o_orderNumber order) PENDING None
               [order_placed_event clock (o_id order)]).
Proof.
  intros Hord Hd.
  destruct (createOrder_cases clock user body db)
    as [(Hnone & _)|(cart & _ & _ & Hc & _ & _ & _ & Hrun)]; [congruence|].
  set (lines := cart_items (cart_id cart) db) in *.
  set (data := checkout_data clock user body db lines) in *.
  rewrite Hrun in Hd |- *. simpl in Hd. injection Hd as <- <-. simpl fst. simpl snd.
  set (db1 := checkout_db clock (mkCheckout cart lines data) db).
  destruct (orders_ok_elim db Hord) as (Hlt & _ & _ & _ & Het & Hdel).
  assert (Hfind : order_findUnique (nextOrderId db) db1 = Some (placed_order clock data db)).
  { unfold order_findUnique. simpl.
    apply (find_order_fresh db (placed_order clock data db)). exact Hlt. }
  assert (Hfresh : forall o, o ∈ orders db -> (o_id o =? nextOrderId db) = false).
  { intros o Ho. pose proof (Forall_elem _ _ _ Hlt Ho) as Hl. simpl in Hl.
    apply Z.eqb_neq. lia. }
  change (o_id (placed_order clock data db)) with (nextOrderId db).
  split; [|split].
  - unfold getOrder, getOrder_handler. rewrite Hfind. simpl.
    rewrite Z.eqb_refl. reflexivity.
  - unfold db1. rewrite order_items_checkout_db by assumption. reflexivity.
  - unfold getOrderTracking, getOrderTracking_handler. rewrite Hfind. simpl.
    rewrite Z.eqb_refl. simpl. f_equal. f_equal.
    + unfold delivery_findUnique. simpl. apply find_none_intro.
      eapply List.Forall_impl; [|exact Hdel]. intros d (o & Ho & Hid). simpl.
      rewrite <- Hid. apply Hfresh, Ho.
    + unfold orderTracking_findMany. simpl. rewrite List.filter_app.
      rewrite filter_nil_intro; cycle 1.
      { eapply List.Forall_impl; [|exact Het]. intros e (o & Ho & Hid). simpl.
        rewrite <- Hid. apply Hfresh, Ho. }
      simpl. rewrite Z.eqb_refl. reflexivity.
Qed.

Lemma placed_order_read_back_witness :
  res_data (getOrder (fun db o => order_items (o_id o) db) Scenario.alice (Some 1)
              (createOrder Scenario.clock0 Scenario.alice Scenario.body0 Scenario.db0).2)
  = Some (placed_order Scenario.clock0
            (checkout_data Scenario.clock0 Scenario.alice Scenario.body0 Scenario.db0
               (cart_items 3 Scenario.db0)) Scenario.db0,
          order_items 1
            (createOrder Scenario.clock0 Scenario.alice Scenario.body0 Scenario.db0).2)
  /\ order_items 1 (createOrder Scenario.clock0 Scenario.alice Scenario.body0 Scenario.db0).2
     = placed_items
         (checkout_data Scenario.clock0 Scenario.alice Scenario.body0 Scenario.db0
            (cart_items 3 Scenario.db0)) Scenario.db0
  /\ res_data (getOrderTracking Scenario.alice (Some 1)
                 (createOrder Scenario.clock0 Scenario.alice Scenario.body0 Scenario.db0).2)
     = Some (mkTrackingView "RA-2026-000001" PENDING None
               [order_placed_event Scenario.clock0 1]).
Proof.
  refine (placed_order_read_back (fun db o => order_items (o_id o) db)
            Scenario.clock0 Scenario.alice Scenario.body0 Scenario.db0
            (placed_order Scenario.clock0
               (checkout_data Scenario.clock0 Scenario.alice Scenario.body0 Scenario.db0
                  (cart_items 3 Scenario.db0)) Scenario.db0)
            (placed_items
               (checkout_data Scenario.clock0 Scenario.alice Scenario.body0 Scenario.db0
                  (cart_items 3 Scenario.db0)) Scenario.db0) _ _).
  - vm_compute. reflexivity.
  - vm_compute. reflexivity.
Defined.

(** ** Further properties of getCart, createOrder and cancelOrder *)

(** X22.  getCart creates at most one cart: its answer names an active
    cart of the user, it writes nothing when the user already has one, and
    asking again gives the same answer and the same database. *)
Theorem getCart_idempotent user db :
  getCart user (getCart user db).2 = getCart user db
  /\ (is_Some (cart_findFirst (user_id user) db) -> (getCart user db).2 = db)
  /\ exists cart,
       cart_findFirst (user_id user) (getCart user db).2 = Some cart
       /\ cart_id cart = (getCart user db).1.1.1
       /\ cart_userId cart = user_id user
       /\ cart_isActive cart = true.
Proof.
  assert (Hfound : forall cart d,
            cart_findFirst (user_id user) d = Some cart ->
            getCart user d
            = ((cart_id cart, List.map cartLine_of (cart_items (cart_id cart) d),
                fold_left (fun subtotal l => PrimFloat.add subtotal (cl_itemTotal l))
                          (List.map cartLine_of (cart_items (cart_id cart) d)) 0%float), d)).
  { intros cart d H. unfold getCart, getOrCreateCart. rewrite H. reflexivity. }
  destruct (cart_findFirst (user_id user) db) as [cart|] eqn:Hfind.
  - rewrite (Hfound cart db Hfind). simpl. rewrite (Hfound cart db Hfind).
    split; [reflexivity|]. split; [reflexivity|].
    exists cart. apply cart_findFirst_some in Hfind as Hc. destruct Hc as (_ & Hu & Ha).
    repeat split; assumption.
  - set (cart := mkCart (nextCartId db) (user_id user) true).
    set (db1 := set_nextCartId (nextCartId db + 1) (set_carts (fun l => l ++ [cart]) db)).
    assert (Hrun : getCart user db
                   = ((cart_id cart, List.map cartLine_of (cart_items (cart_id cart) db1),
                       fold_left (fun subtotal l => PrimFloat.add subtotal (cl_itemTotal l))
                         (List.map cartLine_of (cart_items (cart_id cart) db1)) 0%float),
                      db1)).
    { unfold getCart, getOrCreateCart. rewrite Hfind. reflexivity. }
    assert (Hfind1 : cart_findFirst (user_id user) db1 = Some cart).
    { unfold cart_findFirst in Hfind |- *. simpl. rewrite find_snoc, Hfind. simpl.
      rewrite Z.eqb_refl. reflexivity. }
    rewrite Hrun. simpl. rewrite (Hfound cart db1 Hfind1).
    split; [reflexivity|]. split; [intros [c Hc]; discriminate|].
    exists cart. repeat split. exact Hfind1.
Qed.

(** X23.  A committed checkout places an order with at least one item;
    when every cart line asks for at least one unit, so does every item of
    the order. *)
Theorem createOrder_items_positive clock user body db order items :
  quantities_ok db = true ->
  res_data (createOrder clock user body db).1 = Some (order, items) ->
  items <> [] /\ Forall (fun oi => 1 <= oi_quantity oi /\ oi_orderId oi = o_id order) items.
Proof.
  intros Hqs Hd.
  destruct (createOrder_cases clock user body db)
    as [(Hnone & _)|(cart & _ & _ & Hc & Hne & _ & _ & Hrun)]; [congruence|].
  rewrite Hrun in Hd. simpl in Hd. injection Hd as <- <-.
  unfold placed_items. simpl. split.
  - destruct (cart_items (cart_id cart) db); [congruence|discriminate].
  - rewrite !List.Forall_map. rewrite List.Forall_forall. intros [item product] Hl. simpl.
    split; [|reflexivity].
    apply list_elem_of_In, elem_of_cart_items in Hl. destruct Hl as (Hin & _). simpl in Hin.
    apply quantities_ok_elim in Hqs. exact (Forall_elem _ _ _ Hqs Hin).
Qed.

Lemma createOrder_items_positive_witness :
  placed_items
    (checkout_data Scenario.clock0 Scenario.alice Scenario.body0 Scenario.db0
       (cart_items 3 Scenario.db0)) Scenario.db0 <> []
  /\ Forall (fun oi => 1 <= oi_quantity oi /\ oi_orderId oi = 1)
       (placed_items
          (checkout_data Scenario.clock0 Scenario.alice Scenario.body0 Scenario.db0
             (cart_items 3 Scenario.db0)) Scenario.db0).
Proof.
  refine (createOrder_items_positive Scenario.clock0 Scenario.alice Scenario.body0
            Scenario.db0
            (placed_order Scenario.clock0
               (checkout_data Scenario.clock0 Scenario.alice Scenario.body0 Scenario.db0
                  (cart_items 3 Scenario.db0)) Scenario.db0)
            _ _ _).
  - vm_compute. reflexivity.
  - vm_compute. reflexivity.
Defined.

(** X24.  cancelOrder writes the order, the stock and one tracking event,
    and nothing else: the carts, the cart items, the order items and the
    deliveries are as before (the delivery of a cancelled order stays), no
    order is added or removed, and every order keeps its id, number, owner,
    amounts and creation time, and its status unless it becomes
    CANCELLED. *)
Theorem cancelOrder_writes_order_only clock user id body db :
  db_ok db = true ->
  carts (cancelOrder clock user id body db).2 = carts db
  /\ cartItems (cancelOrder clock user id body db).2 = cartItems db
  /\ orderItems (cancelOrder clock user id body db).2 = orderItems db
  /\ deliveries (cancelOrder clock user id body db).2 = deliveries db
  /\ Forall2 (fun o o' =>
                o_id o' = o_id o /\ o_orderNumber o' = o_orderNumber o
                /\ o_userId o' = o_userId o
                /\ o_subtotal o' = o_subtotal o /\ o_shippingCost o' = o_shippingCost o
                /\ o_totalAmount o' = o_totalAmount o
                /\ o_createdAt o' = o_createdAt o
                /\ (o_status o' = o_status o \/ o_status o' = CANCELLED))
             (orders db) (orders (cancelOrder clock user id body db).2).
Proof.
  intros Hdb.
  destruct (cancelOrder_cases clock user id body db Hdb)
    as [(_ & ->)|(orderId & order & _ & _ & ->)].
  - repeat split. induction (orders db); constructor; [|assumption].
    repeat split. left. reflexivity.
  - simpl. repeat split.
    induction (orders db) as [|o l IH]; simpl; constructor; [|exact IH].
    destruct (o_id o =? orderId); repeat split; simpl; auto.
Qed.

Lemma cancelOrder_writes_order_only_witness :
  carts (cancelOrder Scenario.clock0 Scenario.alice (Some 1) Scenario.noReason
           (Scenario.db_ordered 7 PENDING)).2 = carts (Scenario.db_ordered 7 PENDING)
  /\ cartItems (cancelOrder Scenario.clock0 Scenario.alice (Some 1) Scenario.noReason
                  (Scenario.db_ordered 7 PENDING)).2 = cartItems (Scenario.db_ordered 7 PENDING)
  /\ orderItems (cancelOrder Scenario.clock0 Scenario.alice (Some 1) Scenario.noReason
                   (Scenario.db_ordered 7 PENDING)).2
     = orderItems (Scenario.db_ordered 7 PENDING)
  /\ deliveries (cancelOrder Scenario.clock0 Scenario.alice (Some 1) Scenario.noReason
                   (Scenario.db_ordered 7 PENDING)).2
     = deliveries (Scenario.db_ordered 7 PENDING)
  /\ Forall2 (fun o o' =>
                o_id o' = o_id o /\ o_orderNumber o' = o_orderNumber o
                /\ o_userId o' = o_userId o
                /\ o_subtotal o' = o_subtotal o /\ o_shippingCost o' = o_shippingCost o
                /\ o_totalAmount o' = o_totalAmount o
                /\ o_createdAt o' = o_createdAt o
                /\ (o_status o' = o_status o \/ o_status o' = CANCELLED))
             (orders (Scenario.db_ordered 7 PENDING))
             (orders (cancelOrder Scenario.clock0 Scenario.alice (Some 1) Scenario.noReason
                        (Scenario.db_ordered 7 PENDING)).2).
Proof.
  apply (cancelOrder_writes_order_only Scenario.clock0 Scenario.alice (Some 1)
           Scenario.noReason (Scenario.db_ordered 7 PENDING)).
  vm_compute. reflexivity.
Defined.

(** ** The cart controller: the answers, guard by guard *)

Lemma cartLineOf_getOrCreateCart userId productId db cart db1 :
  db_ok db = true ->
  getOrCreateCart userId db = (cart, db1) ->
  cartItem_findUnique_pair (cart_id cart) productId db1 = cartLineOf userId productId db.
Proof.
  intros Hok. unfold getOrCreateCart, cartLineOf.
  destruct (cart_findFirst userId db) as [c|].
  - intros [= <- <-]. reflexivity.
  - unfold cart_create. intros [= <- <-]. simpl.
    apply (cartItem_findUnique_pair_fresh db productId Hok).
Qed.

Lemma int_column_plain n : int_column n = true -> plain_number n.
Proof.
  unfold int_column, plain_number. intros H.
  change (10 ^ 21) with 1000000000000000000000. lia.
Qed.



